(** * homelab-mcp: authorization core (OAuth code/token stores, PKCE,
      capability gate and dispatcher, token endpoint)

    A shallow embedding of [src/oauth.ts], [src/index.ts], [src/config.ts],
    the registry of [src/tools/index.ts] and [formatUptime] of
    [src/tools/proxmox.ts], followed by the properties proved about it.

    Conventions of the embedding.
    - A JavaScript string is a [string]: the sequence of its bytes in
      generalized UTF-8, which is UTF-8 extended to the unpaired surrogates
      (U+D800 to U+DFFF are written [ED A0..BF 80..BF], three bytes like
      their neighbours).  The encoding is one to one, so [===] on two
      strings is equality of these sequences, and the separators the code
      looks for ([&], [=], [:], [+], the prefixes [Basic ] and [Bearer ])
      are single bytes that occur nowhere inside a longer character.
      [Buffer.from] and [Hash.update] see the UTF-8 encoding, which has
      U+FFFD in place of every unpaired surrogate: [Bytes.of_string].
    - [undefined]/[null] for an optional string is [None].
    - A value read from a JSON body is a [Json.value]; the declared
      parameter types of [oauth.ts] do not exist at run time, and the
      functions that the token endpoint calls with such values are given a
      second time in [Http.Untyped], on every JSON value.
    - [Date.now()] is a millisecond count in [Z], passed to every function
      that reads the clock.
    - [randomBytes(32)] is a list of byte values passed to the function that
      draws it.
    - The two module-level [Map]s of [oauth.ts] are [gmap]s threaded through
      the functions as an explicit state.
    - Resources are unbounded: no call exhausts the stack or the memory. *)

From Stdlib Require Import ZArith List String Ascii Lia Bool DecimalString.
From stdpp Require Import gmap strings list fin_maps.
Import ListNotations.

#[local] Set Warnings "-register-all".
Local Open Scope string_scope.

(* ===================================================================== *)
(** ** Bytes, hexadecimal and base64url text                              *)
(* ===================================================================== *)

Module Bytes.
Local Open Scope Z_scope.

(** The first two bytes of an unpaired surrogate: [ED], then [A0] to [BF]
    (in UTF-8 proper [ED] is followed by [80] to [9F]). *)
Definition surrogate (a b : ascii) : bool :=
  (N_of_ascii a =? 237)%N && (160 <=? N_of_ascii b)%N && (N_of_ascii b <=? 191)%N.

(** [s.toWellFormed()]: U+FFFD, which is [EF BF BD], in place of every
    unpaired surrogate. *)
Fixpoint toWellFormed (s : string) : string :=
  match s with
  | EmptyString => EmptyString
  | String a t =>
      match t with
      | String b (String _ rest) =>
          if surrogate a b
          then String (ascii_of_nat 239)
                 (String (ascii_of_nat 191) (String (ascii_of_nat 189) (toWellFormed rest)))
          else String a (toWellFormed t)
      | _ => String a (toWellFormed t)
      end
  end.

(** [s.isWellFormed()]: no unpaired surrogate. *)
Definition isWellFormed (s : string) : bool := String.eqb (toWellFormed s) s.

(** The bytes of [Buffer.from(s)], as numbers in 0..255: the UTF-8
    encoding of [s]. *)
Definition of_string (s : string) : list Z :=
  map (fun c => Z.of_N (N_of_ascii c)) (list_ascii_of_string (toWellFormed s)).

Definition char_of (b : Z) : ascii := ascii_of_N (Z.to_N (b mod 256)).

Definition to_string (l : list Z) : string :=
  string_of_list_ascii (map char_of l).

Definition nth_char (alphabet : string) (i : Z) : ascii :=
  match String.get (Z.to_nat i) alphabet with
  | Some c => c
  | None => "?"%char
  end.

Definition hex_digits : string := "0123456789abcdef".

(** [buf.toString('hex')]: two lowercase digits per byte. *)
Fixpoint hex (l : list Z) : string :=
  match l with
  | [] => EmptyString
  | b :: tl =>
      String (nth_char hex_digits (Z.shiftr (b mod 256) 4))
        (String (nth_char hex_digits (Z.land b 15)) (hex tl))
  end.

Definition b64url_alphabet : string :=
  "ABCDEFGHIJKLMNOPQRSTUVWXYZabcdefghijklmnopqrstuvwxyz0123456789-_".

Definition sextet (x : Z) : ascii := nth_char b64url_alphabet (Z.land x 63).

(** The ['base64url'] encoding: URL-safe alphabet, no padding. *)
Fixpoint base64url (l : list Z) : string :=
  match l with
  | [] => EmptyString
  | [a] =>
      String (sextet (Z.shiftr a 2))
        (String (sextet (Z.shiftl (Z.land a 3) 4)) EmptyString)
  | [a; b] =>
      String (sextet (Z.shiftr a 2))
        (String (sextet (Z.lor (Z.shiftl (Z.land a 3) 4) (Z.shiftr b 4)))
           (String (sextet (Z.shiftl (Z.land b 15) 2)) EmptyString))
  | a :: b :: c :: tl =>
      String (sextet (Z.shiftr a 2))
        (String (sextet (Z.lor (Z.shiftl (Z.land a 3) 4) (Z.shiftr b 4)))
           (String (sextet (Z.lor (Z.shiftl (Z.land b 15) 2) (Z.shiftr c 6)))
              (String (sextet c) (base64url tl))))
  end.

End Bytes.

(* ===================================================================== *)
(** ** SHA-256 (FIPS 180-4), the digest behind [createHash('sha256')]     *)
(* ===================================================================== *)

Module Sha256.
Local Open Scope Z_scope.

Definition mask32 : Z := 0xFFFFFFFF.
Definition wrap32 (x : Z) : Z := Z.land x mask32.
Definition add32 (a b : Z) : Z := wrap32 (a + b).
Definition rotr (n x : Z) : Z :=
  Z.lor (Z.shiftr x n) (wrap32 (Z.shiftl x (32 - n))).
Definition not32 (x : Z) : Z := Z.lxor x mask32.

Definition Ch (x y z : Z) : Z := Z.lxor (Z.land x y) (Z.land (not32 x) z).
Definition Maj (x y z : Z) : Z :=
  Z.lxor (Z.lxor (Z.land x y) (Z.land x z)) (Z.land y z).
Definition bsig0 (x : Z) : Z := Z.lxor (Z.lxor (rotr 2 x) (rotr 13 x)) (rotr 22 x).
Definition bsig1 (x : Z) : Z := Z.lxor (Z.lxor (rotr 6 x) (rotr 11 x)) (rotr 25 x).
Definition ssig0 (x : Z) : Z := Z.lxor (Z.lxor (rotr 7 x) (rotr 18 x)) (Z.shiftr x 3).
Definition ssig1 (x : Z) : Z := Z.lxor (Z.lxor (rotr 17 x) (rotr 19 x)) (Z.shiftr x 10).

(** The constants of the standard are fractional parts of roots of the
    first primes, and are computed here from that description. *)
Definition is_prime (n : Z) : bool :=
  forallb (fun d => negb (n mod d =? 0)) (map Z.of_nat (seq 2 (Z.to_nat n - 2))).

(** The 64 primes up to 311. *)
Definition primes : list Z :=
  List.filter is_prime (map Z.of_nat (seq 2 310)).

(** Integer cube root of [n], fixing the result bit by bit below [bits]. *)
Fixpoint cbrt_bits (bits : nat) (n r : Z) : Z :=
  match bits with
  | O => r
  | S b =>
      let c := r + Z.shiftl 1 (Z.of_nat b) in
      cbrt_bits b n (if c * c * c <=? n then c else r)
  end.

(** First 32 bits of the fractional part of the cube root of [p]. *)
Definition frac_cbrt (p : Z) : Z := wrap32 (cbrt_bits 36 (Z.shiftl p 96) 0).

(** First 32 bits of the fractional part of the square root of [p]. *)
Definition frac_sqrt (p : Z) : Z := wrap32 (Z.sqrt (Z.shiftl p 64)).

(** Round constants: cube roots of the first 64 primes. *)
Definition K : list Z := Eval vm_compute in map frac_cbrt primes.

(** Initial hash value: square roots of the first 8 primes. *)
Definition H0 : list Z := Eval vm_compute in map frac_sqrt (firstn 8 primes).

(** Big-endian bytes of a word. *)
Definition be32 (w : Z) : list Z :=
  [ Z.land (Z.shiftr w 24) 255; Z.land (Z.shiftr w 16) 255;
    Z.land (Z.shiftr w 8) 255; Z.land w 255 ].

Definition be64 (w : Z) : list Z :=
  be32 (Z.shiftr w 32) ++ be32 (wrap32 w).

(** Message padding: a one bit, zeros up to 56 mod 64, the bit length. *)
Definition pad (msg : list Z) : list Z :=
  let len := Z.of_nat (length msg) in
  msg ++ [0x80] ++ repeat 0 (Z.to_nat ((55 - len) mod 64)) ++ be64 (8 * len).

(** The words of a byte sequence, four bytes each, big-endian. *)
Fixpoint words (l : list Z) : list Z :=
  match l with
  | a :: b :: c :: d :: tl =>
      Z.lor (Z.lor (Z.shiftl a 24) (Z.shiftl b 16)) (Z.lor (Z.shiftl c 8) d)
      :: words tl
  | _ => []
  end.

Definition word_at (w : list Z) (i : nat) : Z := nth i w 0.

(** Message schedule: [n] more words after those of [w]. *)
Fixpoint extend (n : nat) (w : list Z) : list Z :=
  match n with
  | O => w
  | S n' =>
      let i := length w in
      let x :=
        add32 (add32 (ssig1 (word_at w (i - 2))) (word_at w (i - 7)))
              (add32 (ssig0 (word_at w (i - 15))) (word_at w (i - 16))) in
      extend n' (w ++ [x])
  end.

Record regs := Regs { ra : Z; rb : Z; rc : Z; rd : Z; re : Z; rf : Z; rg : Z; rh : Z }.

Definition round (s : regs) (kw : Z * Z) : regs :=
  let t1 :=
    add32 (add32 (add32 (rh s) (bsig1 (re s))) (Ch (re s) (rf s) (rg s)))
          (add32 (fst kw) (snd kw)) in
  let t2 := add32 (bsig0 (ra s)) (Maj (ra s) (rb s) (rc s)) in
  Regs (add32 t1 t2) (ra s) (rb s) (rc s) (add32 (rd s) t1) (re s) (rf s) (rg s).

Definition regs_of (h : list Z) : regs :=
  Regs (word_at h 0) (word_at h 1) (word_at h 2) (word_at h 3)
       (word_at h 4) (word_at h 5) (word_at h 6) (word_at h 7).

Definition compress (h : list Z) (block : list Z) : list Z :=
  let w := extend 48 (words block) in
  let s := fold_left round (combine K w) (regs_of h) in
  [ add32 (word_at h 0) (ra s); add32 (word_at h 1) (rb s);
    add32 (word_at h 2) (rc s); add32 (word_at h 3) (rd s);
    add32 (word_at h 4) (re s); add32 (word_at h 5) (rf s);
    add32 (word_at h 6) (rg s); add32 (word_at h 7) (rh s) ].

(** Fold [compress] over the 64-byte blocks; [n] bounds the block count. *)
Fixpoint blocks (n : nat) (h : list Z) (l : list Z) : list Z :=
  match n, l with
  | S n', _ :: _ => blocks n' (compress h (firstn 64 l)) (skipn 64 l)
  | _, _ => h
  end.

(** The 32 digest bytes of a byte sequence. *)
Definition digest (msg : list Z) : list Z :=
  let p := pad msg in
  flat_map be32 (blocks (length p) H0 p).

End Sha256.

(* ===================================================================== *)
(** ** JavaScript values used by the server                               *)
(* ===================================================================== *)

Module Js.
Local Open Scope Z_scope.

(** A number that is an integer or [NaN]: the range of [parseInt]. *)
Inductive num := NaN | Int (z : Z).

(** [a > b] and [a <= b]; every comparison with [NaN] is false. *)
Definition gt (a b : num) : bool :=
  match a, b with
  | Int x, Int y => y <? x
  | _, _ => false
  end.

Definition le (a b : num) : bool :=
  match a, b with
  | Int x, Int y => x <=? y
  | _, _ => false
  end.

Definition lt (a b : num) : bool :=
  match a, b with
  | Int x, Int y => x <? y
  | _, _ => false
  end.

(** [Number.MAX_SAFE_INTEGER], 2^53 - 1.  A number of the code is a
    double; the whole numbers from [-MAX_SAFE_INTEGER] to
    [MAX_SAFE_INTEGER] are doubles, and on them [+], [-], [%] and the floor
    of a quotient by a whole number below 2^16 are those of [Z]. *)
Definition MAX_SAFE_INTEGER : Z := 9007199254740991.

(** [Number.isSafeInteger(z)] *)
Definition isSafeInteger (z : Z) : bool := Z.abs z <=? MAX_SAFE_INTEGER.

(** Decimal text of a safe integer, as in a template literal and in
    [JSON.stringify]. *)
Definition dec (z : Z) : string := NilZero.string_of_int (Z.to_int z).

Definition show (a : num) : string :=
  match a with
  | NaN => "NaN"
  | Int z => dec z
  end.

(** Truthiness of an optional string: [undefined], [null] and the empty
    string are falsy. *)
Definition truthy (o : option string) : bool :=
  match o with
  | Some s => negb (String.eqb s "")
  | None => false
  end.

(** [a || b] on optional strings. *)
Definition or_else (a b : option string) : option string :=
  if truthy a then a else b.

(** The string behind an optional string ([undefined] never reaches a use
    that is guarded by a truthiness test). *)
Definition str (o : option string) : string :=
  match o with
  | Some s => s
  | None => ""
  end.

(** [s.includes(sub)] *)
Fixpoint includes (s sub : string) : bool :=
  String.prefix sub s
  || match s with
     | EmptyString => false
     | String _ tl => includes tl sub
     end.

End Js.

(* ===================================================================== *)
(** ** JSON values and [JSON.stringify]                                   *)
(* ===================================================================== *)

Module Json.

(** JSON data, as [JSON.parse] returns it and as [JSON.stringify] reads
    it.  A number that is a safe integer is [Num z] (with [-0] as [Num 0]);
    any other number is [Real text], where [text] is what [JSON.stringify]
    writes for it.  The members of an object come in the order in which
    they are enumerated. *)
Inductive value :=
| Null
| Bool (b : bool)
| Num (z : Z)
| Real (text : string)
| Str (s : string)
| Arr (items : list value)
| Obj (fields : list (string * value)).

Definition dquote : ascii := ascii_of_nat 34.
Definition newline : string := String (ascii_of_nat 10) EmptyString.

Definition hex2 (n : Z) : string :=
  String (Bytes.nth_char Bytes.hex_digits (Z.shiftr n 4))
    (String (Bytes.nth_char Bytes.hex_digits (Z.land n 15)) EmptyString).

(** One character of a quoted string (QuoteJSONString). *)
Definition escape (c : ascii) : string :=
  let n := Z.of_N (N_of_ascii c) in
  if (n =? 8)%Z then "\b"
  else if (n =? 9)%Z then "\t"
  else if (n =? 10)%Z then "\n"
  else if (n =? 12)%Z then "\f"
  else if (n =? 13)%Z then "\r"
  else if (n =? 34)%Z then String "\"%char (String dquote EmptyString)
  else if (n =? 92)%Z then "\\"
  else if (n <? 32)%Z then "\u00" ++ hex2 n
  else String c EmptyString.

(** The escape [\udxxx] of the unpaired surrogate written [ED b c]. *)
Definition escapeSurrogate (b c : ascii) : string :=
  let unit :=
    Z.lor (Z.shiftl (Z.land (Z.of_N (N_of_ascii b)) 63) 6)
          (Z.land (Z.of_N (N_of_ascii c)) 63) in
  "\ud" ++ String (Bytes.nth_char Bytes.hex_digits (Z.shiftr unit 8)) (hex2 (Z.land unit 255)).

(** The characters of a quoted string: an unpaired surrogate is written as
    an escape, every other character by [escape]. *)
Fixpoint escape_all (s : string) : string :=
  match s with
  | EmptyString => EmptyString
  | String a tl =>
      match tl with
      | String b (String c rest) =>
          if Bytes.surrogate a b then escapeSurrogate b c ++ escape_all rest
          else escape a ++ escape_all tl
      | _ => escape a ++ escape_all tl
      end
  end.

Definition quote (s : string) : string :=
  String dquote (escape_all s) ++ String dquote EmptyString.

Fixpoint join (sep : string) (parts : list string) : string :=
  match parts with
  | [] => EmptyString
  | [p] => p
  | p :: tl => p ++ sep ++ join sep tl
  end.

(** Brackets around the serialized members, on one line when [gap] is
    empty and one member per line otherwise. *)
Definition wrap (opening closing gap stepback : string) (parts : list string) : string :=
  match parts with
  | [] => opening ++ closing
  | _ =>
      if String.eqb gap "" then opening ++ join "," parts ++ closing
      else
        let indent := stepback ++ gap in
        opening ++ newline ++ indent
        ++ join ("," ++ newline ++ indent) parts
        ++ newline ++ stepback ++ closing
  end.

Fixpoint serialize (gap stepback : string) (v : value) : string :=
  match v with
  | Null => "null"
  | Bool true => "true"
  | Bool false => "false"
  | Num z => Js.dec z
  | Real text => text
  | Str s => quote s
  | Arr items =>
      wrap "[" "]" gap stepback
        (map (serialize gap (stepback ++ gap)) items)
  | Obj fields =>
      wrap "{" "}" gap stepback
        (map (fun kv =>
                quote (fst kv) ++ ":"
                ++ (if String.eqb gap "" then "" else " ")
                ++ serialize gap (stepback ++ gap) (snd kv))
             fields)
  end.

(** [JSON.stringify(v)] *)
Definition stringify (v : value) : string := serialize "" "" v.

(** [JSON.stringify(v, null, 2)] *)
Definition stringify2 (v : value) : string := serialize "  " "" v.

(** *** Reads of a parsed value *)

(** Truthiness of a JSON value. *)
Definition truthyValue (v : value) : bool :=
  match v with
  | Null => false
  | Bool b => b
  | Num z => negb (z =? 0)%Z
  | Real _ => true
  | Str s => negb (String.eqb s "")
  | Arr _ => true
  | Obj _ => true
  end.

(** Truthiness of a variable that holds a JSON value or [undefined]. *)
Definition truthy (o : option value) : bool :=
  match o with
  | Some v => truthyValue v
  | None => false
  end.

(** [a || b] *)
Definition or_else (a b : option value) : option value :=
  if truthy a then a else b.

(** The value of a variable that has passed a truthiness test. *)
Definition the (o : option value) : value :=
  match o with
  | Some v => v
  | None => Null
  end.

(** [v === s] for a string [s]: true of that string alone. *)
Definition strictEquals (v : value) (s : string) : bool :=
  match v with
  | Str t => String.eqb t s
  | _ => false
  end.

(** [o === s] for a variable and a string. *)
Definition same (o : option value) (s : string) : bool :=
  match o with
  | Some v => strictEquals v s
  | None => false
  end.

(** The member of an object under a key, the last one when the key occurs
    more than once. *)
Fixpoint lookupMember (k : string) (fields : list (string * value)) : option value :=
  match fields with
  | [] => None
  | (k', v) :: rest =>
      match lookupMember k rest with
      | Some w => Some w
      | None => if String.eqb k' k then Some v else None
      end
  end.

(** [v.k] for a parsed value other than [null] and a key that is the name
    of no built-in property: [undefined] unless [v] is an object with the
    member. *)
Definition member (k : string) (v : value) : option value :=
  match v with
  | Obj fields => lookupMember k fields
  | _ => None
  end.

(** Whether the conversion to a string, as in a template literal, throws.
    An array is converted by [join], which converts its elements; an object
    by the inherited [toString], unless a member of that name hides it: a
    member is no function, the inherited [valueOf] returns the object
    itself, and the conversion ends in a [TypeError]. *)
Fixpoint toStringThrows (v : value) : bool :=
  match v with
  | Arr items => existsb toStringThrows items
  | Obj fields => existsb (fun kv => String.eqb (fst kv) "toString") fields
  | _ => false
  end.

(** The same for a variable; [undefined] is converted to its name. *)
Definition interpolationThrows (o : option value) : bool :=
  match o with
  | Some v => toStringThrows v
  | None => false
  end.

End Json.

(* ===================================================================== *)
(** ** Configuration ([types.ts], [config.ts])                            *)
(* ===================================================================== *)

(** The fields of [Config] read by the authorization core; the
    per-integration settings (Docker, OPNsense, TrueNAS, Proxmox) are
    consumed only by the tool handlers. *)
Record Config := mkConfig {
  capabilityLevel : Js.num;
  apiKey : string;
  port : option Z;
  oauthClientId : option string;
  oauthClientSecret : option string
}.

Inductive Checked (A : Type) :=
| Ok (a : A)
| Threw (message : string).
Arguments Ok {A} a.
Arguments Threw {A} message.

(** [validateConfig]: throws on a level outside 1..4 and, in HTTP mode, on
    a configuration without any credential. *)
Definition validateConfig (config : Config) : Checked unit :=
  if Js.lt (capabilityLevel config) (Js.Int 1)
     || Js.gt (capabilityLevel config) (Js.Int 4)
  then Threw "CAPABILITY_LEVEL must be between 1 and 4"
  else
    match port config with
    | Some p =>
        if negb (p =? 0)%Z then
          let hasApiKey := negb (String.eqb (apiKey config) "") in
          let hasOAuth :=
            Js.truthy (oauthClientId config) && Js.truthy (oauthClientSecret config) in
          if negb hasApiKey && negb hasOAuth
          then Threw "HTTP mode requires either API_KEY or OAUTH_CLIENT_ID + OAUTH_CLIENT_SECRET"
          else Ok tt
        else Ok tt
    | None => Ok tt
    end.

(* ===================================================================== *)
(** ** The token and authorization-code stores ([oauth.ts])               *)
(* ===================================================================== *)

Module OAuth.
Local Open Scope Z_scope.

Module Token.
(** A value of the [activeTokens] map. *)
Record data := mk { expiresAt : Z }.
End Token.

Module Code.
(** A value of the [authorizationCodes] map. *)
Record data := mk {
  codeChallenge : string;
  codeChallengeMethod : string;
  clientId : string;
  redirectUri : string;
  expiresAt : Z
}.
End Code.

(** The module-level state of [oauth.ts]. *)
Record Stores := mkStores {
  activeTokens : gmap string Token.data;
  authorizationCodes : gmap string Code.data
}.

Definition empty_stores : Stores := mkStores ∅ ∅.

(** Token expiration time in seconds (1 hour). *)
Definition TOKEN_EXPIRATION : Z := 3600.

(** Auth code expiration (10 minutes). *)
Definition AUTH_CODE_EXPIRATION : Z := 600.

(** Period of the clean-up timer, in milliseconds. *)
Definition CLEANUP_INTERVAL : Z := 60000.

(** One turn of the loop [for (const [k, data] of m.entries()) if (expired
    data) m.delete(k)]. *)
Definition sweepStep {V} (expired : V -> bool)
    (acc : gmap string V) (kv : string * V) : gmap string V :=
  if expired (snd kv) then delete (fst kv) acc else acc.

(** The loop over the entries of [m], deleting from [m] itself. *)
Definition sweep {V} (expired : V -> bool) (m : gmap string V) : gmap string V :=
  fold_left (sweepStep expired) (map_to_list m) m.

(** The callback of [setInterval(..., 60000)]. *)
Definition cleanup (now : Z) (st : Stores) : Stores :=
  mkStores
    (sweep (fun d => Token.expiresAt d <? now) (activeTokens st))
    (sweep (fun d => Code.expiresAt d <? now) (authorizationCodes st)).

Record TokenResponse := mkTokenResponse {
  access_token : string;
  token_type : string;
  expires_in : Z
}.

(** [crypto.timingSafeEqual] on two buffers of one length: every byte pair
    is combined into an accumulator, which is tested once at the end. *)
Definition cryptoTimingSafeEqual (a b : list Z) : bool :=
  fold_left (fun acc xy => Z.lor acc (Z.lxor (fst xy) (snd xy))) (combine a b) 0 =? 0.

Definition timingSafeEqual (a b : string) : bool :=
  let bufA := Bytes.of_string a in
  let bufB := Bytes.of_string b in
  if negb (Nat.eqb (length bufA) (length bufB)) then false
  else cryptoTimingSafeEqual bufA bufB.

Definition validateClientCredentials
    (clientId clientSecret : string) (config : Config) : bool :=
  match oauthClientId config, oauthClientSecret config with
  | Some cid, Some csecret =>
      if negb (Js.truthy (Some cid)) || negb (Js.truthy (Some csecret)) then false
      else
        let idMatch := timingSafeEqual clientId cid in
        let secretMatch := timingSafeEqual clientSecret csecret in
        idMatch && secretMatch
  | _, _ => false
  end.

Definition validateClientId (clientId : string) (config : Config) : bool :=
  match oauthClientId config with
  | Some cid =>
      if negb (Js.truthy (Some cid)) then false
      else timingSafeEqual clientId cid
  | None => false
  end.

(** [issueToken]; [rnd] is the outcome of [randomBytes(32)]. *)
Definition issueToken (rnd : list Z) (now : Z) (st : Stores) : TokenResponse * Stores :=
  let token := Bytes.hex rnd in
  let expiresAt := now + TOKEN_EXPIRATION * 1000 in
  (mkTokenResponse token "Bearer" TOKEN_EXPIRATION,
   mkStores (<[token := Token.mk expiresAt]> (activeTokens st))
            (authorizationCodes st)).

Definition validateAccessToken
    (token : string) (config : Config) (now : Z) (st : Stores) : bool * Stores :=
  if negb (String.eqb (apiKey config) "") && String.eqb token (apiKey config)
  then (true, st)
  else
    match activeTokens st !! token with
    | None => (false, st)
    | Some tokenData =>
        if Token.expiresAt tokenData <? now
        then (false, mkStores (delete token (activeTokens st)) (authorizationCodes st))
        else (true, st)
    end.

(** [createAuthorizationCode]; [rnd] is the outcome of [randomBytes(32)]. *)
Definition createAuthorizationCode
    (rnd : list Z) (now : Z)
    (clientId redirectUri codeChallenge codeChallengeMethod : string)
    (st : Stores) : string * Stores :=
  let code := Bytes.hex rnd in
  let expiresAt := now + AUTH_CODE_EXPIRATION * 1000 in
  (code,
   mkStores (activeTokens st)
            (<[code := Code.mk codeChallenge codeChallengeMethod clientId redirectUri expiresAt]>
               (authorizationCodes st))).

Definition validatePKCE (codeVerifier codeChallenge codeChallengeMethod : string) : bool :=
  if String.eqb codeChallengeMethod "S256" then
    let hash := Bytes.base64url (Sha256.digest (Bytes.of_string codeVerifier)) in
    String.eqb hash codeChallenge
  else if String.eqb codeChallengeMethod "plain" then
    String.eqb codeVerifier codeChallenge
  else false.

(** The result object [{ valid, error? }]. *)
Record Validation := mkValidation { valid : bool; error : option string }.

Definition validateAuthorizationCode
    (code clientId redirectUri codeVerifier : string) (now : Z) (st : Stores)
    : Validation * Stores :=
  match authorizationCodes st !! code with
  | None => (mkValidation false (Some "Invalid authorization code"), st)
  | Some codeData =>
      (* Code can only be used once *)
      let st' := mkStores (activeTokens st) (delete code (authorizationCodes st)) in
      if Code.expiresAt codeData <? now then
        (mkValidation false (Some "Authorization code expired"), st')
      else if negb (String.eqb (Code.clientId codeData) clientId) then
        (mkValidation false (Some "Client ID mismatch"), st')
      else if negb (String.eqb (Code.redirectUri codeData) redirectUri) then
        (mkValidation false (Some "Redirect URI mismatch"), st')
      else if negb (validatePKCE codeVerifier (Code.codeChallenge codeData)
                                 (Code.codeChallengeMethod codeData)) then
        (mkValidation false (Some "Invalid code verifier"), st')
      else (mkValidation true None, st')
  end.

End OAuth.

(* ===================================================================== *)
(** ** The tool registry ([tools/index.ts]) and the dispatcher             *)
(* ===================================================================== *)

Module Tools.
Local Open Scope Z_scope.

(** What is thrown, by a handler or by the serializer: an [Error] object
    with its message, or any other value.  The message is a string: the
    [Error] constructor converts its argument, and no code of the server
    assigns to the [message] of an error. *)
Inductive Thrown :=
| ErrorObject (message : string)
| OtherValue.

(** The value a handler resolves with, told apart by what
    [JSON.stringify(result, null, 2)] does with it: it writes the text of
    some JSON data (the data it reads off the value), it returns
    [undefined] (for [undefined], a function, a symbol), or it throws (a
    [TypeError] on a [BigInt] or a cyclic structure, or whatever a [toJSON]
    method throws). *)
Inductive Value :=
| Data (json : Json.value)
| Undefined
| Unserializable (error : Thrown).

(** The settled promise of a handler. *)
Inductive Outcome :=
| Resolves (result : Value)
| Rejects (error : Thrown).

(** [ToolDefinition]; the [inputSchema] member, which neither the gate nor
    the dispatcher reads, is left out. *)
Record ToolDefinition := mkTool {
  name : string;
  description : string;
  level : Z;
  handler : Json.value -> Config -> Outcome
}.

(** The name, description and level of every entry of [ALL_TOOLS], in the
    order of the source. *)
Definition TOOL_TABLE : list (string * string * Z) :=
  [
    ("docker_list_containers", "List all Docker containers with their status", 1);
    ("docker_container_logs", "Get recent logs from a container", 1);
    ("docker_container_stats", "Get CPU/memory/network stats for a container", 1);
    ("system_info", "Get host system information (disk, memory, CPU usage)", 1);
    ("opnsense_status", "Get OPNsense firewall/gateway status", 1);
    ("truenas_status", "Get TrueNAS pool health and system status", 1);
    ("truenas_alerts", "Get active TrueNAS alerts", 1);
    ("proxmox_status", "Get Proxmox cluster status and node information", 1);
    ("proxmox_list_vms", "List all Proxmox VMs and containers across all nodes", 1);
    ("proxmox_vm_status", "Get detailed status of a specific Proxmox VM or container", 1);
    ("home_assistant_status", "Get Home Assistant version, entity count, and available domains", 1);
    ("home_assistant_list_entities", "List all Home Assistant entities (lights, switches, sensors, etc.)", 1);
    ("home_assistant_get_entity", "Get detailed state and attributes of a specific Home Assistant entity", 1);
    ("docker_restart_container", "Restart a container", 2);
    ("docker_start_container", "Start a stopped container", 2);
    ("docker_stop_container", "Stop a running container", 2);
    ("opnsense_service_restart", "Restart an OPNsense service", 2);
    ("proxmox_start_vm", "Start a Proxmox VM or container", 2);
    ("proxmox_stop_vm", "Stop a Proxmox VM or container (forceful)", 2);
    ("proxmox_shutdown_vm", "Gracefully shutdown a Proxmox VM or container", 2);
    ("proxmox_reboot_vm", "Reboot a Proxmox VM or container", 2);
    ("docker_read_compose", "Read the docker-compose.yml for a Dockge stack", 3);
    ("docker_read_env_file", "Read the .env file for a Dockge stack", 3);
    ("docker_list_volumes", "List Docker volumes", 3);
    ("docker_list_networks", "List Docker networks", 3);
    ("docker_inspect_container", "Get full container configuration details", 3);
    ("truenas_list_datasets", "List ZFS datasets", 3);
    ("truenas_dataset_info", "Get detailed info about a specific dataset", 3);
    ("proxmox_vm_config", "Get full configuration details for a Proxmox VM or container", 3);
    ("proxmox_list_storage", "List Proxmox storage across all nodes or a specific node", 3);
    ("proxmox_list_nodes", "List all Proxmox nodes in the cluster", 3);
    ("home_assistant_get_config", "Get full Home Assistant configuration details", 3);
    ("home_assistant_error_log", "Get Home Assistant error log", 3);
    ("docker_write_compose", "Write or update a docker-compose.yml for a Dockge stack", 4);
    ("docker_compose_up", "Deploy/restart a Dockge stack", 4);
    ("docker_compose_down", "Tear down a Dockge stack", 4);
    ("docker_exec", "Execute a command in a running container", 4);
    ("truenas_create_snapshot", "Create a ZFS snapshot", 4);
    ("proxmox_create_snapshot", "Create a snapshot of a Proxmox VM or container", 4);
    ("proxmox_delete_vm", "Delete a Proxmox VM or container", 4)
  ].

(** [ALL_TOOLS]: the handlers call into the integrations (Docker, OPNsense,
    TrueNAS, Proxmox, Home Assistant), whose behaviour is the parameter
    [integration], indexed by the tool name. *)
Definition ALL_TOOLS (integration : string -> Json.value -> Config -> Outcome)
    : list ToolDefinition :=
  map (fun row => mkTool (fst (fst row)) (snd (fst row)) (snd row)
                         (integration (fst (fst row))))
      TOOL_TABLE.

Definition getToolsForLevel (tools : list ToolDefinition) (lvl : Js.num)
    : list ToolDefinition :=
  List.filter (fun tool => Js.le (Js.Int (level tool)) lvl) tools.

Definition getTool (tools : list ToolDefinition) (n : string)
    : option ToolDefinition :=
  List.find (fun tool => String.eqb (name tool) n) tools.

(** The answer to a [tools/list] request: the tools available at the
    configured level. *)
Definition listTools (tools : list ToolDefinition) (config : Config)
    : list (string * string) :=
  map (fun tool => (name tool, description tool))
      (getToolsForLevel tools (capabilityLevel config)).

Inductive ErrorCode := MethodNotFound | InvalidRequest.

(** The result object [{ content: [{ type: 'text', text }], isError? }];
    [text] is [None] when [JSON.stringify] has returned [undefined]. *)
Record CallToolResult := mkResult {
  text : option string;
  isError : option bool
}.

(** What the [tools/call] handler does: throw an [McpError], which the
    protocol layer reports as a JSON-RPC error, or return a result. *)
Inductive Reply :=
| Throws (code : ErrorCode) (message : string)
| Returns (result : CallToolResult).

(** [error instanceof Error ? error.message : 'Unknown error'] *)
Definition errorMessage (error : Thrown) : string :=
  match error with
  | ErrorObject message => message
  | OtherValue => "Unknown error"
  end.

(** The result returned for a handler that threw. *)
Definition errorEnvelope (message : string) : CallToolResult :=
  mkResult
    (Some (Json.stringify2
             (Json.Obj [ ("error", Json.Bool true);
                         ("code", Json.Str "TOOL_EXECUTION_ERROR");
                         ("message", Json.Str message) ])))
    (Some true).

(** The text of the refusal of a tool above the configured level. *)
Definition levelMessage (toolName : string) (required : Z) (current : Js.num) : string :=
  "Tool " ++ toolName ++ " requires capability level " ++ Js.dec required
  ++ ", current level is " ++ Js.show current.

(** The [tools/call] request handler.  [log] is the sequence of handlers
    invoked so far, by tool name; an invocation appends to it.  The call of
    the handler and the serialization of its result are both inside the
    [try] block. *)
Definition callTool
    (tools : list ToolDefinition) (config : Config)
    (toolName : string) (arguments : option Json.value)
    (log : list string) : Reply * list string :=
  let args := match arguments with Some a => a | None => Json.Obj [] end in
  match getTool tools toolName with
  | None => (Throws MethodNotFound ("Tool not found: " ++ toolName), log)
  | Some tool =>
      if Js.gt (Js.Int (level tool)) (capabilityLevel config) then
        (Throws InvalidRequest
           (levelMessage toolName (level tool) (capabilityLevel config)), log)
      else
        let log' := (log ++ [name tool])%list in
        match handler tool args config with
        | Resolves (Data json) =>
            (Returns (mkResult (Some (Json.stringify2 json)) None), log')
        | Resolves Undefined =>
            (Returns (mkResult None None), log')
        | Resolves (Unserializable error) =>
            (Returns (errorEnvelope (errorMessage error)), log')
        | Rejects error =>
            (Returns (errorEnvelope (errorMessage error)), log')
        end
  end.

(** Number of invocations of the handler of [n] recorded in [log]. *)
Definition callCount (n : string) (log : list string) : nat :=
  length (List.filter (String.eqb n) log).

End Tools.

(* ===================================================================== *)
(** ** The HTTP endpoints of [index.ts]                                    *)
(* ===================================================================== *)

Module Http.
Import OAuth.
Local Open Scope Z_scope.

(** The six values the token endpoint works with.  Those of a form body
    are strings; those of a JSON body are whatever its members of these
    names hold. *)
Record TokenParams := mkParams {
  grant_type : option Json.value;
  client_id : option Json.value;
  client_secret : option Json.value;
  code : option Json.value;
  code_verifier : option Json.value;
  redirect_uri : option Json.value
}.

(** The platform functions the endpoints call.  [None] stands for a thrown
    exception ([URIError], [SyntaxError], [TypeError]). *)
Class Runtime := {
  (** [decodeURIComponent(s)] *)
  decodeURIComponent : string -> option string;
  (** [JSON.parse(body)] *)
  jsonParse : string -> option Json.value;
  (** [Buffer.from(v)] for an array or an object [v] *)
  bufferFromObject : Json.value -> option (list Z);
  (** [Buffer.from(s, 'base64').toString('utf-8')] *)
  base64Decode : string -> string;
  (** [new URL(u)], [searchParams.set] for each pair, [toString()] *)
  urlWithParams : string -> list (string * string) -> option string
}.

(** [s.split(sep)] for a one-character separator. *)
Fixpoint split (sep : ascii) (s : string) : list string :=
  match s with
  | EmptyString => [EmptyString]
  | String c tl =>
      if Ascii.eqb c sep then EmptyString :: split sep tl
      else
        match split sep tl with
        | h :: r => String c h :: r
        | [] => [String c EmptyString]
        end
  end.

(** [value.replace(/\+/g, ' ')] *)
Fixpoint plusToSpace (s : string) : string :=
  match s with
  | EmptyString => EmptyString
  | String c tl => String (if Ascii.eqb c "+" then " "%char else c) (plusToSpace tl)
  end.

(** [s.indexOf(c)], [None] for -1. *)
Fixpoint indexOf (c : ascii) (s : string) : option nat :=
  match s with
  | EmptyString => None
  | String d tl => if Ascii.eqb d c then Some O else option_map S (indexOf c tl)
  end.

(** [s.substring(n)] *)
Definition substringFrom (n : nat) (s : string) : string :=
  String.substring n (String.length s - n) s.

(** The functions of [oauth.ts] as the token endpoint calls them: with
    values whose declared type is [string] and which, read from a JSON
    body, can be any JSON value.  On strings they are the functions of
    [OAuth]. *)
Module Untyped.
Section Calls.
Context `{Runtime}.

(** [Buffer.from(v)]: the UTF-8 encoding of a string, a [TypeError] for
    [null], a boolean and a number, and for an array or an object what the
    platform makes of it. *)
Definition bufferFrom (v : Json.value) : option (list Z) :=
  match v with
  | Json.Str s => Some (Bytes.of_string s)
  | Json.Arr _ | Json.Obj _ => bufferFromObject v
  | Json.Null | Json.Bool _ | Json.Num _ | Json.Real _ => None
  end.

(** [timingSafeEqual(a, b)], [None] when [Buffer.from(a)] throws. *)
Definition timingSafeEqual (a : Json.value) (b : string) : option bool :=
  match bufferFrom a with
  | None => None
  | Some bufA =>
      let bufB := Bytes.of_string b in
      if negb (Nat.eqb (length bufA) (length bufB)) then Some false
      else Some (cryptoTimingSafeEqual bufA bufB)
  end.

(** [validateClientCredentials]; the [catch] block turns a throw of
    [timingSafeEqual] into [false]. *)
Definition validateClientCredentials
    (clientId clientSecret : Json.value) (config : Config) : bool :=
  match oauthClientId config, oauthClientSecret config with
  | Some cid, Some csecret =>
      if negb (Js.truthy (Some cid)) || negb (Js.truthy (Some csecret)) then false
      else
        match timingSafeEqual clientId cid with
        | None => false
        | Some idMatch =>
            match timingSafeEqual clientSecret csecret with
            | None => false
            | Some secretMatch => idMatch && secretMatch
            end
        end
  | _, _ => false
  end.

(** [validatePKCE], [None] when it throws: [Hash.update] takes a string (or
    a buffer) and throws a [TypeError] on any other value. *)
Definition validatePKCE
    (codeVerifier : Json.value) (codeChallenge codeChallengeMethod : string)
    : option bool :=
  if String.eqb codeChallengeMethod "S256" then
    match codeVerifier with
    | Json.Str verifier =>
        let hash := Bytes.base64url (Sha256.digest (Bytes.of_string verifier)) in
        Some (String.eqb hash codeChallenge)
    | _ => None
    end
  else if String.eqb codeChallengeMethod "plain" then
    Some (Json.strictEquals codeVerifier codeChallenge)
  else Some false.

(** [validateAuthorizationCode], the result [None] when [validatePKCE]
    throws.  The keys of the map are strings, so that [get] finds nothing
    under a value that is not a string. *)
Definition validateAuthorizationCode
    (code clientId redirectUri codeVerifier : Json.value) (now : Z) (st : Stores)
    : option Validation * Stores :=
  match code with
  | Json.Str c =>
      match authorizationCodes st !! c with
      | None => (Some (mkValidation false (Some "Invalid authorization code")), st)
      | Some codeData =>
          (* Code can only be used once *)
          let st' := mkStores (activeTokens st) (delete c (authorizationCodes st)) in
          if Code.expiresAt codeData <? now then
            (Some (mkValidation false (Some "Authorization code expired")), st')
          else if negb (Json.strictEquals clientId (Code.clientId codeData)) then
            (Some (mkValidation false (Some "Client ID mismatch")), st')
          else if negb (Json.strictEquals redirectUri (Code.redirectUri codeData)) then
            (Some (mkValidation false (Some "Redirect URI mismatch")), st')
          else
            match validatePKCE codeVerifier (Code.codeChallenge codeData)
                               (Code.codeChallengeMethod codeData) with
            | None => (None, st')
            | Some false => (Some (mkValidation false (Some "Invalid code verifier")), st')
            | Some true => (Some (mkValidation true None), st')
            end
      end
  | _ => (Some (mkValidation false (Some "Invalid authorization code")), st)
  end.

End Calls.
End Untyped.

Section Endpoints.
Context `{Runtime}.

(** [params[k] = v] on an object created by [{}]: an own property is set,
    except under the key [__proto__], which names the accessor inherited
    from [Object.prototype]; its setter ignores a value that is a string. *)
Definition assign (k v : string) (params : gmap string string) : gmap string string :=
  if String.eqb k "__proto__" then params else <[k := v]> params.

(** One turn of the loop of [parseFormUrlEncoded], on one [key=value] pair
    of the body, given the parameters read so far; [None] once a decoding
    has thrown. *)
Definition formStep (acc : option (gmap string string)) (pair : string)
    : option (gmap string string) :=
  match acc with
  | None => None
  | Some params =>
      match split "=" pair with
      | key :: value :: _ =>
          if String.eqb key "" then Some params
          else
            match decodeURIComponent key with
            | None => None
            | Some k =>
                match decodeURIComponent (plusToSpace value) with
                | None => None
                | Some v => Some (assign k v params)
                end
            end
      | _ => Some params
      end
  end.

(** [parseFormUrlEncoded]: the own properties of the object it returns. *)
Definition parseFormUrlEncoded (body : string) : option (gmap string string) :=
  fold_left formStep (split "&" body) (Some ∅).

Definition parseBasicAuth (authHeader : string) : option (string * string) :=
  if negb (String.prefix "Basic " authHeader) then None
  else
    let base64 := substringFrom 6 authHeader in
    let decoded := base64Decode base64 in
    match indexOf ":" decoded with
    | None => None
    | Some colonIndex =>
        let clientId := String.substring 0 colonIndex decoded in
        let clientSecret := substringFrom (colonIndex + 1) decoded in
        if String.eqb clientId "" || String.eqb clientSecret "" then None
        else Some (clientId, clientSecret)
    end.

(** What reaches the client.  The CORS headers, set on every response
    before routing, are left out. *)
Record Response := mkResponse {
  status : Z;
  headers : list (string * string);
  body : string
}.

Definition jsonHeaders : list (string * string) :=
  [("Content-Type", "application/json")].

Definition noStoreHeaders : list (string * string) :=
  [("Content-Type", "application/json"); ("Cache-Control", "no-store");
   ("Pragma", "no-cache")].

(** [{ error, error_description }] *)
Definition oauthError (e d : string) : string :=
  Json.stringify (Json.Obj [("error", Json.Str e); ("error_description", Json.Str d)]).

(** [JSON.stringify(tokenResponse)] *)
Definition tokenBody (t : TokenResponse) : string :=
  Json.stringify
    (Json.Obj [ ("access_token", Json.Str (access_token t));
                ("token_type", Json.Str (token_type t));
                ("expires_in", Json.Num (expires_in t)) ]).

(** A 400 response with an OAuth error body. *)
Definition badRequest (e d : string) : Response :=
  mkResponse 400 jsonHeaders (oauthError e d).

(** The successful token response for the random draw [rnd]. *)
Definition issued (rnd : list Z) : Response :=
  mkResponse 200 noStoreHeaders
    (tokenBody (mkTokenResponse (Bytes.hex rnd) "Bearer" 3600)).

Definition hasOAuth (config : Config) : bool :=
  Js.truthy (oauthClientId config) && Js.truthy (oauthClientSecret config).

Definition hasApiKey (config : Config) : bool :=
  negb (String.eqb (apiKey config) "").

(** *** [GET /authorize] *)

(** The query parameters read by the endpoint ([searchParams.get]). *)
Record AuthorizeQuery := mkQuery {
  q_response_type : option string;
  q_client_id : option string;
  q_redirect_uri : option string;
  q_code_challenge : option string;
  q_code_challenge_method : option string;
  q_state : option string
}.

(** The request handler either writes a response or throws. *)
Inductive Outcome :=
| Responds (r : Response)
| Crashes.

(** The method stored with the code: the requested one, or [plain]. *)
Definition storedMethod (method : option string) : string :=
  Js.str (Js.or_else method (Some "plain")).

(** The parameters set on the redirect URL: the code, and the state when
    there is one. *)
Definition redirectParams (authCode : string) (state : option string)
    : list (string * string) :=
  ("code", authCode) :: (if Js.truthy state then [("state", Js.str state)] else []).

Definition authorizeEndpoint
    (config : Config) (q : AuthorizeQuery) (rnd : list Z) (now : Z) (st : Stores)
    : Outcome * Stores :=
  if negb (hasOAuth config) then
    (Responds (mkResponse 400 jsonHeaders
       (Json.stringify (Json.Obj [("error", Json.Str "OAuth not configured")]))), st)
  else
    let responseType := q_response_type q in
    let clientId := q_client_id q in
    let redirectUri := q_redirect_uri q in
    let codeChallenge := q_code_challenge q in
    let codeChallengeMethod := storedMethod (q_code_challenge_method q) in
    let state := q_state q in
    (* Validate required parameters *)
    if negb (bool_decide (responseType = Some "code")) then
      (Responds (badRequest "unsupported_response_type"
                            "Only code response type is supported"), st)
    else if negb (Js.truthy clientId) then
      (Responds (badRequest "invalid_request" "client_id is required"), st)
    else if negb (Js.truthy redirectUri) then
      (Responds (badRequest "invalid_request" "redirect_uri is required"), st)
    else if negb (Js.truthy codeChallenge) then
      (Responds (badRequest "invalid_request" "code_challenge is required (PKCE)"), st)
    else
      (* Auto-approve for personal homelab *)
      let '(authCode, st') :=
        createAuthorizationCode rnd now (Js.str clientId) (Js.str redirectUri)
          (Js.str codeChallenge) codeChallengeMethod st in
      (* Build redirect URL with authorization code *)
      match urlWithParams (Js.str redirectUri) (redirectParams authCode state) with
      | None => (Crashes, st')
      | Some location =>
          (Responds (mkResponse 302 [("Location", location)] ""), st')
      end.

(** The query of an authorization request of response type [code]. *)
Definition authorizeQuery
    (clientId redirectUri codeChallenge : string) (method state : option string)
    : AuthorizeQuery :=
  mkQuery (Some "code") (Some clientId) (Some redirectUri) (Some codeChallenge)
          method state.

(** *** [POST /oauth/token] *)

(** The parts of the request the endpoint reads. *)
Record TokenRequest := mkRequest {
  contentType : option string;
  authorization : option string;
  requestBody : string
}.

Definition noParams : TokenParams := mkParams None None None None None None.

(** The members of [parseFormUrlEncoded(body)] read by the endpoint. *)
Definition formParams (params : gmap string string) : TokenParams :=
  let read k := option_map Json.Str (params !! k) in
  mkParams (read "grant_type") (read "client_id") (read "client_secret")
           (read "code") (read "code_verifier") (read "redirect_uri").

(** The members of [JSON.parse(body)] read by the endpoint; the read of a
    member of [null] throws. *)
Definition jsonParams (json : Json.value) : option TokenParams :=
  match json with
  | Json.Null => None
  | _ =>
      let read k := Json.member k json in
      Some (mkParams (read "grant_type") (read "client_id") (read "client_secret")
                     (read "code") (read "code_verifier") (read "redirect_uri"))
  end.

Definition serverError : Response :=
  mkResponse 500 jsonHeaders (oauthError "server_error" "Internal server error").

(** The first half of the handler, down to its log line: the six values it
    works with, read from the body according to the content type, the
    client id and secret falling back to those of a Basic [Authorization]
    header.  [None] when one of these steps throws: the decoding of a form
    body, the parsing of a JSON body, the read of a member of [null], or
    the conversion of the grant type and of the client id to strings for
    the log line. *)
Definition requestParams (req : TokenRequest) : option TokenParams :=
  let contentType := Js.str (Js.or_else (contentType req) (Some "")) in
  (* Parse based on content type *)
  let parsed :=
    if Js.includes contentType "application/x-www-form-urlencoded" then
      option_map formParams (parseFormUrlEncoded (requestBody req))
    else if Js.includes contentType "application/json" then
      match jsonParse (requestBody req) with
      | None => None
      | Some json => jsonParams json
      end
    else Some noParams in
  match parsed with
  | None => None
  | Some p =>
      (* Also check Authorization header for Basic auth *)
      let authHeader := authorization req in
      let basicAuth :=
        if Js.truthy authHeader && String.prefix "Basic " (Js.str authHeader)
        then parseBasicAuth (Js.str authHeader)
        else None in
      let merged :=
        match basicAuth with
        | Some b =>
            mkParams (grant_type p)
              (Json.or_else (client_id p) (Some (Json.Str (fst b))))
              (Json.or_else (client_secret p) (Some (Json.Str (snd b))))
              (code p) (code_verifier p) (redirect_uri p)
        | None => p
        end in
      if Json.interpolationThrows (grant_type merged)
         || Json.interpolationThrows (client_id merged)
      then None
      else Some merged
  end.

(** The handler.  [now] is the clock read by [validateAuthorizationCode]
    and [now'] the later one read by [issueToken].  Whatever is thrown
    inside the [try] block is answered 500 by the [catch] block. *)
Definition tokenEndpoint
    (config : Config) (req : TokenRequest) (rnd : list Z) (now now' : Z)
    (st : Stores) : Response * Stores :=
  if negb (hasOAuth config) then
    (mkResponse 400 jsonHeaders
       (oauthError "unsupported_grant_type"
                   "OAuth is not configured on this server"), st)
  else
    match requestParams req with
    | None => (serverError, st)
    | Some p =>
        let grantType := grant_type p in
        let clientId := client_id p in
        let clientSecret := client_secret p in
        let code := code p in
        let codeVerifier := code_verifier p in
        let redirectUri := redirect_uri p in
        (* Handle Authorization Code grant *)
        if Json.same grantType "authorization_code" then
          if negb (Json.truthy code) || negb (Json.truthy codeVerifier)
             || negb (Json.truthy redirectUri) || negb (Json.truthy clientId) then
            (mkResponse 400 jsonHeaders
               (oauthError "invalid_request"
                  "Missing code, code_verifier, redirect_uri, or client_id"), st)
          else
            match Untyped.validateAuthorizationCode (Json.the code) (Json.the clientId)
                    (Json.the redirectUri) (Json.the codeVerifier) now st with
            | (None, st1) => (serverError, st1)
            | (Some validation, st1) =>
                if negb (valid validation) then
                  (mkResponse 400 jsonHeaders
                     (oauthError "invalid_grant" (Js.str (error validation))), st1)
                else
                  (* Issue token *)
                  let '(tokenResponse, st2) := issueToken rnd now' st1 in
                  (mkResponse 200 noStoreHeaders (tokenBody tokenResponse), st2)
            end
        (* Handle Client Credentials grant *)
        else if Json.same grantType "client_credentials" then
          if negb (Json.truthy clientId) || negb (Json.truthy clientSecret) then
            (mkResponse 400 jsonHeaders
               (oauthError "invalid_request" "Missing client_id or client_secret"), st)
          else if negb (Untyped.validateClientCredentials (Json.the clientId)
                          (Json.the clientSecret) config) then
            (mkResponse 401 jsonHeaders
               (oauthError "invalid_client" "Invalid client credentials"), st)
          else
            (* Issue token *)
            let '(tokenResponse, st2) := issueToken rnd now' st in
            (mkResponse 200 noStoreHeaders (tokenBody tokenResponse), st2)
        (* Unsupported grant type *)
        else
          (mkResponse 400 jsonHeaders
             (oauthError "unsupported_grant_type"
                "Supported grant types: authorization_code, client_credentials"), st)
    end.

(** *** The bearer check in front of [/mcp] *)

Definition authenticate
    (config : Config) (authHeader : option string) (now : Z) (st : Stores)
    : bool * Stores :=
  if Js.truthy authHeader && String.prefix "Bearer " (Js.str authHeader) then
    let token := substringFrom 7 (Js.str authHeader) in
    validateAccessToken token config now st
  else (false, st).

End Endpoints.
End Http.

(* ===================================================================== *)
(** ** Work done by the two string comparisons of [oauth.ts]               *)
(* ===================================================================== *)

(** A read-count model.  The language fixes the result of [===] on two
    strings and not how it is computed; the count given here is that of the
    usual evaluation, a length test followed by a scan from the left that
    stops at the first difference, which is the behaviour the helper
    [timingSafeEqual] of [oauth.ts] is there to avoid. *)

Module Timing.

(** Byte pairs read by a scan of two strings from the left that stops at
    the first pair that differs. *)
Fixpoint scanReads (a b : string) : nat :=
  match a, b with
  | String x a', String y b' =>
      if Ascii.eqb x y then S (scanReads a' b') else 1%nat
  | _, _ => O
  end.

(** Byte pairs read by [a === b] on two strings: none when the lengths
    differ, and otherwise those of the scan up to the first difference. *)
Definition strictEqualsReads (a b : string) : nat :=
  if negb (Nat.eqb (String.length a) (String.length b)) then O
  else scanReads a b.

(** Byte pairs read by [timingSafeEqual(a, b)]: none when the lengths
    differ, every pair otherwise. *)
Definition timingSafeReads (a b : string) : nat :=
  let bufA := Bytes.of_string a in
  let bufB := Bytes.of_string b in
  if negb (Nat.eqb (length bufA) (length bufB)) then O
  else length (combine bufA bufB).

(** Byte pairs read by the static-key test of [validateAccessToken],
    [config.apiKey && token === config.apiKey]. *)
Definition staticKeyReads (token : string) (config : Config) : nat :=
  if String.eqb (apiKey config) "" then O
  else strictEqualsReads token (apiKey config).

End Timing.

(* ===================================================================== *)
(** ** A concrete platform and registry for the examples                   *)
(* ===================================================================== *)

Module Sample.
Import Http Tools.
Local Open Scope Z_scope.

(** A platform that decodes unescaped text only, appends the query to
    [https] URLs, makes a buffer of an array of whole numbers and of nothing
    else that is not a string, and parses the bodies that [parse]
    recognizes. *)
Definition runtimeWith (parse : string -> option Json.value) : Runtime := {|
  decodeURIComponent := fun s => if Js.includes s "%" then None else Some s;
  jsonParse := parse;
  bufferFromObject := fun v =>
    match v with
    | Json.Arr items =>
        fold_right
          (fun item acc =>
             match item, acc with
             | Json.Num z, Some l => Some (z mod 256 :: l)
             | _, _ => None
             end)
          (Some []) items
    | _ => None
    end;
  base64Decode := fun s => s;
  urlWithParams := fun u ps =>
    if String.prefix "https://" u
    then Some (u ++ "?" ++ Json.join "&" (map (fun kv => fst kv ++ "=" ++ snd kv) ps))
    else None
|}.

(** The same platform, parsing no body. *)
Definition runtime : Runtime := runtimeWith (fun _ => None).

(** The same platform, parsing the text of [json] and no other body. *)
Definition runtimeParsing (json : Json.value) : Runtime :=
  runtimeWith (fun s => if String.eqb s (Json.stringify json) then Some json else None).

(** A token request in JSON whose verifier is the number 7. *)
Definition numericVerifier : Json.value :=
  Json.Obj [ ("grant_type", Json.Str "authorization_code");
             ("client_id", Json.Str "app");
             ("code", Json.Str "c0de");
             ("code_verifier", Json.Num 7);
             ("redirect_uri", Json.Str "https://app/cb") ].

Definition config (lvl : Z) : Config :=
  mkConfig (Js.Int lvl) "static-key-0123" (Some 3000)
           (Some "homelab") (Some "s3cret").

(** The same server without OAuth client credentials. *)
Definition configNoOAuth : Config :=
  mkConfig (Js.Int 1) "static-key-0123" (Some 3000) None None.

(** Integrations that answer every call with [null]. *)
Definition quiet : string -> Json.value -> Config -> Tools.Outcome :=
  fun _ _ _ => Resolves (Data Json.Null).

(** A registry with one tool at each of the levels 1, 2 and 4. *)
Definition registry124 : list ToolDefinition :=
  [ mkTool "read" "level one" 1 (fun _ _ => Resolves (Data (Json.Str "r")));
    mkTool "restart" "level two" 2 (fun _ _ => Resolves (Data (Json.Str "s")));
    mkTool "destroy" "level four" 4 (fun _ _ => Resolves (Data (Json.Str "d"))) ].

(** A registry whose only tool throws [new Error('')]. *)
Definition registryThrowing : list ToolDefinition :=
  [ mkTool "boom" "always fails" 1 (fun _ _ => Rejects (ErrorObject "")) ].

Definition rnd (b : Z) : list Z := repeat b 32.

(** A store holding the code ["c0de"], created for the client ["app"] with
    an [S256] challenge and expiring at 600000. *)
Definition oneCode : OAuth.Stores :=
  OAuth.mkStores ∅
    (<["c0de" := OAuth.Code.mk "bKE9UspwyIPg8LsQHkJaiehiTeUdstI5JZOvaoQRgJA" "S256"
                   "app" "https://app/cb" 600000]> ∅).

End Sample.

(* ===================================================================== *)
(** ** Client registration and the gate in front of [/mcp] ([index.ts])    *)
(* ===================================================================== *)

Module Server.
Import OAuth Http.
Local Open Scope Z_scope.

(** [v.k || fallback] *)
Definition memberOr (k : string) (v fallback : Json.value) : Json.value :=
  match Json.member k v with
  | Some m => if Json.truthyValue m then m else fallback
  | None => fallback
  end.

(** The body of a successful registration. *)
Definition registrationBody (config : Config) (registration : Json.value) : string :=
  Json.stringify
    (Json.Obj
       [ ("client_id", Json.Str (Js.str (oauthClientId config)));
         ("client_secret", Json.Str (Js.str (oauthClientSecret config)));
         ("client_name", memberOr "client_name" registration (Json.Str "MCP Client"));
         ("redirect_uris", memberOr "redirect_uris" registration (Json.Arr []));
         ("grant_types", Json.Arr [Json.Str "authorization_code"]);
         ("response_types", Json.Arr [Json.Str "code"]);
         ("token_endpoint_auth_method", Json.Str "none") ]).

(** [POST /oauth/register].  [registration] is the outcome of
    [JSON.parse(body)], [None] when it throws.  On [null] the read of
    [registration.client_name] throws after the 201 status line has been
    set, and the [writeHead] of the [catch] block throws in turn. *)
Definition registerEndpoint (config : Config) (registration : option Json.value)
    : Outcome :=
  if negb (hasOAuth config) then
    Responds (badRequest "invalid_request" "OAuth not configured")
  else
    match registration with
    | None =>
        Responds (mkResponse 400 jsonHeaders
                    (Json.stringify (Json.Obj [("error", Json.Str "invalid_request")])))
    | Some Json.Null => Crashes
    | Some r =>
        (* Return the pre-configured client credentials *)
        Responds (mkResponse 201 jsonHeaders (registrationBody config r))
    end.

(** [getBaseUrl] *)
Definition getBaseUrl (host : option string) : string :=
  "https://" ++ Js.str (Js.or_else host (Some "mcp.handley.io")).

(** [sendUnauthorized]: 401 with the resource metadata of RFC 9728. *)
Definition sendUnauthorized (host : option string) : Response :=
  let resourceMetadataUrl := getBaseUrl host ++ "/.well-known/oauth-protected-resource" in
  mkResponse 401
    [ ("Content-Type", "application/json");
      ("WWW-Authenticate",
       "Bearer resource_metadata=" ++ String Json.dquote resourceMetadataUrl
       ++ String Json.dquote "") ]
    (Json.stringify
       (Json.Obj [ ("error", Json.Str "unauthorized");
                   ("message", Json.Str "Authentication required") ])).

(** The answer to an authenticated [GET]. *)
Definition serverInfo : Response :=
  mkResponse 200 jsonHeaders
    (Json.stringify
       (Json.Obj [ ("name", Json.Str "homelab-mcp");
                   ("version", Json.Str "1.0.0");
                   ("protocol_version", Json.Str "2024-11-05");
                   ("capabilities", Json.Obj [("tools", Json.Obj [])]) ])).

(** What becomes of a request routed to [/mcp] or [/] (a preflight
    [OPTIONS] request is answered before the routing): refused, answered
    with the server information, or handed to the protocol transport. *)
Inductive McpOutcome :=
| Refused (r : Response)
| Answered (r : Response)
| Handed.

Definition mcpEndpoint
    (config : Config) (method : string) (host authHeader : option string)
    (now : Z) (st : Stores) : McpOutcome * Stores :=
  (* Check authentication for all MCP requests *)
  let '(isAuthenticated, st') := authenticate config authHeader now st in
  if negb isAuthenticated then (Refused (sendUnauthorized host), st')
  else if String.eqb method "GET" then (Answered serverInfo, st')
  else (Handed, st').

End Server.

(* ===================================================================== *)
(** ** Uptime text ([tools/proxmox.ts])                                    *)
(* ===================================================================== *)

Module Proxmox.
Local Open Scope Z_scope.

(** [formatUptime] on a number of seconds that is a safe integer, where
    [Math.floor(a / b)] is [Z.div] and [%] is [Z.rem]; every other number is
    outside the embedding, and the result is [None]. *)
Definition formatUptime (seconds : Z) : option string :=
  if negb (Js.isSafeInteger seconds) then None
  else
    let days := seconds / 86400 in
    let hours := Z.rem seconds 86400 / 3600 in
    let minutes := Z.rem seconds 3600 / 60 in
    if 0 <? days then Some (Js.dec days ++ "d " ++ Js.dec hours ++ "h")
    else if 0 <? hours then Some (Js.dec hours ++ "h " ++ Js.dec minutes ++ "m")
    else Some (Js.dec minutes ++ "m").

End Proxmox.

(* ===================================================================== *)
(** ** Vocabulary of the statements                                        *)
(* ===================================================================== *)

(** The challenge a verifier answers under the [S256] method. *)
Definition s256 (verifier : string) : string :=
  Bytes.base64url (Sha256.digest (Bytes.of_string verifier)).

(** The verifier answers the stored challenge under a supported method. *)
Definition answers (verifier challenge method : string) : Prop :=
  (method = "S256" /\ s256 verifier = challenge)
  \/ (method = "plain" /\ verifier = challenge).

(** The two failure results and the success result of a redemption. *)
Definition rejected (reason : string) : OAuth.Validation :=
  OAuth.mkValidation false (Some reason).

Definition accepted : OAuth.Validation := OAuth.mkValidation true None.

(** The reasons a redemption gives when it refuses. *)
Definition refusals : list string :=
  [ "Invalid authorization code"; "Authorization code expired"; "Client ID mismatch";
    "Redirect URI mismatch"; "Invalid code verifier" ].

(** A list of byte values, as [randomBytes] returns. *)
Definition bytes (l : list Z) : Prop := Forall (fun b => (0 <= b < 256)%Z) l.

(** Every character of [s] satisfies [p]. *)
Definition allChars (p : ascii -> bool) (s : string) : bool :=
  forallb p (list_ascii_of_string s).

(** [c] occurs in [alphabet]. *)
Definition charIn (alphabet : string) (c : ascii) : bool :=
  existsb (Ascii.eqb c) (list_ascii_of_string alphabet).

(** A token request of grant type [authorization_code] that presents the
    code [c] together with a verifier, a redirect URI and a client id. *)
Definition presentsCode (p : Http.TokenParams) (c : string) : Prop :=
  Http.grant_type p = Some (Json.Str "authorization_code")
  /\ Http.code p = Some (Json.Str c) /\ c <> ""
  /\ Json.truthy (Http.code_verifier p) = true
  /\ Json.truthy (Http.redirect_uri p) = true
  /\ Json.truthy (Http.client_id p) = true.

(** An authorization request that passes the checks of [/authorize]. *)
Definition wellFormedQuery (q : Http.AuthorizeQuery) : Prop :=
  Http.q_response_type q = Some "code"
  /\ Js.truthy (Http.q_client_id q) = true
  /\ Js.truthy (Http.q_redirect_uri q) = true
  /\ Js.truthy (Http.q_code_challenge q) = true.

(** The form body of a token request redeeming [code] with [verifier]. *)
Definition codeRequest (clientId code verifier : string) : Http.TokenRequest :=
  Http.mkRequest (Some "application/x-www-form-urlencoded") None
    ("grant_type=authorization_code&client_id=" ++ clientId ++ "&code=" ++ code
     ++ "&code_verifier=" ++ verifier ++ "&redirect_uri=https://app/cb").

(** An unpaired high surrogate, an unpaired low surrogate, and U+FFFD. *)
Definition loneHigh : string :=
  String (ascii_of_nat 237) (String (ascii_of_nat 160) (String (ascii_of_nat 128) "")).

Definition loneLow : string :=
  String (ascii_of_nat 237) (String (ascii_of_nat 176) (String (ascii_of_nat 128) "")).

Definition replacement : string :=
  String (ascii_of_nat 239) (String (ascii_of_nat 191) (String (ascii_of_nat 189) "")).

(** The character [c] does not occur in [s]. *)
Definition lacks (c : ascii) (s : string) : Prop := Http.indexOf c s = None.

(** A form field written without escapes and without separators. *)
Definition plainField (s : string) : Prop :=
  lacks "&" s /\ lacks "=" s /\ lacks "%" s.

(** The body [k1=v1&k2=v2&...] of a list of fields. *)
Definition formBody (fields : list (string * string)) : string :=
  Json.join "&" (map (fun kv => fst kv ++ "=" ++ snd kv) fields).

(* ===================================================================== *)
(** * Properties                                                           *)
(* ===================================================================== *)

(** ** Test vectors for the digest and the encodings *)

Example sha256_abc :
  Bytes.hex (Sha256.digest (Bytes.of_string "abc"))
  = "ba7816bf8f01cfea414140de5dae2223b00361a396177a9cb410ff61f20015ad".
Proof. vm_compute. reflexivity. Qed.

Example sha256_empty :
  Bytes.hex (Sha256.digest (Bytes.of_string ""))
  = "e3b0c44298fc1c149afbf4c8996fb92427ae41e4649b934ca495991b7852b855".
Proof. vm_compute. reflexivity. Qed.

Example sha256_two_blocks :
  Bytes.hex (Sha256.digest (Bytes.of_string
    "abcdbcdecdefdefgefghfghighijhijkijkljklmklmnlmnomnopnopq"))
  = "248d6a61d20638b8e5c026930c3e6039a33ce45964ff2167f6ecedd419db06c1".
Proof. vm_compute. reflexivity. Qed.

(** The challenge of RFC 7636, appendix B. *)
Example pkce_rfc7636 :
  Bytes.base64url (Sha256.digest
    (Bytes.of_string "dBjftJeZ4CVP-mB92K27uhbUJU1p1r_wW1gFWFOEjXk"))
  = "E9Melhoa2OwvFrEMTJguCHaoeK1t8URWbuGJSstw-cM".
Proof. vm_compute. reflexivity. Qed.

Example stringify2_envelope :
  Json.stringify2 (Json.Obj [("error", Json.Bool true); ("n", Json.Arr [Json.Num 1; Json.Num (-2)])])
  = Json.join Json.newline
      [ "{"; "  " ++ Json.quote "error" ++ ": true,";
        "  " ++ Json.quote "n" ++ ": ["; "    1,"; "    -2"; "  ]"; "}" ].
Proof. vm_compute. reflexivity. Qed.

(** An unpaired surrogate is encoded as U+FFFD and quoted as an escape; a
    surrogate that ends a string two bytes early is left as it is. *)
Example surrogate_encoding :
  Bytes.toWellFormed ("a" ++ loneHigh ++ "b") = "a" ++ replacement ++ "b"
  /\ Bytes.of_string loneLow = [239; 191; 189]%Z
  /\ Bytes.isWellFormed replacement = true
  /\ Bytes.isWellFormed loneLow = false
  /\ Json.quote loneHigh = String Json.dquote ("\ud800" ++ String Json.dquote "")
  /\ Json.quote loneLow = String Json.dquote ("\udc00" ++ String Json.dquote "").
Proof. vm_compute. repeat split; reflexivity. Qed.

(** The conversion to a string throws on an object with a member named
    [toString], also inside an array, and on nothing else. *)
Example string_conversion :
  Json.toStringThrows (Json.Obj [("toString", Json.Num 1)]) = true
  /\ Json.toStringThrows (Json.Arr [Json.Null; Json.Arr [Json.Obj [("toString", Json.Null)]]])
     = true
  /\ Json.toStringThrows (Json.Obj [("valueOf", Json.Num 1)]) = false
  /\ Json.toStringThrows (Json.Arr [Json.Null; Json.Arr [Json.Str "a"; Json.Real "1.5"]])
     = false.
Proof. vm_compute. repeat split; reflexivity. Qed.

(** ** Shape of the digest *)

Section Digest.

Lemma compress_length (h block : list Z) : length (Sha256.compress h block) = 8%nat.
Proof. reflexivity. Qed.

Lemma blocks_length (n : nat) (h l : list Z) :
  length h = 8%nat -> length (Sha256.blocks n h l) = 8%nat.
Proof.
  revert h l. induction n as [|n IH]; intros h l Hh; simpl; [exact Hh|].
  destruct l; [exact Hh|]. apply IH. apply compress_length.
Qed.

(** A digest is 32 bytes long. *)
Lemma digest_length (msg : list Z) : length (Sha256.digest msg) = 32%nat.
Proof.
  unfold Sha256.digest.
  pose proof (blocks_length (length (Sha256.pad msg)) Sha256.H0 (Sha256.pad msg) eq_refl)
    as Hlen.
  destruct (Sha256.blocks (length (Sha256.pad msg)) Sha256.H0 (Sha256.pad msg))
    as [|a [|b [|c [|d [|e [|f [|g [|h [|]]]]]]]]]; try discriminate.
  reflexivity.
Qed.

(** An [S256] challenge is 43 characters long. *)
Lemma s256_length (verifier : string) : String.length (s256 verifier) = 43%nat.
Proof.
  unfold s256.
  pose proof (digest_length (Bytes.of_string verifier)) as Hlen.
  destruct (Sha256.digest (Bytes.of_string verifier)) as [|b l]; [discriminate|].
  do 31 (destruct l as [|? l]; [discriminate|]).
  destruct l; [reflexivity | discriminate].
Qed.

End Digest.

(** ** Strings and comparisons *)

Section Comparisons.
Local Open Scope Z_scope.

Lemma truthy_Some (s : string) : Js.truthy (Some s) = true <-> s <> "".
Proof.
  unfold Js.truthy. rewrite negb_true_iff. apply String.eqb_neq.
Qed.

Lemma truthy_value_Str (s : string) :
  Json.truthy (Some (Json.Str s)) = true <-> s <> "".
Proof. exact (truthy_Some s). Qed.

Lemma of_string_nonneg (s : string) :
  Forall (fun b => 0 <= b) (Bytes.of_string s).
Proof.
  unfold Bytes.of_string. apply Forall_forall. intros b Hb.
  apply list_elem_of_In in Hb. apply in_map_iff in Hb as (c & <- & _). lia.
Qed.

(** The replacement of the unpaired surrogates keeps the length. *)
Lemma toWellFormed_length (s : string) :
  String.length (Bytes.toWellFormed s) = String.length s.
Proof.
  assert (Hall : forall n s, (String.length s <= n)%nat ->
            String.length (Bytes.toWellFormed s) = String.length s).
  { clear s. induction n as [|n IH]; intros s Hlen.
    - destruct s; [reflexivity | simpl in Hlen; lia].
    - destruct s as [|a [|b [|c rest]]]; try reflexivity.
      cbn [Bytes.toWellFormed]. simpl in Hlen.
      destruct (Bytes.surrogate a b).
      + cbn [String.length]. rewrite IH by lia. reflexivity.
      + change (S (String.length (Bytes.toWellFormed (String b (String c rest))))
                = S (String.length (String b (String c rest)))).
        rewrite IH by (simpl; lia). reflexivity. }
  apply (Hall (String.length s)). lia.
Qed.

Lemma of_string_length (s : string) : length (Bytes.of_string s) = String.length s.
Proof.
  unfold Bytes.of_string. rewrite length_map, <- (toWellFormed_length s).
  generalize (Bytes.toWellFormed s). intros t. induction t; simpl; auto.
Qed.

(** Two strings have the same UTF-8 encoding exactly when they agree once
    their unpaired surrogates are replaced. *)
Lemma of_string_eq (a b : string) :
  Bytes.of_string a = Bytes.of_string b <-> Bytes.toWellFormed a = Bytes.toWellFormed b.
Proof.
  unfold Bytes.of_string. split; [| intros ->; reflexivity].
  generalize (Bytes.toWellFormed a) (Bytes.toWellFormed b). clear a b.
  intros a. induction a as [|c a IH]; intros [|d b]; simpl; try discriminate; auto.
  intros Heq. injection Heq as Hc Htl.
  apply N2Z.inj in Hc.
  assert (c = d) as ->.
  { rewrite <- (ascii_N_embedding c), <- (ascii_N_embedding d). now rewrite Hc. }
  f_equal. now apply IH.
Qed.

Lemma isWellFormed_fix (s : string) :
  Bytes.isWellFormed s = true <-> Bytes.toWellFormed s = s.
Proof. unfold Bytes.isWellFormed. apply String.eqb_eq. Qed.

(** On strings without unpaired surrogates the encoding is one to one. *)
Lemma of_string_inj (a b : string) :
  Bytes.isWellFormed a = true -> Bytes.isWellFormed b = true ->
  Bytes.of_string a = Bytes.of_string b -> a = b.
Proof.
  intros Ha Hb Heq. apply of_string_eq in Heq.
  apply isWellFormed_fix in Ha, Hb. congruence.
Qed.

(** The accumulator of [crypto.timingSafeEqual] ends at zero exactly when
    it started at zero and every pair agreed. *)
Lemma accumulate_zero (l : list (Z * Z)) (acc : Z) :
  0 <= acc ->
  Forall (fun xy => 0 <= fst xy /\ 0 <= snd xy) l ->
  fold_left (fun acc xy => Z.lor acc (Z.lxor (fst xy) (snd xy))) l acc = 0
  <-> acc = 0 /\ Forall (fun xy => fst xy = snd xy) l.
Proof.
  revert acc. induction l as [|[x y] l IH]; intros acc Hacc Hl; simpl.
  - split; [intros ->; split; constructor | intros [-> _]; reflexivity].
  - inversion Hl as [|? ? [Hx Hy] Hl']; subst. simpl in *.
    rewrite IH; [| apply Z.lor_nonneg; split; [lia | now apply Z.lxor_nonneg] | assumption].
    rewrite Z.lor_eq_0_iff, Z.lxor_eq_0_iff.
    split.
    + intros [[-> ->] Hf]. split; [reflexivity | constructor; simpl; auto].
    + intros [-> Hf]. inversion Hf; subst. simpl in *. subst. auto.
Qed.

Lemma combine_agree (a b : list Z) :
  length a = length b ->
  Forall (fun xy : Z * Z => fst xy = snd xy) (combine a b) -> a = b.
Proof.
  revert b. induction a as [|x a IH]; intros [|y b]; simpl; try discriminate; auto.
  intros Hlen Hf. inversion Hf; subst. simpl in *. subst.
  f_equal. apply IH; [lia | assumption].
Qed.

Lemma combine_same (a : list Z) :
  Forall (fun xy : Z * Z => fst xy = snd xy) (combine a a).
Proof. induction a; simpl; constructor; auto. Qed.

Lemma combine_nonneg (a b : list Z) :
  Forall (fun x => 0 <= x) a -> Forall (fun x => 0 <= x) b ->
  Forall (fun xy : Z * Z => 0 <= fst xy /\ 0 <= snd xy) (combine a b).
Proof.
  intros Ha. revert b. induction Ha as [|x a Hx Ha IH]; intros b Hb; simpl.
  - constructor.
  - destruct Hb as [|y b Hy Hb]; constructor; simpl; auto.
Qed.

(** The length test followed by [crypto.timingSafeEqual] decides equality
    of two buffers. *)
Lemma compare_buffers (x y : list Z) :
  Forall (fun b => 0 <= b) x -> Forall (fun b => 0 <= b) y ->
  (if negb (Nat.eqb (length x) (length y)) then false
   else OAuth.cryptoTimingSafeEqual x y) = true
  <-> x = y.
Proof.
  intros Hx Hy. unfold OAuth.cryptoTimingSafeEqual.
  destruct (Nat.eqb (length x) (length y)) eqn:Hlen; simpl.
  - apply Nat.eqb_eq in Hlen.
    rewrite Z.eqb_eq, accumulate_zero; [| lia | now apply combine_nonneg].
    split.
    + intros [_ Hf]. now apply combine_agree.
    + intros ->. split; [reflexivity | apply combine_same].
  - split; [discriminate|].
    intros ->. rewrite Nat.eqb_refl in Hlen. discriminate.
Qed.

(** [timingSafeEqual] decides equality of the UTF-8 encodings of its
    arguments. *)
Lemma timingSafeEqual_true (a b : string) :
  OAuth.timingSafeEqual a b = true <-> Bytes.of_string a = Bytes.of_string b.
Proof.
  unfold OAuth.timingSafeEqual. apply compare_buffers; apply of_string_nonneg.
Qed.

(** On strings without unpaired surrogates it decides equality. *)
Lemma timingSafeEqual_wellFormed (a b : string) :
  Bytes.isWellFormed a = true -> Bytes.isWellFormed b = true ->
  (OAuth.timingSafeEqual a b = true <-> a = b).
Proof.
  intros Ha Hb. rewrite timingSafeEqual_true. split.
  - now apply of_string_inj.
  - intros ->. reflexivity.
Qed.

Lemma timingSafeEqual_refl (a : string) : OAuth.timingSafeEqual a a = true.
Proof. now apply timingSafeEqual_true. Qed.

End Comparisons.

(** ** PKCE *)

Section PKCE.
Import OAuth.

Lemma validatePKCE_answers (verifier challenge method : string) :
  validatePKCE verifier challenge method = true <-> answers verifier challenge method.
Proof.
  unfold validatePKCE, answers, s256.
  destruct (String.eqb method "S256") eqn:HS.
  - apply String.eqb_eq in HS. subst method. rewrite String.eqb_eq.
    split; [intros Hh; left; auto | intros [[_ Hh]|[Hm _]]; [exact Hh | discriminate]].
  - apply String.eqb_neq in HS.
    destruct (String.eqb method "plain") eqn:HP.
    + apply String.eqb_eq in HP. subst method. rewrite String.eqb_eq.
      split; [intros Hh; right; auto | intros [[Hm _]|[_ Hh]]; [discriminate | exact Hh]].
    + apply String.eqb_neq in HP.
      split; [discriminate | intros [[Hm _]|[Hm _]]; contradiction].
Qed.

(** C4.  [validatePKCE] accepts, under ["S256"], exactly the verifiers whose
    SHA-256 digest in unpadded URL-safe base64 is the challenge; under
    ["plain"], exactly the verifier equal to the challenge; and under any
    other method, nothing. *)
Theorem validatePKCE_spec :
  (forall verifier challenge : string,
     validatePKCE verifier challenge "S256" = true
     <-> Bytes.base64url (Sha256.digest (Bytes.of_string verifier)) = challenge)
  /\ (forall verifier challenge : string,
        validatePKCE verifier challenge "plain" = true <-> verifier = challenge)
  /\ (forall method verifier challenge : string,
        method <> "S256" -> method <> "plain" ->
        validatePKCE verifier challenge method = false).
Proof.
  split; [| split].
  - intros verifier challenge. unfold validatePKCE. simpl. apply String.eqb_eq.
  - intros verifier challenge. unfold validatePKCE. simpl. apply String.eqb_eq.
  - intros method verifier challenge HS HP. unfold validatePKCE.
    apply String.eqb_neq in HS. apply String.eqb_neq in HP.
    now rewrite HS, HP.
Qed.

Lemma validatePKCE_spec_witness :
  validatePKCE "abc123" "bKE9UspwyIPg8LsQHkJaiehiTeUdstI5JZOvaoQRgJA" "S256" = true
  /\ validatePKCE "abc123" "abc123" "plain" = true
  /\ "none" <> "S256" /\ "none" <> "plain"
  /\ validatePKCE "abc123" "abc123" "none" = false.
Proof.
  split; [| split; [| split; [| split]]].
  - apply (proj1 validatePKCE_spec). vm_compute. reflexivity.
  - apply (proj1 (proj2 validatePKCE_spec)). reflexivity.
  - discriminate.
  - discriminate.
  - apply (proj2 (proj2 validatePKCE_spec)); discriminate.
Defined.

(** The challenge of the verifier ["abc123"], and a verifier that differs
    in its last character. *)
Example pkce_abc123 :
  validatePKCE "abc123" (s256 "abc123") "S256" = true
  /\ validatePKCE "abc124" (s256 "abc123") "S256" = false.
Proof. split; vm_compute; reflexivity. Qed.

End PKCE.

(** ** The clean-up timer *)

Section Sweep.
Import OAuth.
Context {V : Type} (expired : V -> bool).

(** The loop only deletes: an absent key stays absent. *)
Lemma sweep_fold_absent (l : list (string * V)) (acc : gmap string V) (k : string) :
  acc !! k = None -> fold_left (sweepStep expired) l acc !! k = None.
Proof.
  revert acc. induction l as [|[k' v'] l IH]; intros acc Hk; simpl; [exact Hk|].
  apply IH. unfold sweepStep. simpl.
  destruct (expired v'); [|exact Hk].
  destruct (decide (k' = k)) as [->|Hne].
  - apply lookup_delete_eq.
  - rewrite lookup_delete_ne; assumption.
Qed.

(** A key none of whose visited entries is expired is left alone. *)
Lemma sweep_fold_keep (l : list (string * V)) (acc : gmap string V) (k : string) :
  (forall v, In (k, v) l -> expired v = false) ->
  fold_left (sweepStep expired) l acc !! k = acc !! k.
Proof.
  revert acc. induction l as [|[k' v'] l IH]; intros acc Hl; simpl; [reflexivity|].
  rewrite IH; [| intros v Hv; apply Hl; right; exact Hv].
  unfold sweepStep. simpl.
  destruct (expired v') eqn:Hexp; [|reflexivity].
  destruct (decide (k' = k)) as [->|Hne].
  - rewrite (Hl v') in Hexp; [discriminate | left; reflexivity].
  - apply lookup_delete_ne. exact Hne.
Qed.

(** A key with an expired visited entry is gone at the end of the loop. *)
Lemma sweep_fold_drop (l : list (string * V)) (acc : gmap string V) (k : string) (v : V) :
  In (k, v) l -> expired v = true ->
  fold_left (sweepStep expired) l acc !! k = None.
Proof.
  revert acc. induction l as [|[k' v'] l IH]; intros acc Hin Hexp; simpl; [destruct Hin|].
  destruct Hin as [Heq | Hin].
  - injection Heq as -> ->. apply sweep_fold_absent.
    unfold sweepStep. simpl. rewrite Hexp. apply lookup_delete_eq.
  - now apply IH.
Qed.

(** The loop computes the map without its expired entries. *)
Lemma sweep_lookup (m : gmap string V) (k : string) :
  sweep expired m !! k
  = match m !! k with
    | Some v => if expired v then None else Some v
    | None => None
    end.
Proof.
  unfold sweep. destruct (m !! k) as [v|] eqn:Hk.
  - destruct (expired v) eqn:Hexp.
    + apply sweep_fold_drop with (v := v); [|exact Hexp].
      apply list_elem_of_In, elem_of_map_to_list. exact Hk.
    + rewrite sweep_fold_keep; [exact Hk|].
      intros v' Hv'. apply list_elem_of_In, elem_of_map_to_list in Hv'.
      rewrite Hk in Hv'. injection Hv' as <-. exact Hexp.
  - apply sweep_fold_absent. exact Hk.
Qed.

Lemma sweep_lookup_Some (m : gmap string V) (k : string) (v : V) :
  sweep expired m !! k = Some v <-> m !! k = Some v /\ expired v = false.
Proof.
  rewrite sweep_lookup. destruct (m !! k) as [w|].
  - destruct (expired w) eqn:Hexp.
    + split; [discriminate | intros [Hw Hv]; injection Hw as ->; congruence].
    + split; [intros Hw; injection Hw as ->; auto | intros [Hw _]; exact Hw].
  - split; [discriminate | intros [Hw _]; discriminate].
Qed.

End Sweep.

Section Cleanup.
Import OAuth.
Local Open Scope Z_scope.

(** C9.  The clean-up callback is scheduled every 60 seconds; one run keeps,
    in both stores, exactly the entries whose [expiresAt] has not passed,
    each with its data unchanged, so that no entry left behind is expired. *)
Theorem cleanup_spec :
  forall (now : Z) (st : Stores),
    CLEANUP_INTERVAL = 60 * 1000
    /\ (forall token d,
          activeTokens (cleanup now st) !! token = Some d
          <-> activeTokens st !! token = Some d /\ now <= Token.expiresAt d)
    /\ (forall code d,
          authorizationCodes (cleanup now st) !! code = Some d
          <-> authorizationCodes st !! code = Some d /\ now <= Code.expiresAt d)
    /\ (forall token d,
          activeTokens (cleanup now st) !! token = Some d -> ~ Token.expiresAt d < now)
    /\ (forall code d,
          authorizationCodes (cleanup now st) !! code = Some d -> ~ Code.expiresAt d < now).
Proof.
  intros now st.
  assert (HT : forall token d,
            activeTokens (cleanup now st) !! token = Some d
            <-> activeTokens st !! token = Some d /\ now <= Token.expiresAt d).
  { intros token d. unfold cleanup. simpl. rewrite sweep_lookup_Some.
    rewrite Z.ltb_ge. reflexivity. }
  assert (HC : forall code d,
            authorizationCodes (cleanup now st) !! code = Some d
            <-> authorizationCodes st !! code = Some d /\ now <= Code.expiresAt d).
  { intros code d. unfold cleanup. simpl. rewrite sweep_lookup_Some.
    rewrite Z.ltb_ge. reflexivity. }
  split; [reflexivity|]. split; [exact HT|]. split; [exact HC|]. split.
  - intros token d Hd. apply HT in Hd. lia.
  - intros code d Hd. apply HC in Hd. lia.
Qed.

(** A store with one token and one code past their expiry and one of each
    still valid, swept at time 1000. *)
Lemma cleanup_spec_witness :
  let st :=
    mkStores (<["old" := Token.mk 999]> (<["new" := Token.mk 1000]> ∅))
             (<["stale" := Code.mk "c" "plain" "app" "https://a" 10]>
                (<["fresh" := Code.mk "c" "plain" "app" "https://a" 5000]> ∅)) in
  activeTokens (cleanup 1000 st) !! "new" = Some (Token.mk 1000)
  /\ activeTokens (cleanup 1000 st) !! "old" = None
  /\ authorizationCodes (cleanup 1000 st) !! "fresh"
     = Some (Code.mk "c" "plain" "app" "https://a" 5000)
  /\ authorizationCodes (cleanup 1000 st) !! "stale" = None.
Proof.
  intros st.
  pose proof (cleanup_spec 1000 st) as (_ & HT & HC & _ & _).
  split; [| split; [| split]].
  - apply HT. split; [reflexivity | simpl; lia].
  - vm_compute. reflexivity.
  - apply HC. split; [reflexivity | simpl; lia].
  - vm_compute. reflexivity.
Defined.

End Cleanup.

(** ** Authorization codes *)

Section Codes.
Import OAuth.
Local Open Scope Z_scope.

Lemma redeem_absent code clientId redirectUri verifier now st :
  authorizationCodes st !! code = None ->
  validateAuthorizationCode code clientId redirectUri verifier now st
  = (rejected "Invalid authorization code", st).
Proof.
  intros Hc. unfold validateAuthorizationCode. rewrite Hc. reflexivity.
Qed.

(** Whatever a redemption returns, the code is absent afterwards and the
    token store is as before. *)
Lemma redeem_consumes code clientId redirectUri verifier now st :
  authorizationCodes (snd (validateAuthorizationCode code clientId redirectUri verifier now st))
  = delete code (authorizationCodes st)
  /\ activeTokens (snd (validateAuthorizationCode code clientId redirectUri verifier now st))
     = activeTokens st.
Proof.
  unfold validateAuthorizationCode.
  destruct (authorizationCodes st !! code) as [d|] eqn:Hc; simpl.
  - repeat match goal with |- context [if ?b then _ else _] => destruct b end;
      simpl; auto.
  - split; [|reflexivity]. symmetry. apply delete_id. exact Hc.
Qed.

(** The outcome of the checks on a code that is present. *)
Lemma redeem_present code clientId redirectUri verifier now st d :
  authorizationCodes st !! code = Some d ->
  fst (validateAuthorizationCode code clientId redirectUri verifier now st)
  = if Code.expiresAt d <? now then rejected "Authorization code expired"
    else if negb (String.eqb (Code.clientId d) clientId) then rejected "Client ID mismatch"
    else if negb (String.eqb (Code.redirectUri d) redirectUri) then rejected "Redirect URI mismatch"
    else if negb (validatePKCE verifier (Code.codeChallenge d) (Code.codeChallengeMethod d))
         then rejected "Invalid code verifier"
    else accepted.
Proof.
  intros Hc. unfold validateAuthorizationCode. rewrite Hc.
  repeat match goal with |- context [if ?b then _ else _] => destruct b end;
    reflexivity.
Qed.

Lemma create_stores rnd now clientId redirectUri codeChallenge method st :
  authorizationCodes
    (snd (createAuthorizationCode rnd now clientId redirectUri codeChallenge method st))
  !! fst (createAuthorizationCode rnd now clientId redirectUri codeChallenge method st)
  = Some (Code.mk codeChallenge method clientId redirectUri
                  (now + AUTH_CODE_EXPIRATION * 1000)).
Proof. unfold createAuthorizationCode. simpl. apply lookup_insert_eq. Qed.

(** A code redeemed in time by the client it was created for, with the
    redirect URI it was created with and a verifier that answers its
    challenge, is accepted. *)
Lemma redeem_created rnd now now1 clientId redirectUri codeChallenge method verifier st :
  answers verifier codeChallenge method ->
  now1 <= now + AUTH_CODE_EXPIRATION * 1000 ->
  fst (validateAuthorizationCode
         (fst (createAuthorizationCode rnd now clientId redirectUri codeChallenge method st))
         clientId redirectUri verifier now1
         (snd (createAuthorizationCode rnd now clientId redirectUri codeChallenge method st)))
  = accepted.
Proof.
  intros Hans Hnow.
  rewrite (redeem_present _ _ _ _ _ _ _ (create_stores _ _ _ _ _ _ _)). simpl.
  apply validatePKCE_answers in Hans. rewrite Hans.
  rewrite !String.eqb_refl. simpl.
  destruct (Z.ltb_spec (now + AUTH_CODE_EXPIRATION * 1000) now1); [lia | reflexivity].
Qed.

(** C1.  Authorization codes are single-use.  A code created for
    [(clientId, redirectUri, codeChallenge, method)] and redeemed within its
    lifetime with a verifier answering the challenge is accepted, and every
    redemption after that one is rejected as an invalid code.  In general a
    redemption of a code that is in the store removes it whatever the
    outcome of the checks, so that a second redemption of the same code,
    whatever the first returned, is rejected as an invalid code. *)
Theorem authorization_code_single_use :
  forall (rnd : list Z) (now now1 : Z)
         (clientId redirectUri codeChallenge method verifier : string)
         (st : Stores),
    answers verifier codeChallenge method ->
    now1 <= now + AUTH_CODE_EXPIRATION * 1000 ->
    let created :=
      createAuthorizationCode rnd now clientId redirectUri codeChallenge method st in
    let first :=
      validateAuthorizationCode (fst created) clientId redirectUri verifier now1
                                (snd created) in
    fst first = accepted
    /\ (forall cid uri ver now2,
          fst (validateAuthorizationCode (fst created) cid uri ver now2 (snd first))
          = rejected "Invalid authorization code")
    /\ (forall code cid uri ver t s,
          is_Some (authorizationCodes s !! code) ->
          authorizationCodes (snd (validateAuthorizationCode code cid uri ver t s))
          = delete code (authorizationCodes s))
    /\ (forall code cid uri ver t cid' uri' ver' t' s,
          fst (validateAuthorizationCode code cid' uri' ver' t'
                 (snd (validateAuthorizationCode code cid uri ver t s)))
          = rejected "Invalid authorization code").
Proof.
  intros rnd now now1 clientId redirectUri codeChallenge method verifier st
         Hans Hnow created first.
  assert (Hsecond : forall code cid uri ver t cid' uri' ver' t' s,
            fst (validateAuthorizationCode code cid' uri' ver' t'
                   (snd (validateAuthorizationCode code cid uri ver t s)))
            = rejected "Invalid authorization code").
  { intros code cid uri ver t cid' uri' ver' t' s.
    rewrite redeem_absent; [reflexivity|].
    rewrite (proj1 (redeem_consumes code cid uri ver t s)).
    apply lookup_delete_eq. }
  split; [| split; [| split]].
  - subst first created. now apply redeem_created.
  - intros cid uri ver now2. subst first. apply Hsecond.
  - intros code cid uri ver t s _. apply redeem_consumes.
  - exact Hsecond.
Qed.

(** A code created at time 0 for an [S256] challenge, redeemed at time 1000
    and then presented again. *)
Lemma authorization_code_single_use_witness :
  let created :=
    createAuthorizationCode (Sample.rnd 171) 0 "app" "https://app/cb"
                            (s256 "abc123") "S256" empty_stores in
  let first :=
    validateAuthorizationCode (fst created) "app" "https://app/cb" "abc123" 1000
                              (snd created) in
  answers "abc123" (s256 "abc123") "S256"
  /\ 1000 <= 0 + AUTH_CODE_EXPIRATION * 1000
  /\ fst first = accepted
  /\ fst (validateAuthorizationCode (fst created) "app" "https://app/cb" "abc123" 1001
            (snd first))
     = rejected "Invalid authorization code".
Proof.
  intros created first.
  assert (Hans : answers "abc123" (s256 "abc123") "S256").
  { left. split; reflexivity. }
  assert (Hnow : 1000 <= 0 + AUTH_CODE_EXPIRATION * 1000).
  { unfold AUTH_CODE_EXPIRATION. lia. }
  pose proof (authorization_code_single_use (Sample.rnd 171) 0 1000
                "app" "https://app/cb" (s256 "abc123") "S256" "abc123"
                empty_stores Hans Hnow) as (H1 & H2 & _ & _).
  split; [exact Hans|]. split; [exact Hnow|]. split; [exact H1|].
  apply H2.
Defined.

(** C6.  On a code that is in the store, the checks of a redemption run in
    the order expiry, client id, redirect URI, PKCE; the first that fails
    gives the reason, and the redemption is accepted when none does.  A code
    past its [expiresAt] is rejected as expired although it is still in the
    store; this is the fate of every code presented more than 600 seconds
    after its creation. *)
Theorem redemption_check_order :
  forall (code clientId redirectUri verifier : string) (now : Z)
         (st : Stores) (d : Code.data),
    authorizationCodes st !! code = Some d ->
    let r := fst (validateAuthorizationCode code clientId redirectUri verifier now st) in
    (Code.expiresAt d < now -> r = rejected "Authorization code expired")
    /\ (now <= Code.expiresAt d ->
        Code.clientId d <> clientId ->
        r = rejected "Client ID mismatch")
    /\ (now <= Code.expiresAt d ->
        Code.clientId d = clientId ->
        Code.redirectUri d <> redirectUri ->
        r = rejected "Redirect URI mismatch")
    /\ (now <= Code.expiresAt d ->
        Code.clientId d = clientId ->
        Code.redirectUri d = redirectUri ->
        validatePKCE verifier (Code.codeChallenge d) (Code.codeChallengeMethod d) = false ->
        r = rejected "Invalid code verifier")
    /\ (now <= Code.expiresAt d ->
        Code.clientId d = clientId ->
        Code.redirectUri d = redirectUri ->
        validatePKCE verifier (Code.codeChallenge d) (Code.codeChallengeMethod d) = true ->
        r = accepted)
    /\ (forall rnd now0 cid uri challenge method cid' uri' ver' s,
          now0 + AUTH_CODE_EXPIRATION * 1000 < now ->
          let created := createAuthorizationCode rnd now0 cid uri challenge method s in
          fst (validateAuthorizationCode (fst created) cid' uri' ver' now (snd created))
          = rejected "Authorization code expired").
Proof.
  intros code clientId redirectUri verifier now st d Hd r.
  subst r. rewrite (redeem_present _ _ _ _ _ _ _ Hd).
  repeat split.
  - intros Hexp. apply Z.ltb_lt in Hexp. now rewrite Hexp.
  - intros Hexp Hcid. apply Z.ltb_ge in Hexp. rewrite Hexp.
    apply String.eqb_neq in Hcid. now rewrite Hcid.
  - intros Hexp -> Huri. apply Z.ltb_ge in Hexp. rewrite Hexp.
    rewrite String.eqb_refl. simpl.
    apply String.eqb_neq in Huri. now rewrite Huri.
  - intros Hexp -> -> Hp. apply Z.ltb_ge in Hexp. rewrite Hexp.
    rewrite !String.eqb_refl. simpl. now rewrite Hp.
  - intros Hexp -> -> Hp. apply Z.ltb_ge in Hexp. rewrite Hexp.
    rewrite !String.eqb_refl. simpl. now rewrite Hp.
  - intros rnd now0 cid uri challenge method cid' uri' ver' s Hlate created.
    subst created.
    rewrite (redeem_present _ _ _ _ _ _ _ (create_stores _ _ _ _ _ _ _)). simpl.
    apply Z.ltb_lt in Hlate. now rewrite Hlate.
Qed.

(** A code created at time 0 and presented at 600001 ms, before any sweep;
    and a code in the store presented by another client. *)
Lemma redemption_check_order_witness :
  let created :=
    createAuthorizationCode (Sample.rnd 1) 0 "app" "https://app/cb" "abc" "plain"
                            empty_stores in
  0 + AUTH_CODE_EXPIRATION * 1000 < 600001
  /\ fst (validateAuthorizationCode (fst created) "app" "https://app/cb" "abc" 600001
            (snd created))
     = rejected "Authorization code expired"
  /\ fst (validateAuthorizationCode (fst created) "other" "https://app/cb" "abc" 5
            (snd created))
     = rejected "Client ID mismatch".
Proof.
  intros created.
  pose proof (create_stores (Sample.rnd 1) 0 "app" "https://app/cb" "abc" "plain"
                empty_stores) as Hd.
  assert (Hlate : 0 + AUTH_CODE_EXPIRATION * 1000 < 600001).
  { unfold AUTH_CODE_EXPIRATION. lia. }
  split; [exact Hlate|]. split.
  - apply (proj1 (redemption_check_order _ "app" "https://app/cb" "abc" 600001 _ _ Hd)).
    simpl. exact Hlate.
  - apply (proj1 (proj2 (redemption_check_order _ "other" "https://app/cb" "abc" 5 _ _ Hd))).
    + simpl. unfold AUTH_CODE_EXPIRATION. lia.
    + simpl. discriminate.
Defined.

End Codes.

(** ** Access tokens *)

Section Tokens.
Import OAuth.
Local Open Scope Z_scope.

(** The static-key test [config.apiKey && token === config.apiKey]. *)
Lemma static_key_test (token : string) (config : Config) :
  negb (String.eqb (apiKey config) "") && String.eqb token (apiKey config) = true
  <-> apiKey config <> "" /\ token = apiKey config.
Proof.
  rewrite andb_true_iff, negb_true_iff, String.eqb_neq, String.eqb_eq.
  reflexivity.
Qed.

(** C5.  [validateAccessToken] returns true exactly when the token is the
    configured (non-empty) static key or is in the token store with an
    [expiresAt] that has not passed.  A token looked up in the store and
    found expired is deleted on the spot and refused.  A successful
    validation leaves the store, hence every expiry, as it was. *)
Theorem validateAccessToken_spec :
  forall (token : string) (config : Config) (now : Z) (st : Stores),
    let r := validateAccessToken token config now st in
    (fst r = true
     <-> (apiKey config <> "" /\ token = apiKey config)
         \/ (exists d, activeTokens st !! token = Some d /\ now <= Token.expiresAt d))
    /\ (forall d,
          ~ (apiKey config <> "" /\ token = apiKey config) ->
          activeTokens st !! token = Some d ->
          Token.expiresAt d < now ->
          r = (false, mkStores (delete token (activeTokens st)) (authorizationCodes st)))
    /\ (fst r = true -> snd r = st).
Proof.
  intros token config now st r. subst r. unfold validateAccessToken.
  pose proof (static_key_test token config) as Hkey.
  destruct (negb (String.eqb (apiKey config) "") && String.eqb token (apiKey config)).
  - split; [| split].
    + split; [intros _; left; now apply Hkey | reflexivity].
    + intros d Hno. exfalso. apply Hno. now apply Hkey.
    + reflexivity.
  - assert (Hno : ~ (apiKey config <> "" /\ token = apiKey config)).
    { intros Hk. apply Hkey in Hk. discriminate. }
    destruct (activeTokens st !! token) as [d|] eqn:Hd.
    + destruct (Z.ltb_spec (Token.expiresAt d) now) as [Hexp|Hlive]; simpl.
      * split; [| split].
        -- split; [discriminate|].
           intros [Hk | (d' & Hd' & Hlive)]; [contradiction|].
           injection Hd' as <-. lia.
        -- intros d' _ Hd' _. reflexivity.
        -- discriminate.
      * split; [| split].
        -- split; [intros _; right; exists d; auto | reflexivity].
        -- intros d' _ Hd' Hexp'. injection Hd' as <-. lia.
        -- reflexivity.
    + simpl. split; [| split].
      * split; [discriminate|].
        intros [Hk | (d' & Hd' & _)]; [contradiction | discriminate].
      * intros d' _ Hd'. discriminate.
      * discriminate.
Qed.

(** A token issued at time 0 is refused and evicted when presented at
    3600001 ms, no sweep having run. *)
Lemma validateAccessToken_spec_witness :
  let issued := issueToken (Sample.rnd 7) 0 empty_stores in
  let token := access_token (fst issued) in
  validateAccessToken token (Sample.config 1) 3600001 (snd issued)
  = (false, empty_stores).
Proof.
  intros issued token.
  pose proof (validateAccessToken_spec token (Sample.config 1) 3600001 (snd issued))
    as (_ & Hevict & _).
  rewrite (Hevict (Token.mk 3600000)).
  - vm_compute. reflexivity.
  - intros [_ Heq]. vm_compute in Heq. discriminate.
  - vm_compute. reflexivity.
  - simpl. lia.
Defined.

(** A token is valid for exactly 3600 seconds from its issuance, however
    often it is validated in between. *)
Lemma issued_token_window rnd now now1 config st :
  access_token (fst (issueToken rnd now st)) <> apiKey config ->
  fst (validateAccessToken (access_token (fst (issueToken rnd now st))) config now1
         (snd (issueToken rnd now st)))
  = (now1 <=? now + TOKEN_EXPIRATION * 1000).
Proof.
  intros Hne. unfold validateAccessToken, issueToken in *. simpl in *.
  apply String.eqb_neq in Hne. rewrite Hne, andb_false_r.
  rewrite lookup_insert_eq. simpl.
  destruct (Z.ltb_spec (now + TOKEN_EXPIRATION * 1000) now1);
    destruct (Z.leb_spec now1 (now + TOKEN_EXPIRATION * 1000)); simpl; auto; lia.
Qed.

End Tokens.

(** ** The static-key comparison *)

Section StaticKey.
Import OAuth Timing.

(** The helper [timingSafeEqual] reads every byte pair of two strings of
    one length, wherever they first differ. *)
Lemma timingSafeReads_length (a b : string) :
  String.length a = String.length b ->
  timingSafeReads a b = String.length a.
Proof.
  intros Hlen. unfold timingSafeReads.
  rewrite !of_string_length, Hlen, Nat.eqb_refl. simpl.
  rewrite length_combine, !of_string_length, Hlen. apply Nat.min_id.
Qed.

(** The scan stops right after the common prefix of its arguments. *)
Lemma scanReads_first_difference (p a b : string) (x y : ascii) :
  x <> y ->
  scanReads (p ++ String x a) (p ++ String y b) = S (String.length p).
Proof.
  intros Hxy. induction p as [|c p IH]; simpl.
  - apply Ascii.eqb_neq in Hxy. now rewrite Hxy.
  - rewrite Ascii.eqb_refl. now rewrite IH.
Qed.

(** C2.  The static-key test of [validateAccessToken] is the plain [===],
    not the helper [timingSafeEqual] that [validateClientCredentials] uses:
    for a 15-byte key, two refused tokens of the key's length cost 1 and 15
    byte reads according to where they first differ from the key, while the
    helper reads 15 pairs for both. *)
Theorem static_key_comparison_leaks_prefix :
  let config := Sample.config 1 in
  let early := "Xtatic-key-0123" in
  let late := "static-key-012X" in
  fst (validateAccessToken early config 0 empty_stores) = false
  /\ fst (validateAccessToken late config 0 empty_stores) = false
  /\ staticKeyReads early config = 1%nat
  /\ staticKeyReads late config = 15%nat
  /\ timingSafeReads early (apiKey config) = 15%nat
  /\ timingSafeReads late (apiKey config) = 15%nat.
Proof. vm_compute. repeat split; reflexivity. Qed.

End StaticKey.

(** ** The capability gate and the dispatcher *)

Section Dispatcher.
Import Tools.
Local Open Scope Z_scope.

Lemma getTool_Some (tools : list ToolDefinition) (n : string) (tool : ToolDefinition) :
  getTool tools n = Some tool -> In tool tools /\ name tool = n.
Proof.
  unfold getTool. intros Hf. apply find_some in Hf as [Hin Hn].
  split; [exact Hin | now apply String.eqb_eq].
Qed.

Lemma getTool_None (tools : list ToolDefinition) (n : string) :
  getTool tools n = None <-> forall tool, In tool tools -> name tool <> n.
Proof.
  unfold getTool. split.
  - intros Hf tool Hin. apply String.eqb_neq. exact (find_none _ _ Hf tool Hin).
  - intros Hall. induction tools as [|t tools IH]; simpl; [reflexivity|].
    destruct (String.eqb (name t) n) eqn:Hn.
    + apply String.eqb_eq in Hn. exfalso. apply (Hall t); [left; reflexivity | exact Hn].
    + apply IH. intros tool Hin. apply Hall. right. exact Hin.
Qed.

(** C3.  A name that the registry does not resolve is answered with
    [MethodNotFound].  A tool whose level exceeds the configured level is
    answered with an error whose message gives the required and the current
    level, and no handler is invoked: the invocation log is unchanged.  The
    tools listed at the configured level are exactly those of the registry
    whose level is at most that level. *)
Theorem capability_gate :
  forall (tools : list ToolDefinition) (config : Config) (toolName : string)
         (arguments : option Json.value) (log : list string),
    (getTool tools toolName = None ->
       callTool tools config toolName arguments log
       = (Throws MethodNotFound ("Tool not found: " ++ toolName), log))
    /\ (forall tool,
          getTool tools toolName = Some tool ->
          Js.gt (Js.Int (level tool)) (capabilityLevel config) = true ->
          callTool tools config toolName arguments log
          = (Throws InvalidRequest
               (levelMessage toolName (level tool) (capabilityLevel config)), log)
          /\ callCount toolName (snd (callTool tools config toolName arguments [])) = 0%nat)
    /\ (forall tool,
          In tool (getToolsForLevel tools (capabilityLevel config))
          <-> In tool tools /\ Js.le (Js.Int (level tool)) (capabilityLevel config) = true)
    /\ (forall n d,
          In (n, d) (listTools tools config)
          <-> exists tool, In tool tools /\ name tool = n /\ description tool = d
                           /\ Js.le (Js.Int (level tool)) (capabilityLevel config) = true).
Proof.
  intros tools config toolName arguments log.
  assert (Hlist : forall tool,
            In tool (getToolsForLevel tools (capabilityLevel config))
            <-> In tool tools /\ Js.le (Js.Int (level tool)) (capabilityLevel config) = true).
  { intros tool. unfold getToolsForLevel. apply filter_In. }
  split; [| split; [| split]].
  - intros Hnone. unfold callTool. rewrite Hnone. reflexivity.
  - intros tool Hsome Hgt. unfold callTool. rewrite Hsome, Hgt.
    split; reflexivity.
  - exact Hlist.
  - intros n d. unfold listTools. rewrite in_map_iff. split.
    + intros (tool & Heq & Hin). injection Heq as <- <-.
      apply Hlist in Hin as [Hin Hle]. exists tool. auto.
    + intros (tool & Hin & <- & <- & Hle). exists tool.
      split; [reflexivity | apply Hlist; auto].
Qed.

(** The registry of the source at level 2: [proxmox_delete_vm], a level-4
    tool, is refused without a call; on the three-tool registry the
    level-1 and level-2 tools are the ones listed. *)
Lemma capability_gate_witness :
  callTool (ALL_TOOLS Sample.quiet) (Sample.config 2) "proxmox_delete_vm" None []
  = (Throws InvalidRequest
       "Tool proxmox_delete_vm requires capability level 4, current level is 2", [])
  /\ callTool (ALL_TOOLS Sample.quiet) (Sample.config 2) "no_such_tool" None []
     = (Throws MethodNotFound "Tool not found: no_such_tool", [])
  /\ listTools Sample.registry124 (Sample.config 2)
     = [("read", "level one"); ("restart", "level two")].
Proof.
  split; [| split].
  - pose proof (capability_gate (ALL_TOOLS Sample.quiet) (Sample.config 2)
                  "proxmox_delete_vm" None []) as (_ & Hdeny & _).
    apply (Hdeny (mkTool "proxmox_delete_vm" "Delete a Proxmox VM or container" 4
                         (Sample.quiet "proxmox_delete_vm"))).
    + vm_compute. reflexivity.
    + vm_compute. reflexivity.
  - pose proof (capability_gate (ALL_TOOLS Sample.quiet) (Sample.config 2)
                  "no_such_tool" None []) as (Hnone & _).
    apply Hnone. vm_compute. reflexivity.
  - vm_compute. reflexivity.
Defined.

(** On the three-tool registry at level 2 the level-4 tool is refused and
    its handler has not run; the level-2 tool runs once. *)
Example registry124_level2 :
  callTool Sample.registry124 (Sample.config 2) "destroy" None []
  = (Throws InvalidRequest
       "Tool destroy requires capability level 4, current level is 2", [])
  /\ callCount "destroy"
       (snd (callTool Sample.registry124 (Sample.config 2) "destroy" None [])) = 0%nat
  /\ callCount "restart"
       (snd (callTool Sample.registry124 (Sample.config 2) "restart" None [])) = 1%nat.
Proof. vm_compute. repeat split; reflexivity. Qed.

(** C7, as the claim states it, fails: a handler that throws an [Error]
    with an empty message is answered with an envelope whose message is
    the empty string. *)
Lemma thrown_empty_message_counterexample :
  handler (mkTool "boom" "always fails" 1 (fun _ _ => Rejects (ErrorObject "")))
          (Json.Obj []) (Sample.config 1)
  = Rejects (ErrorObject "")
  /\ callTool Sample.registryThrowing (Sample.config 1) "boom" None []
     = (Returns (errorEnvelope (errorMessage (ErrorObject ""))), ["boom"])
  /\ errorMessage (ErrorObject "") = ""
  /\ ~ (forall e : Thrown, errorMessage e <> "").
Proof.
  split; [reflexivity|]. split; [reflexivity|]. split; [reflexivity|].
  intros Hall. apply (Hall (ErrorObject "")). reflexivity.
Qed.

(** C7, amended.  For a tool that is found and allowed, a handler that
    throws is answered with the envelope [{error: true, code:
    "TOOL_EXECUTION_ERROR", message}] marked [isError], whose message is the
    message of the thrown [Error] (non-empty when that one is) or ["Unknown
    error"] for any other thrown value.  A handler that returns is answered
    with its serialized result and no [isError] marker when
    [JSON.stringify] writes a text for the result, with no text and no
    marker when [JSON.stringify] returns [undefined], and with the same
    [isError] envelope, carrying what the serializer has thrown, when
    [JSON.stringify] throws.  In no case does the dispatcher throw. *)
Theorem handler_failure_is_enveloped :
  forall (tools : list ToolDefinition) (config : Config) (toolName : string)
         (arguments : option Json.value) (log : list string) (tool : ToolDefinition),
    getTool tools toolName = Some tool ->
    Js.gt (Js.Int (level tool)) (capabilityLevel config) = false ->
    let args := match arguments with Some a => a | None => Json.Obj [] end in
    let reply := fst (callTool tools config toolName arguments log) in
    (forall e,
       handler tool args config = Rejects e ->
       reply = Returns (errorEnvelope (errorMessage e))
       /\ isError (errorEnvelope (errorMessage e)) = Some true
       /\ ((e = OtherValue \/ exists m, e = ErrorObject m /\ m <> "") ->
           errorMessage e <> ""))
    /\ (forall json,
          handler tool args config = Resolves (Data json) ->
          reply = Returns (mkResult (Some (Json.stringify2 json)) None))
    /\ (handler tool args config = Resolves Undefined ->
        reply = Returns (mkResult None None))
    /\ (forall e,
          handler tool args config = Resolves (Unserializable e) ->
          reply = Returns (errorEnvelope (errorMessage e)))
    /\ (forall code message, reply <> Throws code message).
Proof.
  intros tools config toolName arguments log tool Hsome Hle args reply.
  subst reply. unfold callTool. rewrite Hsome, Hle. fold args.
  split; [| split; [| split; [| split]]].
  - intros e He. rewrite He. split; [| split].
    + reflexivity.
    + reflexivity.
    + intros [-> | (m & -> & Hm)]; simpl; [discriminate | exact Hm].
  - intros json Hr. rewrite Hr. reflexivity.
  - intros Hr. rewrite Hr. reflexivity.
  - intros e Hr. rewrite Hr. reflexivity.
  - intros code message.
    destruct (handler tool args config) as [[json| |e]|e]; simpl; discriminate.
Qed.

(** A handler throwing [new Error('disk full')], one returning a string,
    and one returning a [BigInt]. *)
Lemma handler_failure_is_enveloped_witness :
  let failing := mkTool "df" "disk" 1 (fun _ _ => Rejects (ErrorObject "disk full")) in
  let counting :=
    mkTool "count" "rows" 1
      (fun _ _ => Resolves (Unserializable
                              (ErrorObject "Do not know how to serialize a BigInt"))) in
  fst (callTool [failing] (Sample.config 1) "df" None [])
  = Returns (errorEnvelope "disk full")
  /\ fst (callTool Sample.registry124 (Sample.config 2) "read" None [])
     = Returns (mkResult (Some (Json.quote "r")) None)
  /\ fst (callTool [counting] (Sample.config 1) "count" None [])
     = Returns (errorEnvelope "Do not know how to serialize a BigInt").
Proof.
  intros failing counting. split; [| split].
  - pose proof (handler_failure_is_enveloped [failing] (Sample.config 1) "df" None []
                  failing eq_refl eq_refl) as (Hthrow & _).
    apply (Hthrow (ErrorObject "disk full")). reflexivity.
  - pose proof (handler_failure_is_enveloped Sample.registry124 (Sample.config 2)
                  "read" None []
                  (mkTool "read" "level one" 1 (fun _ _ => Resolves (Data (Json.Str "r"))))
                  eq_refl eq_refl) as (_ & Hret & _).
    apply (Hret (Json.Str "r")). reflexivity.
  - pose proof (handler_failure_is_enveloped [counting] (Sample.config 1) "count" None []
                  counting eq_refl eq_refl) as (_ & _ & _ & Hser & _).
    apply (Hser (ErrorObject "Do not know how to serialize a BigInt")). reflexivity.
Defined.

End Dispatcher.

(** ** The calls of the token endpoint into [oauth.ts] *)

Section UntypedCalls.
Import OAuth Http.
Local Open Scope Z_scope.
Context `{Runtime}.

Lemma strictEquals_true (v : Json.value) (s : string) :
  Json.strictEquals v s = true <-> v = Json.Str s.
Proof.
  destruct v; simpl; try (split; discriminate).
  rewrite String.eqb_eq. split; [intros ->; reflexivity | intros Heq; now injection Heq].
Qed.

Lemma same_true (o : option Json.value) (s : string) :
  Json.same o s = true <-> o = Some (Json.Str s).
Proof.
  destruct o as [v|]; simpl; [| split; discriminate].
  rewrite strictEquals_true. split; [intros ->; reflexivity | intros Heq; now injection Heq].
Qed.

Lemma same_false (o : option Json.value) (s : string) :
  o <> Some (Json.Str s) -> Json.same o s = false.
Proof.
  intros Hne. destruct (Json.same o s) eqn:Hs; [|reflexivity].
  apply same_true in Hs. contradiction.
Qed.

Lemma falsy_cases (a b c d : option Json.value) :
  negb (Json.truthy a) || negb (Json.truthy b) || negb (Json.truthy c)
  || negb (Json.truthy d) = false
  <-> Json.truthy a = true /\ Json.truthy b = true /\ Json.truthy c = true
      /\ Json.truthy d = true.
Proof.
  destruct (Json.truthy a), (Json.truthy b), (Json.truthy c), (Json.truthy d); simpl;
    intuition discriminate.
Qed.

(** On strings the untyped functions are those of [OAuth]. *)
Lemma untyped_timingSafeEqual_Str (a b : string) :
  Untyped.timingSafeEqual (Json.Str a) b = Some (timingSafeEqual a b).
Proof.
  unfold Untyped.timingSafeEqual, timingSafeEqual. cbn [Untyped.bufferFrom].
  destruct (negb (Nat.eqb (length (Bytes.of_string a)) (length (Bytes.of_string b))));
    reflexivity.
Qed.

Lemma untyped_credentials_Str (clientId clientSecret : string) (config : Config) :
  Untyped.validateClientCredentials (Json.Str clientId) (Json.Str clientSecret) config
  = validateClientCredentials clientId clientSecret config.
Proof.
  unfold Untyped.validateClientCredentials, validateClientCredentials.
  destruct (oauthClientId config) as [cid|]; [|reflexivity].
  destruct (oauthClientSecret config) as [csec|]; [|reflexivity].
  rewrite !untyped_timingSafeEqual_Str. reflexivity.
Qed.

Lemma untyped_pkce_Str (verifier challenge method : string) :
  Untyped.validatePKCE (Json.Str verifier) challenge method
  = Some (validatePKCE verifier challenge method).
Proof.
  unfold Untyped.validatePKCE, validatePKCE.
  destruct (String.eqb method "S256"); [reflexivity|].
  destruct (String.eqb method "plain"); reflexivity.
Qed.

Lemma untyped_redeem_Str (code clientId redirectUri verifier : string) now st :
  Untyped.validateAuthorizationCode (Json.Str code) (Json.Str clientId)
    (Json.Str redirectUri) (Json.Str verifier) now st
  = (Some (fst (validateAuthorizationCode code clientId redirectUri verifier now st)),
     snd (validateAuthorizationCode code clientId redirectUri verifier now st)).
Proof.
  unfold Untyped.validateAuthorizationCode, validateAuthorizationCode.
  destruct (authorizationCodes st !! code) as [d|]; [|reflexivity].
  destruct (Code.expiresAt d <? now); [reflexivity|].
  cbn [Json.strictEquals].
  rewrite (String.eqb_sym clientId), (String.eqb_sym redirectUri).
  destruct (String.eqb (Code.clientId d) clientId); [|reflexivity].
  destruct (String.eqb (Code.redirectUri d) redirectUri); [|reflexivity].
  cbn [negb]. rewrite untyped_pkce_Str.
  destruct (validatePKCE verifier (Code.codeChallenge d) (Code.codeChallengeMethod d));
    reflexivity.
Qed.

(** A code that is not in the store, and a code that is not a string. *)
Lemma untyped_redeem_absent (c : string) (clientId redirectUri verifier : Json.value)
    now st :
  authorizationCodes st !! c = None ->
  Untyped.validateAuthorizationCode (Json.Str c) clientId redirectUri verifier now st
  = (Some (rejected "Invalid authorization code"), st).
Proof.
  intros Hc. unfold Untyped.validateAuthorizationCode. rewrite Hc. reflexivity.
Qed.

Lemma untyped_redeem_other (code clientId redirectUri verifier : Json.value) now st :
  (forall c, code <> Json.Str c) ->
  Untyped.validateAuthorizationCode code clientId redirectUri verifier now st
  = (Some (rejected "Invalid authorization code"), st).
Proof.
  intros Hc. destruct code as [| | | |c| |]; try reflexivity. exfalso. now apply (Hc c).
Qed.

(** Whatever a redemption returns or throws, the token store is as before
    and the code store has lost the presented code and nothing else. *)
Lemma untyped_redeem_stores (code clientId redirectUri verifier : Json.value) now st :
  let r := Untyped.validateAuthorizationCode code clientId redirectUri verifier now st in
  activeTokens (snd r) = activeTokens st
  /\ authorizationCodes (snd r) ⊆ authorizationCodes st
  /\ (forall c, code = Json.Str c ->
        authorizationCodes (snd r) = delete c (authorizationCodes st)).
Proof.
  intros r. subst r. unfold Untyped.validateAuthorizationCode.
  destruct code as [| | | |c| |];
    try (cbn [snd]; split; [reflexivity|]; split; [reflexivity | intros c Hc; discriminate]).
  destruct (authorizationCodes st !! c) as [d|] eqn:Hc.
  - assert (Hdel : forall (v : option Validation),
              let st' := mkStores (activeTokens st) (delete c (authorizationCodes st)) in
              activeTokens (snd (v, st')) = activeTokens st
              /\ authorizationCodes (snd (v, st')) ⊆ authorizationCodes st
              /\ (forall c', Json.Str c = Json.Str c' ->
                    authorizationCodes (snd (v, st')) = delete c' (authorizationCodes st))).
    { intros v st'. cbn [snd st' activeTokens authorizationCodes].
      split; [reflexivity|]. split; [apply delete_subseteq|].
      intros c' Heq. now injection Heq as <-. }
    destruct (Code.expiresAt d <? now); [apply Hdel|].
    destruct (negb (Json.strictEquals clientId (Code.clientId d))); [apply Hdel|].
    destruct (negb (Json.strictEquals redirectUri (Code.redirectUri d))); [apply Hdel|].
    destruct (Untyped.validatePKCE verifier (Code.codeChallenge d)
                (Code.codeChallengeMethod d)) as [[|]|]; apply Hdel.
  - cbn [snd]. split; [reflexivity|]. split; [reflexivity|].
    intros c' Heq. injection Heq as <-. symmetry. now apply delete_id.
Qed.

(** The one way in which [validatePKCE] throws. *)
Lemma untyped_pkce_throws (verifier : Json.value) (challenge method : string) :
  Untyped.validatePKCE verifier challenge method = None
  <-> method = "S256" /\ forall v, verifier <> Json.Str v.
Proof.
  unfold Untyped.validatePKCE.
  destruct (String.eqb_spec method "S256") as [->|Hne].
  - destruct verifier as [| | | |v| |];
      try (split; [intros _; split; [reflexivity | intros v; discriminate]
                  | intros _; reflexivity]).
    split; [discriminate|]. intros [_ Hv]. exfalso. now apply (Hv v).
  - destruct (String.eqb method "plain"); split; try discriminate;
      intros [Hm _]; contradiction.
Qed.

(** A redemption throws in one case only: the code is in the store, has not
    expired, was created for the presented client id and redirect URI under
    the method [S256], and the presented verifier is not a string. *)
Lemma untyped_redeem_throws (code clientId redirectUri verifier : Json.value) now st :
  fst (Untyped.validateAuthorizationCode code clientId redirectUri verifier now st) = None
  <-> exists c d,
        code = Json.Str c /\ authorizationCodes st !! c = Some d
        /\ now <= Code.expiresAt d
        /\ clientId = Json.Str (Code.clientId d)
        /\ redirectUri = Json.Str (Code.redirectUri d)
        /\ Code.codeChallengeMethod d = "S256"
        /\ forall s, verifier <> Json.Str s.
Proof.
  unfold Untyped.validateAuthorizationCode.
  destruct code as [| | | |c| |];
    try (cbn [fst]; split; [discriminate | intros (c & d & Hc & _); discriminate]).
  destruct (authorizationCodes st !! c) as [d|] eqn:Hd.
  - destruct (Z.ltb_spec (Code.expiresAt d) now) as [Hexp|Hlive].
    { cbn [fst]. split; [discriminate|].
      intros (c' & d' & Hc & Hd' & Hnow & _). injection Hc as <-.
      rewrite Hd in Hd'. injection Hd' as <-. lia. }
    destruct (Json.strictEquals clientId (Code.clientId d)) eqn:Hi; cbn [negb].
    2:{ cbn [fst]. split; [discriminate|].
        intros (c' & d' & Hc & Hd' & _ & Hcid & _). injection Hc as <-.
        rewrite Hd in Hd'. injection Hd' as <-.
        apply strictEquals_true in Hcid. congruence. }
    destruct (Json.strictEquals redirectUri (Code.redirectUri d)) eqn:Hu; cbn [negb].
    2:{ cbn [fst]. split; [discriminate|].
        intros (c' & d' & Hc & Hd' & _ & _ & Huri & _). injection Hc as <-.
        rewrite Hd in Hd'. injection Hd' as <-.
        apply strictEquals_true in Huri. congruence. }
    apply strictEquals_true in Hi, Hu.
    destruct (Untyped.validatePKCE verifier (Code.codeChallenge d)
                (Code.codeChallengeMethod d)) as [[|]|] eqn:Hp; cbn [fst].
    + split; [discriminate|].
      intros (c' & d' & Hc & Hd' & _ & _ & _ & Hm & Hv). injection Hc as <-.
      rewrite Hd in Hd'. injection Hd' as <-.
      rewrite (proj2 (untyped_pkce_throws _ _ _) (conj Hm Hv)) in Hp. discriminate.
    + split; [discriminate|].
      intros (c' & d' & Hc & Hd' & _ & _ & _ & Hm & Hv). injection Hc as <-.
      rewrite Hd in Hd'. injection Hd' as <-.
      rewrite (proj2 (untyped_pkce_throws _ _ _) (conj Hm Hv)) in Hp. discriminate.
    + apply untyped_pkce_throws in Hp as [Hm Hv].
      split; [intros _ | reflexivity]. exists c, d. auto 8.
  - cbn [fst]. split; [discriminate|].
    intros (c' & d' & Hc & Hd' & _). injection Hc as <-. congruence.
Qed.

(** What a redemption returns when it does not throw. *)
Lemma untyped_redeem_result (code clientId redirectUri verifier : Json.value) now st v :
  fst (Untyped.validateAuthorizationCode code clientId redirectUri verifier now st) = Some v ->
  v = accepted \/ exists reason, In reason refusals /\ v = rejected reason.
Proof.
  unfold Untyped.validateAuthorizationCode, refusals, rejected, accepted.
  destruct code as [| | | |c| |];
    try (cbn [fst]; intros Hv; injection Hv as <-; right; eexists;
         split; [left; reflexivity | reflexivity]).
  destruct (authorizationCodes st !! c) as [d|];
    [| cbn [fst]; intros Hv; injection Hv as <-; right; eexists;
       split; [left; reflexivity | reflexivity]].
  destruct (Code.expiresAt d <? now);
    [cbn [fst]; intros Hv; injection Hv as <-; right; eexists;
     split; [right; left; reflexivity | reflexivity]|].
  destruct (negb (Json.strictEquals clientId (Code.clientId d)));
    [cbn [fst]; intros Hv; injection Hv as <-; right; eexists;
     split; [right; right; left; reflexivity | reflexivity]|].
  destruct (negb (Json.strictEquals redirectUri (Code.redirectUri d)));
    [cbn [fst]; intros Hv; injection Hv as <-; right; eexists;
     split; [right; right; right; left; reflexivity | reflexivity]|].
  destruct (Untyped.validatePKCE verifier (Code.codeChallenge d)
              (Code.codeChallengeMethod d)) as [[|]|]; cbn [fst]; intros Hv;
    [injection Hv as <-; left; reflexivity
    | injection Hv as <-; right; eexists;
      split; [right; right; right; right; left; reflexivity | reflexivity]
    | discriminate].
Qed.

(** [validateClientCredentials] accepts the pairs whose UTF-8 encodings are
    those of the configured pair. *)
Lemma validateClientCredentials_true (clientId clientSecret : string) (config : Config) :
  hasOAuth config = true ->
  (validateClientCredentials clientId clientSecret config = true
   <-> exists cid csec,
         oauthClientId config = Some cid /\ oauthClientSecret config = Some csec
         /\ Bytes.of_string clientId = Bytes.of_string cid
         /\ Bytes.of_string clientSecret = Bytes.of_string csec).
Proof.
  unfold hasOAuth, validateClientCredentials. intros Hcfg.
  apply andb_true_iff in Hcfg as [Hid Hsec].
  destruct (oauthClientId config) as [cid|]; [|discriminate].
  destruct (oauthClientSecret config) as [csec|]; [|discriminate].
  rewrite Hid, Hsec. simpl.
  rewrite andb_true_iff, !timingSafeEqual_true.
  split.
  - intros [Hi Hs]. exists cid, csec. auto.
  - intros (cid' & csec' & Hc & Hs & Hi & Hs'). injection Hc as <-. injection Hs as <-. auto.
Qed.

(** The content type of a request that has none is the empty string. *)
Lemma contentType_text (req : TokenRequest) :
  Js.str (Js.or_else (contentType req) (Some "")) = Js.str (contentType req).
Proof.
  unfold Js.or_else. destruct (Js.truthy (contentType req)) eqn:Ht; [reflexivity|].
  destruct (contentType req) as [ct|]; [|reflexivity].
  unfold Js.truthy in Ht. apply negb_false_iff, String.eqb_eq in Ht. now subst ct.
Qed.

(** The configured pair is accepted. *)
Lemma validateClientCredentials_same (id secret : string) (config : Config) :
  hasOAuth config = true ->
  oauthClientId config = Some id -> oauthClientSecret config = Some secret ->
  validateClientCredentials id secret config = true.
Proof.
  intros Hcfg Hid Hsec. apply validateClientCredentials_true; [exact Hcfg|].
  exists id, secret. auto.
Qed.

End UntypedCalls.

(** ** The token endpoint *)

Section TokenEndpoint.
Import OAuth Http.
Local Open Scope Z_scope.
Context `{Runtime}.

(** The authorization-code branch of the handler. *)
Lemma token_endpoint_code_grant config req p rnd now now' st :
  hasOAuth config = true ->
  requestParams req = Some p ->
  grant_type p = Some (Json.Str "authorization_code") ->
  Json.truthy (code p) = true -> Json.truthy (code_verifier p) = true ->
  Json.truthy (redirect_uri p) = true -> Json.truthy (client_id p) = true ->
  tokenEndpoint config req rnd now now' st
  = match Untyped.validateAuthorizationCode (Json.the (code p)) (Json.the (client_id p))
            (Json.the (redirect_uri p)) (Json.the (code_verifier p)) now st with
    | (None, st1) => (serverError, st1)
    | (Some validation, st1) =>
        if valid validation
        then (issued rnd, snd (issueToken rnd now' st1))
        else (badRequest "invalid_grant" (Js.str (error validation)), st1)
    end.
Proof.
  intros Hcfg Hp Hg Hc Hv Hu Hi. unfold tokenEndpoint. rewrite Hcfg, Hp. cbn [negb].
  rewrite (proj2 (same_true _ _) Hg), Hc, Hv, Hu, Hi. cbn [negb orb].
  destruct (Untyped.validateAuthorizationCode _ _ _ _ now st) as [[validation|] st1];
    [|reflexivity].
  destruct (valid validation); reflexivity.
Qed.

(** The client-credentials branch of the handler. *)
Lemma token_endpoint_credentials_grant config req p rnd now now' st :
  hasOAuth config = true ->
  requestParams req = Some p ->
  grant_type p = Some (Json.Str "client_credentials") ->
  Json.truthy (client_id p) = true -> Json.truthy (client_secret p) = true ->
  tokenEndpoint config req rnd now now' st
  = if Untyped.validateClientCredentials (Json.the (client_id p))
         (Json.the (client_secret p)) config
    then (issued rnd, snd (issueToken rnd now' st))
    else (mkResponse 401 jsonHeaders
            (oauthError "invalid_client" "Invalid client credentials"), st).
Proof.
  intros Hcfg Hp Hg Hi Hs. unfold tokenEndpoint. rewrite Hcfg, Hp. cbn [negb].
  rewrite (same_false (grant_type p) "authorization_code") by (rewrite Hg; discriminate).
  rewrite (proj2 (same_true _ _) Hg), Hi, Hs. cbn [negb orb].
  destruct (Untyped.validateClientCredentials _ _ config); reflexivity.
Qed.

(** C8, as the claim states it, fails: a server run with an API key and no
    OAuth client answers a token request of grant type
    [authorization_code] that lacks its fields with
    [unsupported_grant_type], not [invalid_request]. *)
Lemma token_endpoint_without_oauth_counterexample :
  let req := mkRequest (Some "application/x-www-form-urlencoded") None
                       "grant_type=authorization_code" in
  validateConfig Sample.configNoOAuth = Ok tt
  /\ @requestParams Sample.runtime req
     = Some (mkParams (Some (Json.Str "authorization_code")) None None None None None)
  /\ @tokenEndpoint Sample.runtime Sample.configNoOAuth req (Sample.rnd 1) 0 0 empty_stores
     = (mkResponse 400 jsonHeaders
          (oauthError "unsupported_grant_type" "OAuth is not configured on this server"),
        empty_stores)
  /\ fst (@tokenEndpoint Sample.runtime Sample.configNoOAuth req (Sample.rnd 1) 0 0
            empty_stores)
     <> mkResponse 400 jsonHeaders
          (oauthError "invalid_request"
                      "Missing code, code_verifier, redirect_uri, or client_id").
Proof.
  intros req. split; [reflexivity|]. split; [vm_compute; reflexivity|].
  split; [vm_compute; reflexivity|].
  vm_compute. discriminate.
Qed.

(** C8, amended.  Without OAuth client credentials in the configuration
    every token request is answered 400 [unsupported_grant_type].  With
    them, a request whose parameters cannot be read (the decoding of the
    form body or the parsing of the JSON body throws, the JSON body is
    [null], or the grant type or the client id has no conversion to a
    string) is answered 500 [server_error].  Otherwise, with [p] the
    parameters read from the request:
    - grant type [authorization_code] gives 400 [invalid_request] when one
      of code, verifier, redirect URI or client id is missing or falsy;
      with the four of them non-empty strings, 200 with a [Bearer] token
      expiring in 3600 when [validateAuthorizationCode] accepts them and
      400 [invalid_grant], with its reason, when it does not; 400
      [invalid_grant] for a code that is not a string; and 500 for a
      verifier that is not a string when the code is in the store, has not
      expired, matches on client id and redirect URI and has the method
      [S256], the code being consumed; whatever the four values are, the
      answer is one of these three, and 500 in that last case only;
    - grant type [client_credentials] gives 400 [invalid_request] when the
      id or the secret is missing or falsy; with both present, 200 with a
      token when [validateClientCredentials] accepts them and 401
      [invalid_client] when it does not; it accepts two strings exactly
      when their UTF-8 encodings are those of the configured id and secret,
      which for strings without unpaired surrogates means that they are the
      configured id and secret;
    - any other grant type, or none, gives 400 [unsupported_grant_type]. *)
Theorem token_endpoint_spec :
  forall (config : Config) (req : TokenRequest) (rnd : list Z) (now now' : Z)
         (st : Stores),
    let r := tokenEndpoint config req rnd now now' st in
    (hasOAuth config = false ->
       r = (badRequest "unsupported_grant_type" "OAuth is not configured on this server", st))
    /\ (hasOAuth config = true -> requestParams req = None -> r = (serverError, st))
    /\ (hasOAuth config = true ->
        let ct := Js.str (contentType req) in
        (Js.includes ct "application/x-www-form-urlencoded" = true ->
         parseFormUrlEncoded (requestBody req) = None ->
         r = (serverError, st))
        /\ (Js.includes ct "application/x-www-form-urlencoded" = false ->
            Js.includes ct "application/json" = true ->
            (jsonParse (requestBody req) = None
             \/ jsonParse (requestBody req) = Some Json.Null
             \/ exists json,
                  jsonParse (requestBody req) = Some json
                  /\ (Json.interpolationThrows (Json.member "grant_type" json) = true
                      \/ Json.interpolationThrows (Json.member "client_id" json) = true)) ->
            r = (serverError, st)))
    /\ (forall p,
          hasOAuth config = true ->
          requestParams req = Some p ->
          (grant_type p = Some (Json.Str "authorization_code") ->
             ((Json.truthy (code p) = false \/ Json.truthy (code_verifier p) = false
               \/ Json.truthy (redirect_uri p) = false \/ Json.truthy (client_id p) = false) ->
              r = (badRequest "invalid_request"
                     "Missing code, code_verifier, redirect_uri, or client_id", st))
             /\ (forall c v u i redeemed,
                   code p = Some (Json.Str c) -> c <> "" ->
                   code_verifier p = Some (Json.Str v) -> v <> "" ->
                   redirect_uri p = Some (Json.Str u) -> u <> "" ->
                   client_id p = Some (Json.Str i) -> i <> "" ->
                   redeemed = validateAuthorizationCode c i u v now st ->
                   (valid (fst redeemed) = true ->
                      r = (issued rnd, snd (issueToken rnd now' (snd redeemed))))
                   /\ (valid (fst redeemed) = false ->
                         r = (badRequest "invalid_grant" (Js.str (error (fst redeemed))),
                              snd redeemed)))
             /\ (forall c,
                   code p = Some c -> (forall s, c <> Json.Str s) ->
                   Json.truthy (code p) = true -> Json.truthy (code_verifier p) = true ->
                   Json.truthy (redirect_uri p) = true -> Json.truthy (client_id p) = true ->
                   r = (badRequest "invalid_grant" "Invalid authorization code", st))
             /\ (forall c v d,
                   code p = Some (Json.Str c) -> c <> "" ->
                   code_verifier p = Some v -> Json.truthyValue v = true ->
                   (forall s, v <> Json.Str s) ->
                   authorizationCodes st !! c = Some d ->
                   now <= Code.expiresAt d ->
                   client_id p = Some (Json.Str (Code.clientId d)) -> Code.clientId d <> "" ->
                   redirect_uri p = Some (Json.Str (Code.redirectUri d)) ->
                   Code.redirectUri d <> "" ->
                   Code.codeChallengeMethod d = "S256" ->
                   r = (serverError,
                        mkStores (activeTokens st) (delete c (authorizationCodes st))))
             /\ (Json.truthy (code p) = true -> Json.truthy (code_verifier p) = true ->
                 Json.truthy (redirect_uri p) = true -> Json.truthy (client_id p) = true ->
                 (fst r = issued rnd
                  \/ (exists reason,
                        In reason refusals /\ fst r = badRequest "invalid_grant" reason)
                  \/ fst r = serverError)
                 /\ (fst r = serverError
                     <-> exists c d,
                           code p = Some (Json.Str c)
                           /\ authorizationCodes st !! c = Some d
                           /\ now <= Code.expiresAt d
                           /\ client_id p = Some (Json.Str (Code.clientId d))
                           /\ redirect_uri p = Some (Json.Str (Code.redirectUri d))
                           /\ Code.codeChallengeMethod d = "S256"
                           /\ forall s, code_verifier p <> Some (Json.Str s))))
          /\ (grant_type p = Some (Json.Str "client_credentials") ->
                ((Json.truthy (client_id p) = false \/ Json.truthy (client_secret p) = false) ->
                 r = (badRequest "invalid_request" "Missing client_id or client_secret", st))
                /\ (Json.truthy (client_id p) = true -> Json.truthy (client_secret p) = true ->
                    (Untyped.validateClientCredentials (Json.the (client_id p))
                       (Json.the (client_secret p)) config = true ->
                     r = (issued rnd, snd (issueToken rnd now' st)))
                    /\ (Untyped.validateClientCredentials (Json.the (client_id p))
                          (Json.the (client_secret p)) config = false ->
                        r = (mkResponse 401 jsonHeaders
                               (oauthError "invalid_client" "Invalid client credentials"),
                             st)))
                /\ (forall i s cid csec,
                      client_id p = Some (Json.Str i) -> client_secret p = Some (Json.Str s) ->
                      oauthClientId config = Some cid -> oauthClientSecret config = Some csec ->
                      (Untyped.validateClientCredentials (Json.Str i) (Json.Str s) config = true
                       <-> Bytes.of_string i = Bytes.of_string cid
                           /\ Bytes.of_string s = Bytes.of_string csec)
                      /\ (Bytes.isWellFormed i = true -> Bytes.isWellFormed s = true ->
                          Bytes.isWellFormed cid = true -> Bytes.isWellFormed csec = true ->
                          (Untyped.validateClientCredentials (Json.Str i) (Json.Str s) config
                           = true
                           <-> i = cid /\ s = csec))))
          /\ (grant_type p <> Some (Json.Str "authorization_code") ->
              grant_type p <> Some (Json.Str "client_credentials") ->
              r = (badRequest "unsupported_grant_type"
                     "Supported grant types: authorization_code, client_credentials", st))).
Proof.
  intros config req rnd now now' st r. subst r.
  assert (Hfail : hasOAuth config = true -> requestParams req = None ->
                  tokenEndpoint config req rnd now now' st = (serverError, st)).
  { intros Hcfg Hp. unfold tokenEndpoint. rewrite Hcfg, Hp. reflexivity. }
  split; [| split; [| split]].
  - intros Hno. unfold tokenEndpoint. rewrite Hno. reflexivity.
  - exact Hfail.
  - intros Hcfg ct. subst ct. split.
    + intros Hform Hbody. apply (Hfail Hcfg). unfold requestParams.
      rewrite contentType_text, Hform, Hbody. reflexivity.
    + intros Hform Hjson Hthrows. apply (Hfail Hcfg). unfold requestParams.
      rewrite contentType_text, Hform, Hjson.
      destruct Hthrows as [Hparse | [Hparse | (json & Hparse & Hlog)]]; rewrite Hparse;
        [reflexivity | reflexivity |].
      destruct json as [| | | | | |]; try reflexivity;
        try (cbn in Hlog; destruct Hlog; discriminate).
      cbn [jsonParams].
      assert (Hkeep : forall (o b : option Json.value),
                Json.interpolationThrows o = true ->
                Json.interpolationThrows (Json.or_else o b) = true).
      { intros o b Ho. unfold Json.or_else.
        assert (Ht : Json.truthy o = true).
        { destruct o as [[| | | | | |]|]; try discriminate; reflexivity. }
        now rewrite Ht. }
      destruct (if Js.truthy (authorization req)
                   && String.prefix "Basic " (Js.str (authorization req))
                then parseBasicAuth (Js.str (authorization req)) else None) as [b|];
        cbn [grant_type client_id];
        (destruct Hlog as [Hlog|Hlog];
         [rewrite Hlog; reflexivity
         | rewrite ?(Hkeep _ _ Hlog), ?Hlog, orb_true_r; reflexivity]).
  - intros p Hcfg Hp. split; [| split].
    + intros Hg. split; [| split; [| split; [| split]]].
      * intros Hmiss. unfold tokenEndpoint. rewrite Hcfg, Hp. cbn [negb].
        rewrite (proj2 (same_true _ _) Hg).
        destruct (negb (Json.truthy (code p)) || negb (Json.truthy (code_verifier p))
                  || negb (Json.truthy (redirect_uri p)) || negb (Json.truthy (client_id p)))
          eqn:Hall; [reflexivity|].
        apply falsy_cases in Hall as (Hc & Hv & Hu & Hi).
        destruct Hmiss as [Hm|[Hm|[Hm|Hm]]]; congruence.
      * intros c v u i redeemed Hc Hcne Hv Hvne Hu Hune Hi Hine ->.
        rewrite (token_endpoint_code_grant config req p rnd now now' st Hcfg Hp Hg);
          try (rewrite ?Hc, ?Hv, ?Hu, ?Hi; now apply truthy_value_Str).
        rewrite Hc, Hv, Hu, Hi. cbn [Json.the]. rewrite untyped_redeem_Str.
        destruct (validateAuthorizationCode c i u v now st) as [validation st1].
        cbn [fst snd]. split; intros Hvalid; rewrite Hvalid; reflexivity.
      * intros c Hc Hnot Htc Htv Htu Hti.
        rewrite (token_endpoint_code_grant config req p rnd now now' st Hcfg Hp Hg
                   Htc Htv Htu Hti).
        rewrite Hc. cbn [Json.the]. rewrite (untyped_redeem_other _ _ _ _ _ _ Hnot).
        reflexivity.
      * intros c v d Hc Hcne Hv Hvt Hvs Hd Hlive Hi Hine Hu Hune Hm.
        rewrite (token_endpoint_code_grant config req p rnd now now' st Hcfg Hp Hg);
          try (rewrite ?Hc, ?Hu, ?Hi; now apply truthy_value_Str);
          [| rewrite Hv; exact Hvt].
        rewrite Hc, Hv, Hu, Hi. cbn [Json.the].
        unfold Untyped.validateAuthorizationCode. rewrite Hd.
        destruct (Z.ltb_spec (Code.expiresAt d) now); [lia|].
        cbn [Json.strictEquals]. rewrite !String.eqb_refl. cbn [negb].
        rewrite (proj2 (untyped_pkce_throws v (Code.codeChallenge d)
                          (Code.codeChallengeMethod d)) (conj Hm Hvs)).
        reflexivity.
      * intros Htc Htv Htu Hti.
        rewrite (token_endpoint_code_grant config req p rnd now now' st Hcfg Hp Hg
                   Htc Htv Htu Hti).
        pose proof (untyped_redeem_throws (Json.the (code p)) (Json.the (client_id p))
                      (Json.the (redirect_uri p)) (Json.the (code_verifier p)) now st)
          as Hthrows.
        pose proof (untyped_redeem_result (Json.the (code p)) (Json.the (client_id p))
                      (Json.the (redirect_uri p)) (Json.the (code_verifier p)) now st)
          as Hresult.
        assert (Hthe : forall (o : option Json.value) (w : Json.value),
                  Json.truthy o = true -> (Json.the o = w <-> o = Some w)).
        { intros [w'|] w Ht; [|discriminate]. cbn [Json.the]. split; congruence. }
        assert (Hcond :
                  (exists c d,
                     Json.the (code p) = Json.Str c /\ authorizationCodes st !! c = Some d
                     /\ now <= Code.expiresAt d
                     /\ Json.the (client_id p) = Json.Str (Code.clientId d)
                     /\ Json.the (redirect_uri p) = Json.Str (Code.redirectUri d)
                     /\ Code.codeChallengeMethod d = "S256"
                     /\ forall s, Json.the (code_verifier p) <> Json.Str s)
                  <-> exists c d,
                        code p = Some (Json.Str c) /\ authorizationCodes st !! c = Some d
                        /\ now <= Code.expiresAt d
                        /\ client_id p = Some (Json.Str (Code.clientId d))
                        /\ redirect_uri p = Some (Json.Str (Code.redirectUri d))
                        /\ Code.codeChallengeMethod d = "S256"
                        /\ forall s, code_verifier p <> Some (Json.Str s)).
        { split; intros (c & d & Hc & Hd & Hlive & Hi & Hu & Hm & Hv); exists c, d.
          - apply (Hthe _ _ Htc) in Hc. apply (Hthe _ _ Hti) in Hi.
            apply (Hthe _ _ Htu) in Hu.
            repeat split; try assumption.
            intros s Hs. apply (Hv s). now apply (Hthe _ _ Htv).
          - repeat split; try assumption; try (now apply (Hthe _ _)).
            intros s Hs. apply (Hv s). now apply (Hthe _ _ Htv). }
        rewrite <- Hcond, <- Hthrows.
        destruct (Untyped.validateAuthorizationCode (Json.the (code p))
                    (Json.the (client_id p)) (Json.the (redirect_uri p))
                    (Json.the (code_verifier p)) now st) as [[validation|] st1];
          cbn [fst] in *.
        -- destruct (Hresult validation eq_refl) as [-> | (reason & Hin & ->)];
             cbn [valid accepted rejected error Js.str fst].
           ++ split; [left; reflexivity|]. split; discriminate.
           ++ split; [right; left; exists reason; auto|]. split; discriminate.
        -- split; [right; right; reflexivity|]. split; reflexivity.
    + intros Hg. split; [| split].
      * intros Hmiss. unfold tokenEndpoint. rewrite Hcfg, Hp. cbn [negb].
        rewrite (same_false (grant_type p) "authorization_code") by (rewrite Hg; discriminate).
        rewrite (proj2 (same_true _ _) Hg).
        destruct (Json.truthy (client_id p)), (Json.truthy (client_secret p)); simpl;
          try reflexivity.
        destruct Hmiss; discriminate.
      * intros Hi Hs.
        rewrite (token_endpoint_credentials_grant config req p rnd now now' st
                   Hcfg Hp Hg Hi Hs).
        split; intros Hv; rewrite Hv; reflexivity.
      * intros i s cid csec Hi Hs Hcid Hcsec.
        rewrite untyped_credentials_Str.
        assert (Henc : validateClientCredentials i s config = true
                       <-> Bytes.of_string i = Bytes.of_string cid
                           /\ Bytes.of_string s = Bytes.of_string csec).
        { rewrite (validateClientCredentials_true i s config Hcfg). split.
          - intros (cid' & csec' & Hc1 & Hc2 & Hb). rewrite Hcid in Hc1. rewrite Hcsec in Hc2.
            injection Hc1 as <-. injection Hc2 as <-. exact Hb.
          - intros Hb. exists cid, csec. auto. }
        split; [exact Henc|].
        intros Hwi Hws Hwc Hwcs. rewrite Henc. split.
        -- intros [Hbi Hbs]. split; now apply of_string_inj.
        -- intros [-> ->]. split; reflexivity.
    + intros Hg1 Hg2. unfold tokenEndpoint. rewrite Hcfg, Hp. cbn [negb].
      rewrite (same_false _ _ Hg1), (same_false _ _ Hg2). reflexivity.
Qed.

End TokenEndpoint.

Section TokenEndpointExample.
Import OAuth Http.
Local Open Scope Z_scope.

(** The configured client asking for a token with its credentials; a
    request with the grant type [password]; a form body with a stray [%];
    and a JSON body whose verifier is a number, for a code that is in the
    store. *)
Lemma token_endpoint_spec_witness :
  let good :=
    mkRequest (Some "application/x-www-form-urlencoded") None
      "grant_type=client_credentials&client_id=homelab&client_secret=s3cret" in
  let other :=
    mkRequest (Some "application/x-www-form-urlencoded") None "grant_type=password" in
  let stray :=
    mkRequest (Some "application/x-www-form-urlencoded") None
      "grant_type=authorization_code&code=%" in
  let numeric :=
    mkRequest (Some "application/json") None (Json.stringify Sample.numericVerifier) in
  fst (@tokenEndpoint Sample.runtime (Sample.config 1) good (Sample.rnd 9) 0 0 empty_stores)
  = issued (Sample.rnd 9)
  /\ fst (@tokenEndpoint Sample.runtime (Sample.config 1) other (Sample.rnd 9) 0 0
            empty_stores)
     = badRequest "unsupported_grant_type"
         "Supported grant types: authorization_code, client_credentials"
  /\ fst (@tokenEndpoint Sample.runtime (Sample.config 1) stray (Sample.rnd 9) 0 0
            empty_stores)
     = serverError
  /\ @tokenEndpoint (Sample.runtimeParsing Sample.numericVerifier) (Sample.config 1) numeric
       (Sample.rnd 9) 5 6 Sample.oneCode
     = (serverError,
        mkStores (activeTokens Sample.oneCode)
                 (delete "c0de" (authorizationCodes Sample.oneCode))).
Proof.
  intros good other stray numeric. split; [| split; [| split]].
  - pose proof (@token_endpoint_spec Sample.runtime (Sample.config 1) good
                  (Sample.rnd 9) 0 0 empty_stores) as (_ & _ & _ & Hspec).
    specialize (Hspec (mkParams (Some (Json.Str "client_credentials"))
                                (Some (Json.Str "homelab")) (Some (Json.Str "s3cret"))
                                None None None)).
    destruct Hspec as (_ & Hcc & _); [reflexivity | vm_compute; reflexivity |].
    destruct (Hcc eq_refl) as (_ & Hcred & _).
    destruct (Hcred eq_refl eq_refl) as (Hok & _).
    rewrite Hok; [reflexivity | vm_compute; reflexivity].
  - pose proof (@token_endpoint_spec Sample.runtime (Sample.config 1) other
                  (Sample.rnd 9) 0 0 empty_stores) as (_ & _ & _ & Hspec).
    specialize (Hspec (mkParams (Some (Json.Str "password")) None None None None None)).
    destruct Hspec as (_ & _ & Hother); [reflexivity | vm_compute; reflexivity |].
    rewrite Hother; [reflexivity | discriminate | discriminate].
  - pose proof (@token_endpoint_spec Sample.runtime (Sample.config 1) stray
                  (Sample.rnd 9) 0 0 empty_stores) as (_ & _ & Hspec & _).
    destruct (Hspec eq_refl) as (Hform & _).
    rewrite Hform; [reflexivity | vm_compute; reflexivity | vm_compute; reflexivity].
  - pose proof (@token_endpoint_spec (Sample.runtimeParsing Sample.numericVerifier)
                  (Sample.config 1) numeric (Sample.rnd 9) 5 6 Sample.oneCode)
      as (_ & _ & _ & Hspec).
    specialize (Hspec (mkParams (Some (Json.Str "authorization_code"))
                                (Some (Json.Str "app")) None (Some (Json.Str "c0de"))
                                (Some (Json.Num 7)) (Some (Json.Str "https://app/cb")))).
    destruct Hspec as (Hcode & _); [reflexivity | vm_compute; reflexivity |].
    destruct (Hcode eq_refl) as (_ & _ & _ & Hthrow & _).
    apply (Hthrow "c0de" (Json.Num 7)
             (Code.mk "bKE9UspwyIPg8LsQHkJaiehiTeUdstI5JZOvaoQRgJA" "S256" "app"
                      "https://app/cb" 600000));
      try reflexivity; discriminate.
Defined.

End TokenEndpointExample.


(** ** The authorization-code flow and the configured client *)

Section Flow.
Import OAuth Http.
Local Open Scope Z_scope.
Context `{Runtime}.

(** The text of [randomBytes(n).toString('hex')] is not empty. *)
Lemma hex_nonempty (rnd : list Z) : rnd <> [] -> Bytes.hex rnd <> "".
Proof. destruct rnd; [congruence | discriminate]. Qed.

Lemma substring_all (s : string) : String.substring 0 (String.length s) s = s.
Proof. induction s as [|c s IH]; simpl; [reflexivity | now f_equal]. Qed.

Lemma substringFrom_prefix (s : string) :
  substringFrom 7 ("Bearer " ++ s) = s.
Proof.
  unfold substringFrom. simpl. rewrite Nat.sub_0_r. apply substring_all.
Qed.

Lemma wellFormedQuery_dec (config : Config) (q : AuthorizeQuery) :
  negb (hasOAuth config) = false ->
  negb (bool_decide (q_response_type q = Some "code")) = false ->
  negb (Js.truthy (q_client_id q)) = false ->
  negb (Js.truthy (q_redirect_uri q)) = false ->
  negb (Js.truthy (q_code_challenge q)) = false ->
  hasOAuth config = true /\ wellFormedQuery q.
Proof.
  rewrite !negb_false_iff. intros Hc Hr Hi Hu Hch.
  apply bool_decide_eq_true_1 in Hr. repeat split; assumption.
Qed.

(** The outcome of [/authorize] on a request that passes its checks. *)
Lemma authorize_accepts (config : Config) (q : AuthorizeQuery) rnd now st :
  hasOAuth config = true -> wellFormedQuery q ->
  authorizeEndpoint config q rnd now st
  = (match urlWithParams (Js.str (q_redirect_uri q))
             (redirectParams (Bytes.hex rnd) (q_state q)) with
     | Some location => Responds (mkResponse 302 [("Location", location)] "")
     | None => Crashes
     end,
     snd (createAuthorizationCode rnd now (Js.str (q_client_id q))
            (Js.str (q_redirect_uri q)) (Js.str (q_code_challenge q))
            (storedMethod (q_code_challenge_method q)) st)).
Proof.
  intros Hcfg (Hr & Hi & Hu & Hch). unfold authorizeEndpoint.
  rewrite Hcfg, Hi, Hu, Hch, bool_decide_eq_true_2 by exact Hr.
  cbn [negb createAuthorizationCode snd].
  destruct (urlWithParams (Js.str (q_redirect_uri q))
              (redirectParams (Bytes.hex rnd) (q_state q))); reflexivity.
Qed.

(** C10, as the claim states it, fails: for a redirect URI that is no URL
    the authorization request stores a code and then throws, outside any
    [try] block; no redirect carrying the code is written. *)
Lemma authorize_non_url_counterexample :
  let q := authorizeQuery "anyone" "nowhere" "challenge" None None in
  let authorized :=
    @authorizeEndpoint Sample.runtime (Sample.config 1) q (Sample.rnd 171) 0 empty_stores in
  hasOAuth (Sample.config 1) = true
  /\ @urlWithParams Sample.runtime "nowhere"
       (redirectParams (Bytes.hex (Sample.rnd 171)) None) = None
  /\ fst authorized = Crashes
  /\ (forall r, fst authorized <> Responds r)
  /\ is_Some (authorizationCodes (snd authorized) !! Bytes.hex (Sample.rnd 171)).
Proof.
  intros q authorized.
  assert (Hout : fst authorized = Crashes) by (vm_compute; reflexivity).
  split; [reflexivity|]. split; [reflexivity|]. split; [exact Hout|].
  split; [intros r Hr; rewrite Hout in Hr; discriminate|].
  eexists. vm_compute. reflexivity.
Qed.

(** C10, amended.  On a server with OAuth configured, the authorization-code
    flow never compares the client id with the configured one.  For every
    non-empty [clientId], an authorization request of response type [code]
    with a redirect URI that is a URL and a code challenge is answered with
    the redirect carrying a code, stored for that [clientId]; a token
    request presenting the same client id and redirect URI, the code, and a
    verifier answering the challenge, within the lifetime of the code, is
    answered 200 with a bearer token, which the bearer check in front of
    [/mcp] then accepts.  The stored client id is compared with the one of
    the redeeming request: a token request that presents the code in time
    with any other client id is answered 400 [invalid_grant], "Client ID
    mismatch", and gets no token.  No premise relates [clientId] to
    [oauthClientId config]. *)
Theorem code_flow_accepts_any_client :
  forall (config : Config) (clientId redirectUri codeChallenge verifier location : string)
         (method state : option string) (secret : option Json.value) (rnd rnd' : list Z)
         (now now1 now2 now3 : Z) (st : Stores) (req : TokenRequest),
    hasOAuth config = true ->
    length rnd = 32%nat ->
    clientId <> "" -> redirectUri <> "" -> codeChallenge <> "" -> verifier <> "" ->
    urlWithParams redirectUri (redirectParams (Bytes.hex rnd) state) = Some location ->
    answers verifier codeChallenge (storedMethod method) ->
    now1 <= now + AUTH_CODE_EXPIRATION * 1000 ->
    now3 <= now2 + TOKEN_EXPIRATION * 1000 ->
    requestParams req
    = Some (mkParams (Some (Json.Str "authorization_code")) (Some (Json.Str clientId)) secret
                     (Some (Json.Str (Bytes.hex rnd))) (Some (Json.Str verifier))
                     (Some (Json.Str redirectUri))) ->
    let authorized :=
      authorizeEndpoint config
        (authorizeQuery clientId redirectUri codeChallenge method state) rnd now st in
    let exchanged := tokenEndpoint config req rnd' now1 now2 (snd authorized) in
    fst authorized = Responds (mkResponse 302 [("Location", location)] "")
    /\ authorizationCodes (snd authorized) !! Bytes.hex rnd
       = Some (Code.mk codeChallenge (storedMethod method) clientId redirectUri
                       (now + AUTH_CODE_EXPIRATION * 1000))
    /\ fst exchanged = issued rnd'
    /\ fst (authenticate config (Some ("Bearer " ++ Bytes.hex rnd')) now3 (snd exchanged))
       = true
    /\ (forall (other presentedVerifier presentedUri : Json.value)
               (secret' : option Json.value) (req' : TokenRequest),
          other <> Json.Str clientId ->
          Json.truthyValue other = true ->
          Json.truthyValue presentedVerifier = true ->
          Json.truthyValue presentedUri = true ->
          requestParams req'
          = Some (mkParams (Some (Json.Str "authorization_code")) (Some other) secret'
                           (Some (Json.Str (Bytes.hex rnd))) (Some presentedVerifier)
                           (Some presentedUri)) ->
          let refused := tokenEndpoint config req' rnd' now1 now2 (snd authorized) in
          fst refused = badRequest "invalid_grant" "Client ID mismatch"
          /\ activeTokens (snd refused) = activeTokens st).
Proof.
  intros config clientId redirectUri codeChallenge verifier location
         method state secret rnd rnd' now now1 now2 now3 st req
         Hcfg Hrnd Hcid Huri Hch Hver Hurl Hans Hnow1 Hnow3 Hreq authorized exchanged.
  assert (Hcode : Bytes.hex rnd <> "").
  { apply hex_nonempty. intros ->. discriminate. }
  set (created := createAuthorizationCode rnd now clientId redirectUri
                    codeChallenge (storedMethod method) st).
  assert (Hauth : authorized
                  = (Responds (mkResponse 302 [("Location", location)] ""), snd created)).
  { subst authorized created.
    rewrite (authorize_accepts config
               (authorizeQuery clientId redirectUri codeChallenge method state) rnd now st
               Hcfg);
      [| repeat split; try reflexivity; now apply truthy_Some].
    cbn [authorizeQuery q_client_id q_redirect_uri q_code_challenge
         q_code_challenge_method q_state Js.str].
    rewrite Hurl. reflexivity. }
  pose proof (create_stores rnd now clientId redirectUri codeChallenge
                (storedMethod method) st) as Hstored.
  fold created in Hstored. change (fst created) with (Bytes.hex rnd) in Hstored.
  pose proof (redeem_created rnd now now1 clientId redirectUri codeChallenge
                (storedMethod method) verifier st Hans Hnow1) as Hredeem.
  fold created in Hredeem.
  change (fst created) with (Bytes.hex rnd) in Hredeem.
  assert (Hex : exchanged
                = (issued rnd',
                   snd (issueToken rnd' now2
                          (snd (validateAuthorizationCode (Bytes.hex rnd) clientId
                                  redirectUri verifier now1 (snd created)))))).
  { subst exchanged. rewrite Hauth. cbn [snd].
    rewrite (token_endpoint_code_grant config req _ rnd' now1 now2 (snd created)
               Hcfg Hreq eq_refl);
      try (cbn [code code_verifier redirect_uri client_id]; now apply truthy_value_Str).
    cbn [code code_verifier redirect_uri client_id Json.the].
    rewrite untyped_redeem_Str, Hredeem. reflexivity. }
  split; [| split; [| split; [| split]]].
  - rewrite Hauth. reflexivity.
  - rewrite Hauth. exact Hstored.
  - rewrite Hex. reflexivity.
  - rewrite Hex. unfold authenticate.
    assert (Hbearer : Js.truthy (Some ("Bearer " ++ Bytes.hex rnd'))
                      && String.prefix "Bearer "
                           (Js.str (Some ("Bearer " ++ Bytes.hex rnd')))
                      = true).
    { simpl. destruct (Bytes.hex rnd'); reflexivity. }
    rewrite Hbearer. cbn [Js.str]. rewrite substringFrom_prefix.
    unfold validateAccessToken.
    destruct (negb (String.eqb (apiKey config) "")
              && String.eqb (Bytes.hex rnd') (apiKey config)); [reflexivity|].
    unfold issueToken. cbn [snd activeTokens].
    rewrite lookup_insert_eq. cbn [Token.expiresAt].
    destruct (Z.ltb_spec (now2 + TOKEN_EXPIRATION * 1000) now3); [lia | reflexivity].
  - intros other presentedVerifier presentedUri secret' req' Hother Hto Htv Htu Hreq' refused.
    subst refused. rewrite Hauth. cbn [snd].
    rewrite (token_endpoint_code_grant config req' _ rnd' now1 now2 (snd created)
               Hcfg Hreq' eq_refl);
      try (cbn [code code_verifier redirect_uri client_id Json.truthy]; assumption);
      [| cbn [code]; now apply truthy_value_Str].
    cbn [code code_verifier redirect_uri client_id Json.the].
    unfold Untyped.validateAuthorizationCode. rewrite Hstored.
    cbn [Code.expiresAt Code.clientId].
    destruct (Z.ltb_spec (now + AUTH_CODE_EXPIRATION * 1000) now1); [lia|].
    assert (Hmis : Json.strictEquals other clientId = false).
    { destruct (Json.strictEquals other clientId) eqn:Hs; [|reflexivity].
      apply strictEquals_true in Hs. contradiction. }
    rewrite Hmis. cbn [negb valid error Js.str fst snd activeTokens].
    split; reflexivity.
Qed.

End Flow.

Section FlowExample.
Import OAuth Http.
Local Open Scope Z_scope.

(** A client that calls itself ["anyone"], on a server whose configured
    client is ["homelab"]. *)
Lemma code_flow_accepts_any_client_witness :
  let req :=
    mkRequest (Some "application/x-www-form-urlencoded") None
      ("grant_type=authorization_code&client_id=anyone&code="
       ++ Bytes.hex (Sample.rnd 171)
       ++ "&code_verifier=abc123&redirect_uri=https://app/cb") in
  let authorized :=
    @authorizeEndpoint Sample.runtime (Sample.config 1)
      (authorizeQuery "anyone" "https://app/cb" (s256 "abc123") (Some "S256") None)
      (Sample.rnd 171) 0 empty_stores in
  oauthClientId (Sample.config 1) = Some "homelab"
  /\ fst authorized
     = Responds (mkResponse 302
                   [("Location", "https://app/cb?code=" ++ Bytes.hex (Sample.rnd 171))] "")
  /\ fst (@tokenEndpoint Sample.runtime (Sample.config 1) req (Sample.rnd 205) 1000 1001
            (snd authorized))
     = issued (Sample.rnd 205).
Proof.
  intros req authorized. split; [reflexivity|].
  assert (Hans : answers "abc123" (s256 "abc123") (storedMethod (Some "S256"))).
  { left. split; reflexivity. }
  assert (Hflow :=
    @code_flow_accepts_any_client Sample.runtime (Sample.config 1)
       "anyone" "https://app/cb" (s256 "abc123") "abc123"
       ("https://app/cb?code=" ++ Bytes.hex (Sample.rnd 171))
       (Some "S256") None None (Sample.rnd 171) (Sample.rnd 205)
       0 1000 1001 1002 empty_stores req eq_refl eq_refl).
  destruct Hflow as (Hredirect & _ & Htoken & _).
  - discriminate.
  - discriminate.
  - vm_compute. discriminate.
  - discriminate.
  - vm_compute. reflexivity.
  - exact Hans.
  - unfold AUTH_CODE_EXPIRATION. lia.
  - unfold TOKEN_EXPIRATION. lia.
  - vm_compute. reflexivity.
  - split; [exact Hredirect | exact Htoken].
Defined.

End FlowExample.


(* ===================================================================== *)
(** * Further properties of the modelled code                              *)
(* ===================================================================== *)

(** ** Credentials of the configured client *)

Section Credentials.
Import OAuth Http.
Local Open Scope Z_scope.
Context `{Runtime}.

(** X1.  The constant-time helper [timingSafeEqual] compares the UTF-8
    encodings of its arguments: it returns [true] exactly when the two
    strings agree once every unpaired surrogate is replaced by U+FFFD.  On
    strings without unpaired surrogates it returns what [===] returns; on
    the others it can accept where [===] refuses: two different unpaired
    surrogates compare equal, and so do an unpaired surrogate and
    U+FFFD. *)
Theorem timingSafeEqual_compares_encodings :
  (forall a b : string,
     timingSafeEqual a b = true <-> Bytes.toWellFormed a = Bytes.toWellFormed b)
  /\ (forall a b : string,
        Bytes.isWellFormed a = true -> Bytes.isWellFormed b = true ->
        timingSafeEqual a b = String.eqb a b)
  /\ (forall a b : string, String.eqb a b = true -> timingSafeEqual a b = true)
  /\ (loneHigh <> loneLow /\ timingSafeEqual loneHigh loneLow = true)
  /\ (loneHigh <> replacement /\ timingSafeEqual loneHigh replacement = true).
Proof.
  split; [| split; [| split; [| split]]].
  - intros a b. rewrite timingSafeEqual_true. apply of_string_eq.
  - intros a b Ha Hb. destruct (String.eqb a b) eqn:Hab.
    + apply String.eqb_eq in Hab. subst b. apply timingSafeEqual_refl.
    + apply String.eqb_neq in Hab.
      destruct (timingSafeEqual a b) eqn:Ht; [|reflexivity].
      apply (timingSafeEqual_wellFormed a b Ha Hb) in Ht. contradiction.
  - intros a b Hab. apply String.eqb_eq in Hab. subst b. apply timingSafeEqual_refl.
  - split; [discriminate | vm_compute; reflexivity].
  - split; [discriminate | vm_compute; reflexivity].
Qed.

Lemma timingSafeEqual_compares_encodings_witness :
  timingSafeEqual "homelab" "homelab" = true
  /\ timingSafeEqual "homelab" "homelat" = false.
Proof.
  split.
  - apply (proj1 (proj2 (proj2 timingSafeEqual_compares_encodings))). reflexivity.
  - rewrite (proj1 (proj2 timingSafeEqual_compares_encodings))
      by (vm_compute; reflexivity).
    reflexivity.
Defined.

(** The typed function on the pairs it accepts. *)
Lemma validateClientCredentials_iff (clientId clientSecret : string) (config : Config) :
  validateClientCredentials clientId clientSecret config = true
  <-> exists cid csec,
        oauthClientId config = Some cid /\ cid <> ""
        /\ oauthClientSecret config = Some csec /\ csec <> ""
        /\ Bytes.of_string clientId = Bytes.of_string cid
        /\ Bytes.of_string clientSecret = Bytes.of_string csec.
Proof.
  unfold validateClientCredentials.
  destruct (oauthClientId config) as [cid|], (oauthClientSecret config) as [csec|].
  - destruct (Js.truthy (Some cid)) eqn:Hid, (Js.truthy (Some csec)) eqn:Hsec; simpl.
    + apply truthy_Some in Hid, Hsec.
      rewrite andb_true_iff, !timingSafeEqual_true. split.
      * intros [Hi Hs]. exists cid, csec. auto 7.
      * intros (cid' & csec' & Hc & _ & Hs & _ & Hb). injection Hc as <-. injection Hs as <-.
        exact Hb.
    + split; [discriminate|]. intros (cid' & csec' & _ & _ & Hs & Hne & _).
      injection Hs as <-. apply truthy_Some in Hne. congruence.
    + split; [discriminate|]. intros (cid' & csec' & Hc & Hne & _).
      injection Hc as <-. apply truthy_Some in Hne. congruence.
    + split; [discriminate|]. intros (cid' & csec' & Hc & Hne & _).
      injection Hc as <-. apply truthy_Some in Hne. congruence.
  - split; [discriminate | intros (cid' & csec' & _ & _ & Hs & _); discriminate].
  - split; [discriminate | intros (cid' & csec' & Hc & _); discriminate].
  - split; [discriminate | intros (cid' & csec' & Hc & _); discriminate].
Qed.

(** X2.  [validateClientCredentials] accepts a pair of strings exactly when
    the client id and the client secret are both configured, both
    non-empty, and have the UTF-8 encodings of the presented ones; when
    neither side holds an unpaired surrogate, exactly when they equal the
    presented ones.  With either one missing from the configuration it
    refuses every pair.  Called with the values of a JSON body, it is the
    same function on strings, and it refuses every pair with a member of
    which [Buffer.from] makes no buffer ([null], a boolean, a number): the
    [TypeError] is caught. *)
Theorem validateClientCredentials_spec :
  forall (clientId clientSecret : string) (config : Config),
    (validateClientCredentials clientId clientSecret config = true
     <-> exists cid csec,
           oauthClientId config = Some cid /\ cid <> ""
           /\ oauthClientSecret config = Some csec /\ csec <> ""
           /\ Bytes.of_string clientId = Bytes.of_string cid
           /\ Bytes.of_string clientSecret = Bytes.of_string csec)
    /\ (forall cid csec,
          oauthClientId config = Some cid -> oauthClientSecret config = Some csec ->
          Bytes.isWellFormed clientId = true -> Bytes.isWellFormed clientSecret = true ->
          Bytes.isWellFormed cid = true -> Bytes.isWellFormed csec = true ->
          (validateClientCredentials clientId clientSecret config = true
           <-> clientId = cid /\ clientId <> "" /\ clientSecret = csec /\ clientSecret <> ""))
    /\ (oauthClientId config = None \/ oauthClientSecret config = None ->
        validateClientCredentials clientId clientSecret config = false)
    /\ Untyped.validateClientCredentials (Json.Str clientId) (Json.Str clientSecret) config
       = validateClientCredentials clientId clientSecret config
    /\ (forall v w : Json.value,
          Untyped.bufferFrom v = None \/ Untyped.bufferFrom w = None ->
          Untyped.validateClientCredentials v w config = false).
Proof.
  intros clientId clientSecret config.
  pose proof (validateClientCredentials_iff clientId clientSecret config) as Hiff.
  split; [exact Hiff|]. split; [| split; [| split]].
  - intros cid csec Hcid Hcsec Hwi Hws Hwc Hwcs. rewrite Hiff. split.
    + intros (cid' & csec' & Hc & Hne & Hs & Hsne & Hbi & Hbs).
      rewrite Hcid in Hc. rewrite Hcsec in Hs. injection Hc as <-. injection Hs as <-.
      apply (of_string_inj _ _ Hwi Hwc) in Hbi. apply (of_string_inj _ _ Hws Hwcs) in Hbs.
      subst. auto.
    + intros (-> & Hne & -> & Hsne). exists cid, csec. auto 7.
  - intros Hnone. destruct (validateClientCredentials clientId clientSecret config) eqn:Hv;
      [|reflexivity].
    destruct (proj1 Hiff eq_refl) as (cid & csec & Hc & _ & Hs & _).
    destruct Hnone as [Hn|Hn]; congruence.
  - apply untyped_credentials_Str.
  - intros v w Hthrow. unfold Untyped.validateClientCredentials, Untyped.timingSafeEqual.
    destruct (oauthClientId config) as [cid|]; [|reflexivity].
    destruct (oauthClientSecret config) as [csec|]; [|reflexivity].
    destruct (negb (Js.truthy (Some cid)) || negb (Js.truthy (Some csec))); [reflexivity|].
    destruct (Untyped.bufferFrom v) as [bv|]; [|reflexivity].
    destruct (Untyped.bufferFrom w) as [bw|].
    + destruct Hthrow; discriminate.
    + destruct (negb (Nat.eqb (length bv) (length (Bytes.of_string cid)))); reflexivity.
Qed.

(** ** Client id alone *)

(** X3.  [validateClientId] accepts a string exactly when a non-empty client
    id is configured and has the UTF-8 encoding of that string; when
    neither holds an unpaired surrogate, exactly when the string is the
    configured id.  Every pair accepted by [validateClientCredentials]
    carries an id that [validateClientId] accepts. *)
Theorem validateClientId_spec :
  forall (clientId : string) (config : Config),
    (validateClientId clientId config = true
     <-> exists cid, oauthClientId config = Some cid /\ cid <> ""
                     /\ Bytes.of_string clientId = Bytes.of_string cid)
    /\ (forall cid,
          oauthClientId config = Some cid ->
          Bytes.isWellFormed clientId = true -> Bytes.isWellFormed cid = true ->
          (validateClientId clientId config = true <-> clientId = cid /\ clientId <> ""))
    /\ (forall clientSecret,
          validateClientCredentials clientId clientSecret config = true ->
          validateClientId clientId config = true).
Proof.
  intros clientId config.
  assert (Hid : validateClientId clientId config = true
                <-> exists cid, oauthClientId config = Some cid /\ cid <> ""
                                /\ Bytes.of_string clientId = Bytes.of_string cid).
  { unfold validateClientId. destruct (oauthClientId config) as [cid|].
    - destruct (Js.truthy (Some cid)) eqn:Hc; simpl.
      + apply truthy_Some in Hc. rewrite timingSafeEqual_true. split.
        * intros Hb. exists cid. auto.
        * intros (cid' & Hi & _ & Hb). now injection Hi as <-.
      + split; [discriminate|]. intros (cid' & Hi & Hne & _). injection Hi as <-.
        apply truthy_Some in Hne. congruence.
    - split; [discriminate | intros (cid' & Hi & _); discriminate]. }
  split; [exact Hid|]. split.
  - intros cid Hcid Hwi Hwc. rewrite Hid. split.
    + intros (cid' & Hc & Hne & Hb). rewrite Hcid in Hc. injection Hc as <-.
      apply (of_string_inj _ _ Hwi Hwc) in Hb. subst. auto.
    + intros [-> Hne]. exists cid. auto.
  - intros clientSecret Hcred. apply Hid.
    apply validateClientCredentials_iff in Hcred as (cid & csec & Hc & Hne & _ & _ & Hb & _).
    exists cid. auto.
Qed.

End Credentials.

Section CredentialsExamples.
Import OAuth Http.

Lemma validateClientCredentials_spec_witness :
  validateClientCredentials "homelab" "s3cret" (Sample.config 1) = true
  /\ validateClientCredentials "homelab" "s3cret" Sample.configNoOAuth = false
  /\ @Untyped.validateClientCredentials Sample.runtime (Json.Num 7) (Json.Str "s3cret")
       (Sample.config 1) = false.
Proof.
  split; [| split].
  - apply (proj1 (@validateClientCredentials_spec Sample.runtime "homelab" "s3cret"
                    (Sample.config 1))).
    exists "homelab", "s3cret". repeat split; discriminate.
  - apply (proj1 (proj2 (proj2 (@validateClientCredentials_spec Sample.runtime
                                  "homelab" "s3cret" Sample.configNoOAuth)))).
    left. reflexivity.
  - apply (proj2 (proj2 (proj2 (proj2 (@validateClientCredentials_spec Sample.runtime
                                         "homelab" "s3cret" (Sample.config 1)))))).
    left. reflexivity.
Defined.

Lemma validateClientId_spec_witness :
  validateClientId "homelab" (Sample.config 1) = true.
Proof.
  apply (proj2 (proj2 (validateClientId_spec "homelab" (Sample.config 1))) "s3cret").
  reflexivity.
Defined.

End CredentialsExamples.


(** ** The text of tokens and codes *)

Section HexText.
Import OAuth.
Local Open Scope Z_scope.

Lemma hex_length (l : list Z) : String.length (Bytes.hex l) = (2 * length l)%nat.
Proof. induction l as [|b l IH]; simpl; [reflexivity | rewrite IH; lia]. Qed.

Lemma nibble_high (b : Z) : 0 <= Z.shiftr (b mod 256) 4 < 16.
Proof.
  rewrite Z.shiftr_div_pow2 by lia.
  pose proof (Z.mod_pos_bound b 256 ltac:(lia)) as Hb.
  change (2 ^ 4) with 16. split.
  - apply Z.div_pos; lia.
  - apply Z.div_lt_upper_bound; lia.
Qed.

Lemma nibble_low (b : Z) : Z.land b 15 = b mod 16.
Proof. change 15 with (Z.ones 4). rewrite Z.land_ones by lia. reflexivity. Qed.

(** The sixteen digits are pairwise distinct hexadecimal characters. *)
Lemma hex_digit_char (i : Z) :
  0 <= i < 16 -> charIn Bytes.hex_digits (Bytes.nth_char Bytes.hex_digits i) = true.
Proof.
  intros Hi. assert (Hn : i = Z.of_nat (Z.to_nat i)) by lia.
  rewrite Hn. assert (Hlt : (Z.to_nat i < 16)%nat) by lia.
  generalize dependent (Z.to_nat i). intros n _ Hlt.
  do 16 (destruct n as [|n]; [reflexivity|]). lia.
Qed.

Lemma hex_digit_inj (i j : Z) :
  0 <= i < 16 -> 0 <= j < 16 ->
  Bytes.nth_char Bytes.hex_digits i = Bytes.nth_char Bytes.hex_digits j -> i = j.
Proof.
  intros Hi Hj.
  assert (Hn : i = Z.of_nat (Z.to_nat i)) by lia.
  assert (Hm : j = Z.of_nat (Z.to_nat j)) by lia.
  rewrite Hn, Hm.
  assert (Hlt : (Z.to_nat i < 16)%nat) by lia.
  assert (Hlt' : (Z.to_nat j < 16)%nat) by lia.
  generalize dependent (Z.to_nat j). generalize dependent (Z.to_nat i).
  intros n _ Hn m _ Hm.
  do 16 (destruct n as [|n]; [do 16 (destruct m as [|m]; [first [reflexivity | discriminate]|]); lia|]).
  lia.
Qed.

Lemma hex_chars (l : list Z) : allChars (charIn Bytes.hex_digits) (Bytes.hex l) = true.
Proof.
  unfold allChars. induction l as [|b l IH]; [reflexivity|].
  cbn [Bytes.hex list_ascii_of_string forallb].
  rewrite hex_digit_char by apply nibble_high.
  rewrite hex_digit_char
    by (rewrite nibble_low; apply Z.mod_pos_bound; lia).
  exact IH.
Qed.

(** Distinct byte sequences have distinct hexadecimal texts. *)
Lemma hex_inj (a b : list Z) :
  bytes a -> bytes b -> Bytes.hex a = Bytes.hex b -> a = b.
Proof.
  intros Ha. revert b. induction Ha as [|x a Hx Ha IH]; intros b Hb Heq.
  - destruct b; [reflexivity | discriminate].
  - destruct Hb as [|y b Hy Hb]; [discriminate|].
    cbn [Bytes.hex] in Heq. injection Heq as Hhi Hlo Htl.
    apply hex_digit_inj in Hhi; try apply nibble_high.
    apply hex_digit_inj in Hlo;
      try (rewrite nibble_low; apply Z.mod_pos_bound; lia).
    rewrite !nibble_low in Hlo.
    rewrite !Z.shiftr_div_pow2 in Hhi by lia. change (2 ^ 4) with 16 in Hhi.
    rewrite !Z.mod_small in Hhi by lia.
    f_equal; [| now apply IH].
    rewrite (Z.div_mod x 16), (Z.div_mod y 16) by lia. congruence.
Qed.

(** X4.  A token and an authorization code are 64 characters long and made
    of the digits [0-9a-f] only, for every outcome of [randomBytes(32)]. *)
Theorem token_and_code_text :
  forall (rnd : list Z) (now : Z) (clientId redirectUri challenge method : string)
         (st : Stores),
    length rnd = 32%nat ->
    let token := access_token (fst (issueToken rnd now st)) in
    let code :=
      fst (createAuthorizationCode rnd now clientId redirectUri challenge method st) in
    String.length token = 64%nat
    /\ allChars (charIn "0123456789abcdef") token = true
    /\ String.length code = 64%nat
    /\ allChars (charIn "0123456789abcdef") code = true.
Proof.
  intros rnd now clientId redirectUri challenge method st Hlen token code.
  subst token code. unfold issueToken, createAuthorizationCode. cbn [fst access_token].
  rewrite hex_length, Hlen.
  repeat split; try reflexivity; apply hex_chars.
Qed.

Lemma token_and_code_text_witness :
  String.length (access_token (fst (issueToken (Sample.rnd 171) 0 empty_stores))) = 64%nat.
Proof.
  apply (token_and_code_text (Sample.rnd 171) 0 "" "" "" "" empty_stores eq_refl).
Defined.

(** X5.  Two different outcomes of [randomBytes] give two different tokens,
    and issuing the second leaves the first in the store with its expiry:
    tokens issued from distinct draws are all valid side by side. *)
Theorem distinct_draws_distinct_tokens :
  forall (rnd1 rnd2 : list Z) (now1 now2 : Z) (st : Stores),
    bytes rnd1 -> bytes rnd2 -> rnd1 <> rnd2 ->
    let first := issueToken rnd1 now1 st in
    let second := issueToken rnd2 now2 (snd first) in
    access_token (fst first) <> access_token (fst second)
    /\ activeTokens (snd second) !! access_token (fst first)
       = Some (Token.mk (now1 + TOKEN_EXPIRATION * 1000))
    /\ activeTokens (snd second) !! access_token (fst second)
       = Some (Token.mk (now2 + TOKEN_EXPIRATION * 1000)).
Proof.
  intros rnd1 rnd2 now1 now2 st H1 H2 Hne first second.
  subst first second. unfold issueToken. cbn [fst snd access_token activeTokens].
  assert (Hhex : Bytes.hex rnd1 <> Bytes.hex rnd2).
  { intros Heq. apply Hne. now apply hex_inj. }
  split; [exact Hhex|]. split.
  - rewrite lookup_insert_ne by congruence. apply lookup_insert_eq.
  - apply lookup_insert_eq.
Qed.

Lemma distinct_draws_distinct_tokens_witness :
  access_token (fst (issueToken (Sample.rnd 1) 0 empty_stores))
  <> access_token (fst (issueToken (Sample.rnd 2) 5
                          (snd (issueToken (Sample.rnd 1) 0 empty_stores)))).
Proof.
  apply (distinct_draws_distinct_tokens (Sample.rnd 1) (Sample.rnd 2) 0 5 empty_stores).
  - unfold bytes, Sample.rnd. apply Forall_forall. intros b Hb.
    apply list_elem_of_In, repeat_spec in Hb. lia.
  - unfold bytes, Sample.rnd. apply Forall_forall. intros b Hb.
    apply list_elem_of_In, repeat_spec in Hb. lia.
  - discriminate.
Defined.

(** X6.  A token is valid from its issuance until 3600 seconds later and not
    after, sweep or no sweep; validating it in between changes neither the
    store nor this window. *)
Theorem token_validity_window :
  forall (rnd : list Z) (now now1 now2 : Z) (config : Config) (st : Stores),
    Bytes.hex rnd <> apiKey config ->
    now1 <= now + TOKEN_EXPIRATION * 1000 ->
    let issuedAt := issueToken rnd now st in
    let token := access_token (fst issuedAt) in
    let used := validateAccessToken token config now1 (snd issuedAt) in
    used = (true, snd issuedAt)
    /\ fst (validateAccessToken token config now2 (snd used))
       = (now2 <=? now + TOKEN_EXPIRATION * 1000).
Proof.
  intros rnd now now1 now2 config st Hkey Hnow1 issuedAt token used.
  assert (Hused : used = (true, snd issuedAt)).
  { subst used token issuedAt. unfold validateAccessToken, issueToken.
    cbn [fst snd access_token activeTokens].
    apply String.eqb_neq in Hkey. rewrite Hkey, andb_false_r.
    rewrite lookup_insert_eq. cbn [Token.expiresAt].
    destruct (Z.ltb_spec (now + TOKEN_EXPIRATION * 1000) now1); [lia | reflexivity]. }
  split; [exact Hused|].
  rewrite Hused. cbn [snd]. subst token issuedAt.
  apply issued_token_window. exact Hkey.
Qed.

Lemma token_validity_window_witness :
  let issuedAt := issueToken (Sample.rnd 7) 0 empty_stores in
  fst (validateAccessToken (access_token (fst issuedAt)) (Sample.config 1) 3600000
         (snd (validateAccessToken (access_token (fst issuedAt)) (Sample.config 1) 10
                 (snd issuedAt))))
  = true.
Proof.
  intros issuedAt.
  assert (Hkey : Bytes.hex (Sample.rnd 7) <> apiKey (Sample.config 1)).
  { vm_compute. discriminate. }
  assert (Hnow : 10 <= 0 + TOKEN_EXPIRATION * 1000).
  { unfold TOKEN_EXPIRATION. lia. }
  subst issuedAt.
  exact (proj2 (token_validity_window (Sample.rnd 7) 0 10 3600000 (Sample.config 1)
                  empty_stores Hkey Hnow)).
Defined.

End HexText.

(** ** The clean-up timer and the lazy expiry checks *)

Section CleanupAlgebra.
Import OAuth.
Local Open Scope Z_scope.

(** The answer of [validateAccessToken], read off the store. *)
Lemma validateAccessToken_answer token config now st :
  fst (validateAccessToken token config now st)
  = (negb (String.eqb (apiKey config) "") && String.eqb token (apiKey config))
    || match activeTokens st !! token with
       | Some d => negb (Token.expiresAt d <? now)
       | None => false
       end.
Proof.
  unfold validateAccessToken.
  destruct (negb (String.eqb (apiKey config) "") && String.eqb token (apiKey config));
    [reflexivity|].
  destruct (activeTokens st !! token) as [d|]; [|reflexivity].
  destruct (Token.expiresAt d <? now); reflexivity.
Qed.

(** X7.  The clean-up timer is not needed for correctness.  After a sweep
    at any earlier time, [validateAccessToken] answers as it would have
    without the sweep, and [validateAuthorizationCode] accepts the same
    requests; the only visible difference is the reason given for a code
    that the sweep removed: invalid instead of expired. *)
Theorem cleanup_is_transparent :
  forall (now' now : Z) (config : Config) (st : Stores),
    now' <= now ->
    (forall token,
       fst (validateAccessToken token config now (cleanup now' st))
       = fst (validateAccessToken token config now st))
    /\ (forall code clientId redirectUri verifier,
          let swept :=
            fst (validateAuthorizationCode code clientId redirectUri verifier now
                   (cleanup now' st)) in
          let plain :=
            fst (validateAuthorizationCode code clientId redirectUri verifier now st) in
          valid swept = valid plain
          /\ (swept = plain
              \/ (plain = rejected "Authorization code expired"
                  /\ swept = rejected "Invalid authorization code"))).
Proof.
  intros now' now config st Hle. split.
  - intros token. rewrite !validateAccessToken_answer. f_equal.
    unfold cleanup. cbn [activeTokens]. rewrite sweep_lookup.
    destruct (activeTokens st !! token) as [d|]; [|reflexivity].
    destruct (Z.ltb_spec (Token.expiresAt d) now'); [|reflexivity].
    destruct (Z.ltb_spec (Token.expiresAt d) now); [reflexivity | lia].
  - intros code clientId redirectUri verifier swept plain. subst swept plain.
    destruct (authorizationCodes st !! code) as [d|] eqn:Hd.
    + rewrite (redeem_present _ _ _ _ _ _ _ Hd).
      destruct (Z.ltb_spec (Code.expiresAt d) now') as [Hold|Hlive].
      * assert (Hgone : authorizationCodes (cleanup now' st) !! code = None).
        { unfold cleanup. cbn [authorizationCodes]. rewrite sweep_lookup, Hd.
          apply Z.ltb_lt in Hold. now rewrite Hold. }
        rewrite (redeem_absent _ _ _ _ _ _ Hgone). cbn [fst].
        destruct (Z.ltb_spec (Code.expiresAt d) now); [|lia].
        split; [reflexivity | right; split; reflexivity].
      * assert (Hkept : authorizationCodes (cleanup now' st) !! code = Some d).
        { unfold cleanup. cbn [authorizationCodes]. rewrite sweep_lookup, Hd.
          apply Z.ltb_ge in Hlive. now rewrite Hlive. }
        rewrite (redeem_present _ _ _ _ _ _ _ Hkept).
        split; [reflexivity | left; reflexivity].
    + assert (Hgone : authorizationCodes (cleanup now' st) !! code = None).
      { unfold cleanup. cbn [authorizationCodes]. rewrite sweep_lookup, Hd. reflexivity. }
      rewrite (redeem_absent _ _ _ _ _ _ Hgone), (redeem_absent _ _ _ _ _ _ Hd).
      split; [reflexivity | left; reflexivity].
Qed.

(** A code created at 0 and presented at 700000 ms, with and without a
    sweep at 650000 ms. *)
Lemma cleanup_is_transparent_witness :
  let created :=
    createAuthorizationCode (Sample.rnd 1) 0 "app" "https://app/cb" "abc" "plain"
                            empty_stores in
  valid (fst (validateAuthorizationCode (fst created) "app" "https://app/cb" "abc" 700000
                (cleanup 650000 (snd created))))
  = valid (fst (validateAuthorizationCode (fst created) "app" "https://app/cb" "abc" 700000
                  (snd created))).
Proof.
  intros created.
  assert (Hle : 650000 <= 700000) by lia.
  exact (proj1 (proj2 (cleanup_is_transparent 650000 700000 (Sample.config 1)
                         (snd created) Hle)
                  (fst created) "app" "https://app/cb" "abc")).
Defined.

Lemma stores_eq (a b : Stores) :
  activeTokens a = activeTokens b ->
  authorizationCodes a = authorizationCodes b -> a = b.
Proof. destruct a, b. simpl. intros -> ->. reflexivity. Qed.

(** X8.  Two sweeps in a row amount to one sweep at the later of the two
    times; in particular a sweep repeated at the same time changes
    nothing. *)
Theorem cleanup_compose :
  forall (t1 t2 : Z) (st : Stores),
    cleanup t2 (cleanup t1 st) = cleanup (Z.max t1 t2) st
    /\ cleanup t1 (cleanup t1 st) = cleanup t1 st.
Proof.
  assert (Hmax : forall t1 t2 st, cleanup t2 (cleanup t1 st) = cleanup (Z.max t1 t2) st).
  { intros t1 t2 st. apply stores_eq; unfold cleanup;
      cbn [activeTokens authorizationCodes]; apply map_eq; intros k;
      rewrite !sweep_lookup.
    - destruct (activeTokens st !! k) as [d|]; [|reflexivity].
      destruct (Z.ltb_spec (Token.expiresAt d) t1);
        destruct (Z.ltb_spec (Token.expiresAt d) (Z.max t1 t2));
        try destruct (Z.ltb_spec (Token.expiresAt d) t2); try reflexivity; lia.
    - destruct (authorizationCodes st !! k) as [d|]; [|reflexivity].
      destruct (Z.ltb_spec (Code.expiresAt d) t1);
        destruct (Z.ltb_spec (Code.expiresAt d) (Z.max t1 t2));
        try destruct (Z.ltb_spec (Code.expiresAt d) t2); try reflexivity; lia. }
  intros t1 t2 st. split; [apply Hmax|].
  rewrite Hmax, Z.max_id. reflexivity.
Qed.

(** X9.  A sweep only removes: both stores after it are sub-maps of the
    stores before, so neither grows; and when nothing in the stores has
    expired the sweep leaves them exactly as they were. *)
Theorem cleanup_only_removes :
  forall (now : Z) (st : Stores),
    activeTokens (cleanup now st) ⊆ activeTokens st
    /\ authorizationCodes (cleanup now st) ⊆ authorizationCodes st
    /\ (size (activeTokens (cleanup now st)) <= size (activeTokens st))%nat
    /\ (size (authorizationCodes (cleanup now st)) <= size (authorizationCodes st))%nat
    /\ ((forall token d, activeTokens st !! token = Some d -> now <= Token.expiresAt d) ->
        (forall code d, authorizationCodes st !! code = Some d -> now <= Code.expiresAt d) ->
        cleanup now st = st).
Proof.
  intros now st.
  assert (HT : activeTokens (cleanup now st) ⊆ activeTokens st).
  { apply map_subseteq_spec. intros k d Hk. unfold cleanup in Hk.
    cbn [activeTokens] in Hk. now apply sweep_lookup_Some in Hk as [Hk _]. }
  assert (HC : authorizationCodes (cleanup now st) ⊆ authorizationCodes st).
  { apply map_subseteq_spec. intros k d Hk. unfold cleanup in Hk.
    cbn [authorizationCodes] in Hk. now apply sweep_lookup_Some in Hk as [Hk _]. }
  split; [exact HT|]. split; [exact HC|].
  split; [now apply map_subseteq_size|]. split; [now apply map_subseteq_size|].
  intros Htok Hcode. apply stores_eq; unfold cleanup;
    cbn [activeTokens authorizationCodes]; apply map_eq; intros k;
    rewrite sweep_lookup.
  - destruct (activeTokens st !! k) as [d|] eqn:Hk; [|reflexivity].
    specialize (Htok k d Hk).
    destruct (Z.ltb_spec (Token.expiresAt d) now); [lia | reflexivity].
  - destruct (authorizationCodes st !! k) as [d|] eqn:Hk; [|reflexivity].
    specialize (Hcode k d Hk).
    destruct (Z.ltb_spec (Code.expiresAt d) now); [lia | reflexivity].
Qed.

Lemma cleanup_only_removes_witness :
  let st := snd (issueToken (Sample.rnd 7) 0 empty_stores) in
  cleanup 1000 st = st.
Proof.
  intros st.
  apply (proj2 (proj2 (proj2 (proj2 (cleanup_only_removes 1000 st))))).
  - intros token d Hd. subst st. unfold issueToken, empty_stores in Hd.
    cbn [snd activeTokens] in Hd.
    apply lookup_insert_Some in Hd as [[_ <-] | [_ Hd]]; [| now rewrite lookup_empty in Hd].
    cbn [Token.expiresAt]. unfold TOKEN_EXPIRATION. lia.
  - intros code d Hd. subst st. unfold issueToken, empty_stores in Hd.
    cbn [snd authorizationCodes] in Hd. now rewrite lookup_empty in Hd.
Defined.

End CleanupAlgebra.

(** ** What the endpoints do to the stores *)

Section EndpointEffects.
Import OAuth Http.
Local Open Scope Z_scope.
Context `{Runtime}.

Lemma issueToken_effect rnd now st :
  issueToken rnd now st
  = (mkTokenResponse (Bytes.hex rnd) "Bearer" 3600,
     mkStores (<[Bytes.hex rnd := Token.mk (now + TOKEN_EXPIRATION * 1000)]> (activeTokens st))
              (authorizationCodes st)).
Proof. reflexivity. Qed.

(** X10.  The token endpoint issues a token only with status 200, and then
    exactly one, for the draw of that request; every other answer leaves the
    token store as it was.  No answer adds an authorization code. *)
Theorem token_endpoint_store_effects :
  forall (config : Config) (req : TokenRequest) (rnd : list Z) (now now' : Z)
         (st : Stores),
    let r := tokenEndpoint config req rnd now now' st in
    (status (fst r) = 200 ->
       fst r = issued rnd
       /\ activeTokens (snd r)
          = <[Bytes.hex rnd := Token.mk (now' + TOKEN_EXPIRATION * 1000)]> (activeTokens st))
    /\ (status (fst r) <> 200 -> activeTokens (snd r) = activeTokens st)
    /\ authorizationCodes (snd r) ⊆ authorizationCodes st.
Proof.
  intros config req rnd now now' st r. subst r. unfold tokenEndpoint.
  destruct (hasOAuth config); cbn [negb];
    [| cbn; repeat split; try reflexivity; try discriminate; intros; reflexivity].
  destruct (requestParams req) as [p|];
    [| cbn; repeat split; try reflexivity; try discriminate; intros; reflexivity].
  destruct (Json.same (grant_type p) "authorization_code").
  - destruct (negb (Json.truthy (code p)) || negb (Json.truthy (code_verifier p))
              || negb (Json.truthy (redirect_uri p)) || negb (Json.truthy (client_id p)));
      [cbn; repeat split; try reflexivity; try discriminate; intros; reflexivity|].
    pose proof (untyped_redeem_stores (Json.the (code p)) (Json.the (client_id p))
                  (Json.the (redirect_uri p)) (Json.the (code_verifier p)) now st)
      as (Htokens & Hcodes & _).
    destruct (Untyped.validateAuthorizationCode (Json.the (code p)) (Json.the (client_id p))
                (Json.the (redirect_uri p)) (Json.the (code_verifier p)) now st)
      as [[validation|] st1]; cbn [snd] in Hcodes, Htokens.
    + destruct (valid validation); cbn [negb].
      * rewrite issueToken_effect. cbn [fst snd status activeTokens authorizationCodes].
        rewrite Htokens.
        split; [intros _; split; reflexivity|].
        split; [intros Hne; exfalso; now apply Hne | exact Hcodes].
      * cbn [fst snd status]. rewrite Htokens.
        split; [discriminate|]. split; [reflexivity | exact Hcodes].
    + cbn [fst snd status serverError]. rewrite Htokens.
      split; [discriminate|]. split; [reflexivity | exact Hcodes].
  - destruct (Json.same (grant_type p) "client_credentials");
      [| cbn; repeat split; try reflexivity; try discriminate; intros; reflexivity].
    destruct (negb (Json.truthy (client_id p)) || negb (Json.truthy (client_secret p)));
      [cbn; repeat split; try reflexivity; try discriminate; intros; reflexivity|].
    destruct (Untyped.validateClientCredentials (Json.the (client_id p))
                (Json.the (client_secret p)) config); cbn [negb];
      [| cbn; repeat split; try reflexivity; try discriminate; intros; reflexivity].
    rewrite issueToken_effect. cbn [fst snd status activeTokens authorizationCodes].
    split; [intros _; split; reflexivity|].
    split; [intros Hne; exfalso; now apply Hne | reflexivity].
Qed.

(** After a token request that presents the code [c], the code is gone. *)
Lemma token_endpoint_consumes config req p c rnd now now' st :
  hasOAuth config = true ->
  requestParams req = Some p ->
  presentsCode p c ->
  authorizationCodes (snd (tokenEndpoint config req rnd now now' st)) !! c = None.
Proof.
  intros Hcfg Hreq (Hg & Hc & Hcne & Hv & Hu & Hi).
  rewrite (token_endpoint_code_grant config req p rnd now now' st Hcfg Hreq Hg);
    try assumption; [| rewrite Hc; now apply truthy_value_Str].
  rewrite Hc. cbn [Json.the].
  pose proof (untyped_redeem_stores (Json.Str c) (Json.the (client_id p))
                (Json.the (redirect_uri p)) (Json.the (code_verifier p)) now st)
    as (_ & _ & Hcodes).
  specialize (Hcodes c eq_refl).
  destruct (Untyped.validateAuthorizationCode (Json.Str c) (Json.the (client_id p))
              (Json.the (redirect_uri p)) (Json.the (code_verifier p)) now st)
    as [[validation|] st1]; cbn [snd] in Hcodes.
  - destruct (valid validation); cbn [snd];
      [rewrite issueToken_effect; cbn [snd authorizationCodes]|];
      rewrite Hcodes; apply lookup_delete_eq.
  - cbn [snd]. rewrite Hcodes. apply lookup_delete_eq.
Qed.

(** X11.  A code gets one attempt at the token endpoint: after any request
    that presents it, successful or not (a wrong verifier, another client,
    another redirect URI, a verifier on which the digest throws), every
    further request presenting it is answered 400 [invalid_grant], "Invalid
    authorization code". *)
Theorem code_gets_one_attempt :
  forall (config : Config) (req1 req2 : TokenRequest) (p1 p2 : TokenParams)
         (c : string) (rnd1 rnd2 : list Z) (t1 t1' t2 t2' : Z) (st : Stores),
    hasOAuth config = true ->
    requestParams req1 = Some p1 -> presentsCode p1 c ->
    requestParams req2 = Some p2 -> presentsCode p2 c ->
    let after := snd (tokenEndpoint config req1 rnd1 t1 t1' st) in
    tokenEndpoint config req2 rnd2 t2 t2' after
    = (badRequest "invalid_grant" "Invalid authorization code", after).
Proof.
  intros config req1 req2 p1 p2 c rnd1 rnd2 t1 t1' t2 t2' st
         Hcfg Hreq1 Hp1 Hreq2 Hp2 after.
  pose proof (token_endpoint_consumes config req1 p1 c rnd1 t1 t1' st Hcfg Hreq1 Hp1)
    as Hgone.
  fold after in Hgone.
  destruct Hp2 as (Hg & Hc & Hcne & Hv & Hu & Hi).
  rewrite (token_endpoint_code_grant config req2 p2 rnd2 t2 t2' after Hcfg Hreq2 Hg);
    try assumption; [| rewrite Hc; now apply truthy_value_Str].
  rewrite Hc. cbn [Json.the]. rewrite (untyped_redeem_absent _ _ _ _ _ _ Hgone).
  reflexivity.
Qed.

(** X12.  [/authorize] stores a code exactly when OAuth is configured and
    the request has response type [code], a client id, a redirect URI and a
    code challenge; the code then carries these values, the requested
    method (or [plain]) and an expiry 600 seconds ahead.  Every other
    request is answered 400 and leaves the stores untouched; no request
    changes the token store. *)
Theorem authorize_stores_code_iff :
  forall (config : Config) (q : AuthorizeQuery) (rnd : list Z) (now : Z) (st : Stores),
    let r := authorizeEndpoint config q rnd now st in
    activeTokens (snd r) = activeTokens st
    /\ (hasOAuth config = true /\ wellFormedQuery q ->
        authorizationCodes (snd r)
        = <[Bytes.hex rnd :=
              Code.mk (Js.str (q_code_challenge q))
                      (storedMethod (q_code_challenge_method q))
                      (Js.str (q_client_id q)) (Js.str (q_redirect_uri q))
                      (now + AUTH_CODE_EXPIRATION * 1000)]> (authorizationCodes st)
        /\ (fst r = Crashes
            \/ exists location,
                 fst r = Responds (mkResponse 302 [("Location", location)] "")))
    /\ (~ (hasOAuth config = true /\ wellFormedQuery q) ->
        snd r = st
        /\ exists body, fst r = Responds (mkResponse 400 jsonHeaders body)).
Proof.
  intros config q rnd now st r. subst r. unfold authorizeEndpoint.
  destruct (negb (hasOAuth config)) eqn:Hc.
  { cbn [fst snd]. split; [reflexivity|]. split.
    - intros [Hcfg _]. rewrite Hcfg in Hc. discriminate.
    - intros _. split; [reflexivity | eexists; reflexivity]. }
  destruct (negb (bool_decide (q_response_type q = Some "code"))) eqn:Hr.
  { cbn [fst snd]. split; [reflexivity|]. split.
    - intros [_ (Hrt & _)]. rewrite bool_decide_eq_true_2 in Hr by exact Hrt. discriminate.
    - intros _. split; [reflexivity | eexists; reflexivity]. }
  destruct (negb (Js.truthy (q_client_id q))) eqn:Hi.
  { cbn [fst snd]. split; [reflexivity|]. split.
    - intros [_ (_ & Hid & _)]. rewrite Hid in Hi. discriminate.
    - intros _. split; [reflexivity | eexists; reflexivity]. }
  destruct (negb (Js.truthy (q_redirect_uri q))) eqn:Hu.
  { cbn [fst snd]. split; [reflexivity|]. split.
    - intros [_ (_ & _ & Hur & _)]. rewrite Hur in Hu. discriminate.
    - intros _. split; [reflexivity | eexists; reflexivity]. }
  destruct (negb (Js.truthy (q_code_challenge q))) eqn:Hch.
  { cbn [fst snd]. split; [reflexivity|]. split.
    - intros [_ (_ & _ & _ & Hcc)]. rewrite Hcc in Hch. discriminate.
    - intros _. split; [reflexivity | eexists; reflexivity]. }
  pose proof (wellFormedQuery_dec config q Hc Hr Hi Hu Hch) as [Hcfg Hwf].
  pose proof (authorize_accepts config q rnd now st Hcfg Hwf) as Hacc.
  unfold authorizeEndpoint in Hacc. rewrite Hc, Hr, Hi, Hu, Hch in Hacc.
  rewrite Hacc. unfold createAuthorizationCode.
  cbn [fst snd activeTokens authorizationCodes].
  split; [reflexivity|]. split.
  - intros _. split; [reflexivity|].
    destruct (urlWithParams (Js.str (q_redirect_uri q))
                (redirectParams (Bytes.hex rnd) (q_state q))) as [location|];
      [right; eexists; reflexivity | left; reflexivity].
  - intros Hno. exfalso. apply Hno. split; assumption.
Qed.

(** X13.  [/authorize] does not check the challenge method.  A request
    naming a method other than [S256] and [plain] is accepted and its code
    stored, but no redemption of that code succeeds, whatever verifier,
    client id and redirect URI are presented and whenever. *)
Theorem unknown_method_code_is_dead :
  forall (config : Config) (q : AuthorizeQuery) (m : string) (rnd : list Z) (now : Z)
         (st : Stores),
    hasOAuth config = true -> wellFormedQuery q ->
    q_code_challenge_method q = Some m ->
    m <> "" -> m <> "S256" -> m <> "plain" ->
    let authorized := authorizeEndpoint config q rnd now st in
    (exists d, authorizationCodes (snd authorized) !! Bytes.hex rnd = Some d
               /\ Code.codeChallengeMethod d = m)
    /\ (forall clientId redirectUri verifier t,
          valid (fst (validateAuthorizationCode (Bytes.hex rnd) clientId redirectUri
                        verifier t (snd authorized)))
          = false).
Proof.
  intros config q m rnd now st Hcfg Hwf Hm Hne HS HP authorized.
  assert (Hmethod : storedMethod (q_code_challenge_method q) = m).
  { rewrite Hm. unfold storedMethod, Js.or_else.
    now rewrite (proj2 (truthy_Some m) Hne). }
  assert (Hd : authorizationCodes (snd authorized) !! Bytes.hex rnd
               = Some (Code.mk (Js.str (q_code_challenge q)) m (Js.str (q_client_id q))
                               (Js.str (q_redirect_uri q))
                               (now + AUTH_CODE_EXPIRATION * 1000))).
  { subst authorized. rewrite (authorize_accepts config q rnd now st Hcfg Hwf).
    cbn [snd]. rewrite Hmethod. apply create_stores. }
  split; [eexists; split; [exact Hd | reflexivity]|].
  intros clientId redirectUri verifier t.
  rewrite (redeem_present _ _ _ _ _ _ _ Hd). cbn [Code.expiresAt Code.clientId
    Code.redirectUri Code.codeChallenge Code.codeChallengeMethod].
  assert (Hpkce : validatePKCE verifier (Js.str (q_code_challenge q)) m = false).
  { unfold validatePKCE. apply String.eqb_neq in HS, HP. now rewrite HS, HP. }
  rewrite Hpkce. cbn [negb].
  repeat match goal with |- context [if ?b then _ else _] => destruct b end; reflexivity.
Qed.

End EndpointEffects.

Section EndpointEffectsExamples.
Import OAuth Http.
Local Open Scope Z_scope.

Lemma token_endpoint_store_effects_witness :
  let good :=
    mkRequest (Some "application/x-www-form-urlencoded") None
      "grant_type=client_credentials&client_id=homelab&client_secret=s3cret" in
  activeTokens (snd (@tokenEndpoint Sample.runtime (Sample.config 1) good (Sample.rnd 9)
                       0 5 empty_stores))
  = <[Bytes.hex (Sample.rnd 9) := Token.mk (5 + TOKEN_EXPIRATION * 1000)]> ∅.
Proof.
  intros good.
  apply (proj1 (@token_endpoint_store_effects Sample.runtime (Sample.config 1) good
                  (Sample.rnd 9) 0 5 empty_stores)).
  vm_compute. reflexivity.
Defined.

(** A first attempt with the wrong verifier, then one with the right
    verifier. *)
Lemma code_gets_one_attempt_witness :
  let authorized :=
    snd (@authorizeEndpoint Sample.runtime (Sample.config 1)
           (authorizeQuery "app" "https://app/cb" (s256 "abc123") (Some "S256") None)
           (Sample.rnd 171) 0 empty_stores) in
  let code := Bytes.hex (Sample.rnd 171) in
  let wrong := codeRequest "app" code "guess" in
  let right := codeRequest "app" code "abc123" in
  fst (@tokenEndpoint Sample.runtime (Sample.config 1) right (Sample.rnd 2) 20 21
         (snd (@tokenEndpoint Sample.runtime (Sample.config 1) wrong (Sample.rnd 1) 10 11
                 authorized)))
  = badRequest "invalid_grant" "Invalid authorization code".
Proof.
  intros authorized code wrong right.
  assert (Hp : forall v, v <> "" ->
            presentsCode (mkParams (Some (Json.Str "authorization_code"))
                                   (Some (Json.Str "app")) None
                                   (Some (Json.Str code)) (Some (Json.Str v))
                                   (Some (Json.Str "https://app/cb"))) code).
  { intros v Hv. repeat split; try reflexivity.
    - subst code. vm_compute. discriminate.
    - now apply truthy_value_Str. }
  rewrite (@code_gets_one_attempt Sample.runtime (Sample.config 1) wrong right
             _ _ code (Sample.rnd 1) (Sample.rnd 2) 10 11 20 21 authorized eq_refl
             ltac:(vm_compute; reflexivity) (Hp "guess" ltac:(discriminate))
             ltac:(vm_compute; reflexivity) (Hp "abc123" ltac:(discriminate))).
  reflexivity.
Defined.

Lemma authorize_stores_code_iff_witness :
  authorizationCodes
    (snd (@authorizeEndpoint Sample.runtime (Sample.config 1)
            (authorizeQuery "app" "https://app/cb" "abc" None None)
            (Sample.rnd 171) 0 empty_stores))
  = <[Bytes.hex (Sample.rnd 171) :=
        Code.mk "abc" "plain" "app" "https://app/cb" (0 + AUTH_CODE_EXPIRATION * 1000)]> ∅.
Proof.
  apply (proj1 (proj2 (@authorize_stores_code_iff Sample.runtime (Sample.config 1)
                         (authorizeQuery "app" "https://app/cb" "abc" None None)
                         (Sample.rnd 171) 0 empty_stores))).
  repeat split; reflexivity.
Defined.

(** A request naming the method [S512]. *)
Lemma unknown_method_code_is_dead_witness :
  let q := authorizeQuery "app" "https://app/cb" "abc" (Some "S512") None in
  let authorized :=
    @authorizeEndpoint Sample.runtime (Sample.config 1) q (Sample.rnd 171) 0 empty_stores in
  valid (fst (validateAuthorizationCode (Bytes.hex (Sample.rnd 171)) "app" "https://app/cb"
                "abc" 1 (snd authorized)))
  = false.
Proof.
  intros q authorized.
  apply (@unknown_method_code_is_dead Sample.runtime (Sample.config 1) q "S512"
           (Sample.rnd 171) 0 empty_stores).
  - reflexivity.
  - repeat split; reflexivity.
  - reflexivity.
  - discriminate.
  - discriminate.
  - discriminate.
Defined.

End EndpointEffectsExamples.

(** ** Parsing of the token request *)

Section FormParsing.
Import OAuth Http.
Context `{Runtime}.

Lemma parseFormUrlEncoded_fold (body : string) :
  parseFormUrlEncoded body = fold_left formStep (split "&" body) (Some ∅).
Proof. reflexivity. Qed.

Lemma split_nonempty (sep : ascii) (s : string) : split sep s <> [].
Proof.
  induction s as [|c s IH]; simpl; [discriminate|].
  destruct (Ascii.eqb c sep); [discriminate|].
  destruct (split sep s); [contradiction | discriminate].
Qed.

(** [split] distributes over a separator. *)
Lemma split_app (sep : ascii) (a b : string) :
  split sep (a ++ String sep b) = (split sep a ++ split sep b)%list.
Proof.
  induction a as [|c a IH]; simpl.
  - rewrite Ascii.eqb_refl. reflexivity.
  - destruct (Ascii.eqb c sep); [now rewrite IH|].
    rewrite IH. pose proof (split_nonempty sep a) as Hne.
    destruct (split sep a); [contradiction | reflexivity].
Qed.

Lemma lacks_cons (c d : ascii) (s : string) :
  lacks c (String d s) <-> d <> c /\ lacks c s.
Proof.
  unfold lacks. simpl. destruct (Ascii.eqb_spec d c) as [->|Hne].
  - split; [discriminate | intros [Hc _]; contradiction].
  - destruct (indexOf c s); simpl; split; try discriminate; auto.
    intros [_ Hs]. discriminate.
Qed.

Lemma split_lacks (sep : ascii) (s : string) : lacks sep s -> split sep s = [s].
Proof.
  induction s as [|c s IH]; intros Hs; simpl; [reflexivity|].
  apply lacks_cons in Hs as [Hne Hs]. apply Ascii.eqb_neq in Hne.
  rewrite Hne, (IH Hs). reflexivity.
Qed.

Lemma fold_formStep_None (l : list string) : fold_left formStep l None = None.
Proof. induction l; simpl; auto. Qed.

(** A pair [k=v] written without separators. *)
Lemma split_pair (k v : string) :
  lacks "=" k -> lacks "=" v -> split "=" (k ++ String "=" v) = [k; v].
Proof.
  intros Hk Hv. rewrite split_app, (split_lacks _ _ Hk), (split_lacks _ _ Hv).
  reflexivity.
Qed.

Lemma lacks_plusToSpace (s : string) : lacks "%" s -> lacks "%" (plusToSpace s).
Proof.
  induction s as [|c s IH]; intros Hs; [exact Hs|].
  apply lacks_cons in Hs as [Hne Hs]. simpl. apply lacks_cons. split; [|auto].
  destruct (Ascii.eqb_spec c "+"); [discriminate | exact Hne].
Qed.

Lemma lacks_app (c : ascii) (a b : string) :
  lacks c (a ++ b) <-> lacks c a /\ lacks c b.
Proof.
  induction a as [|d a IH].
  - split; [intros Hb; split; [reflexivity | exact Hb] | intros [_ Hb]; exact Hb].
  - change (String d a ++ b) with (String d (a ++ b)).
    rewrite !lacks_cons, IH. tauto.
Qed.

Lemma formStep_plain (k v : string) (m : gmap string string) :
  (forall s, lacks "%" s -> decodeURIComponent s = Some s) ->
  k <> "" -> plainField k -> plainField v ->
  formStep (Some m) (k ++ String "=" v) = Some (assign k (plusToSpace v) m).
Proof.
  intros Hdec Hne (_ & Hk & Hkp) (_ & Hv & Hvp).
  unfold formStep. rewrite (split_pair k v Hk Hv).
  apply String.eqb_neq in Hne. rewrite Hne.
  rewrite (Hdec k Hkp), (Hdec _ (lacks_plusToSpace v Hvp)). reflexivity.
Qed.

Lemma pair_lacks_amp (k v : string) :
  plainField k -> plainField v -> lacks "&" (k ++ String "=" v).
Proof.
  intros (Hk & _) (Hv & _). apply lacks_app. split; [exact Hk|].
  apply lacks_cons. split; [discriminate | exact Hv].
Qed.

Lemma assign_other (k v : string) (m : gmap string string) :
  k <> "__proto__" -> assign k v m = <[k := v]> m.
Proof. intros Hk. unfold assign. apply String.eqb_neq in Hk. now rewrite Hk. Qed.

(** X14.  Form bodies written without escapes are read back field by
    field: for fields whose keys are non-empty and whose keys and values
    contain none of [&], [=], [%], the body [k1=v1&...&kn=vn] parses to the
    object that holds, under each key, its value with every [+] turned into
    a space, a later field replacing an earlier one of the same key.  A
    field under the key [__proto__] leaves no property: the assignment goes
    to the inherited setter.  (The premise on the platform is that
    [decodeURIComponent] returns a string without [%] unchanged.) *)
Theorem form_body_round_trip :
  forall fields : list (string * string),
    (forall s, lacks "%" s -> decodeURIComponent s = Some s) ->
    Forall (fun kv => fst kv <> "" /\ plainField (fst kv) /\ plainField (snd kv)) fields ->
    parseFormUrlEncoded (formBody fields)
    = Some (fold_left (fun m kv => assign (fst kv) (plusToSpace (snd kv)) m) fields ∅)
    /\ (Forall (fun kv => fst kv <> "__proto__") fields ->
        parseFormUrlEncoded (formBody fields)
        = Some (fold_left (fun m kv => <[fst kv := plusToSpace (snd kv)]> m) fields ∅))
    /\ (forall (v : string) (m : gmap string string), assign "__proto__" v m = m).
Proof.
  intros fields Hdec Hfields.
  assert (Hparse : parseFormUrlEncoded (formBody fields)
                   = Some (fold_left (fun m kv => assign (fst kv) (plusToSpace (snd kv)) m)
                             fields ∅)).
  { rewrite parseFormUrlEncoded_fold. unfold formBody.
    destruct Hfields as [|[k v] fields (Hne & Hk & Hv) Hfields]; [reflexivity|].
    generalize (∅ : gmap string string) as m. cbn [fst snd] in *.
    revert k v Hne Hk Hv.
    induction Hfields as [|[k' v'] fields (Hne' & Hk' & Hv') Hfields IH];
      intros k v Hne Hk Hv m.
    - cbn [map Json.join fold_left fst snd].
      change (k ++ "=" ++ v) with (k ++ String "=" v).
      rewrite (split_lacks _ _ (pair_lacks_amp k v Hk Hv)).
      cbn [fold_left]. now apply formStep_plain.
    - cbn [fst snd] in *. cbn [map Json.join fst snd].
      cbn [map fst snd] in IH.
      match goal with
      | |- context [split "&" (?a ++ "&" ++ ?b)] =>
          change (a ++ "&" ++ b) with ((k ++ String "=" v) ++ String "&" b)
      end.
      rewrite split_app, fold_left_app, (split_lacks _ _ (pair_lacks_amp k v Hk Hv)).
      cbn [fold_left]. rewrite (formStep_plain k v m Hdec Hne Hk Hv).
      apply IH; assumption. }
  split; [exact Hparse|]. split; [| reflexivity].
  intros Hproto. rewrite Hparse. f_equal.
  generalize (∅ : gmap string string) as m.
  clear Hparse Hfields. induction Hproto as [|[k v] fields Hk Hproto IH]; intros m.
  - reflexivity.
  - cbn [fold_left fst snd] in *. rewrite (assign_other k _ m Hk). apply IH.
Qed.

(** X15.  [parseFormUrlEncoded] reads the body pair by pair, left to right.
    The parse of [a&b] continues the parse of [a] with the pairs of [b]; it
    throws as soon as [a] does.  A pair without [=] and a pair with an empty
    key are skipped, and of a pair [k=v=rest] only [k=v] is read: the text
    after a second [=] is dropped.  A pair under the key [__proto__] is
    decoded and then leaves the parameters as they are.  The empty body
    gives no parameter. *)
Theorem form_parsing_is_sequential :
  forall a b : string,
    parseFormUrlEncoded (a ++ "&" ++ b)
    = fold_left formStep (split "&" b) (parseFormUrlEncoded a)
    /\ (parseFormUrlEncoded a = None -> parseFormUrlEncoded (a ++ "&" ++ b) = None)
    /\ (lacks "&" b -> lacks "=" b ->
        parseFormUrlEncoded (a ++ "&" ++ b) = parseFormUrlEncoded a)
    /\ (lacks "&" b ->
        parseFormUrlEncoded (a ++ "&=" ++ b) = parseFormUrlEncoded a)
    /\ (forall k v rest,
          lacks "&" k -> lacks "&" v -> lacks "&" rest ->
          lacks "=" k -> lacks "=" v -> b = k ++ "=" ++ v ++ "=" ++ rest ->
          parseFormUrlEncoded (a ++ "&" ++ b)
          = parseFormUrlEncoded (a ++ "&" ++ k ++ "=" ++ v))
    /\ (forall v : string,
          lacks "&" b -> lacks "=" b ->
          decodeURIComponent "__proto__" = Some "__proto__" ->
          decodeURIComponent (plusToSpace b) = Some v ->
          parseFormUrlEncoded (a ++ "&__proto__=" ++ b) = parseFormUrlEncoded a)
    /\ parseFormUrlEncoded "" = Some ∅.
Proof.
  intros a b.
  assert (Hseq : forall b',
            parseFormUrlEncoded (a ++ "&" ++ b')
            = fold_left formStep (split "&" b') (parseFormUrlEncoded a)).
  { intros b'. rewrite !parseFormUrlEncoded_fold.
    change (a ++ "&" ++ b') with (a ++ String "&" b').
    now rewrite split_app, fold_left_app. }
  split; [apply Hseq|]. split; [| split; [| split; [| split; [| split]]]].
  - intros Hnone. rewrite Hseq, Hnone. apply fold_formStep_None.
  - intros Hamp Heq. rewrite Hseq, (split_lacks _ _ Hamp). cbn [fold_left].
    unfold formStep. destruct (parseFormUrlEncoded a); [|reflexivity].
    now rewrite (split_lacks _ _ Heq).
  - intros Hamp. change (a ++ "&=" ++ b) with (a ++ "&" ++ String "=" b).
    rewrite Hseq.
    assert (Hpair : lacks "&" (String "=" b)).
    { apply lacks_cons. split; [discriminate | exact Hamp]. }
    rewrite (split_lacks _ _ Hpair). cbn [fold_left].
    unfold formStep. destruct (parseFormUrlEncoded a); [|reflexivity].
    change (String "=" b) with ("" ++ String "=" b). rewrite split_app.
    cbn [split app]. pose proof (split_nonempty "=" b) as Hne.
    destruct (split "=" b); [contradiction | reflexivity].
  - intros k v rest Hk Hv Hrest Hke Hve ->. rewrite !Hseq.
    assert (Hkv : lacks "&" (k ++ "=" ++ v)).
    { apply lacks_app. split; [exact Hk|].
      apply lacks_cons. split; [discriminate | exact Hv]. }
    assert (Hlong : lacks "&" (k ++ "=" ++ v ++ "=" ++ rest)).
    { apply lacks_app. split; [exact Hk|].
      apply lacks_cons. split; [discriminate|].
      apply lacks_app. split; [exact Hv|].
      apply lacks_cons. split; [discriminate | exact Hrest]. }
    rewrite (split_lacks _ _ Hkv), (split_lacks _ _ Hlong). cbn [fold_left].
    unfold formStep. destruct (parseFormUrlEncoded a); [|reflexivity].
    change (k ++ "=" ++ v ++ "=" ++ rest) with (k ++ String "=" (v ++ String "=" rest)).
    change (k ++ "=" ++ v) with (k ++ String "=" v).
    rewrite (split_pair k v Hke Hve), !split_app.
    rewrite (split_lacks _ _ Hke), (split_lacks _ _ Hve). reflexivity.
  - intros v Hamp Heq Hkey Hval.
    change (a ++ "&__proto__=" ++ b) with (a ++ "&" ++ "__proto__" ++ String "=" b).
    rewrite Hseq.
    assert (Hpair : lacks "&" ("__proto__" ++ String "=" b)).
    { apply lacks_app. split; [reflexivity|].
      apply lacks_cons. split; [discriminate | exact Hamp]. }
    rewrite (split_lacks _ _ Hpair). cbn [fold_left].
    unfold formStep. destruct (parseFormUrlEncoded a); [|reflexivity].
    rewrite (split_pair "__proto__" b eq_refl Heq).
    cbn [String.eqb Ascii.eqb Bool.eqb]. rewrite Hkey, Hval. reflexivity.
  - reflexivity.
Qed.

Lemma prefix_Basic (h : string) :
  String.prefix "Basic " h = true <-> exists payload, h = "Basic " ++ payload.
Proof.
  split.
  - intros Hp.
    do 6 (destruct h as [|? h]; [discriminate|]; cbn [String.prefix] in Hp;
          match type of Hp with
          | context [ascii_dec ?x ?y] => destruct (ascii_dec x y) as [<-|]; [|discriminate]
          end).
    exists h. reflexivity.
  - intros [payload ->]. simpl. destruct payload; reflexivity.
Qed.

(** The place of the first [c] in [s] splits [s] around it. *)
Lemma indexOf_Some (c : ascii) (s : string) (n : nat) :
  indexOf c s = Some n ->
  s = String.substring 0 n s ++ String c (substringFrom (n + 1) s)
  /\ lacks c (String.substring 0 n s).
Proof.
  revert n. induction s as [|d s IH]; intros n Hn; [discriminate|].
  simpl in Hn. destruct (Ascii.eqb_spec d c) as [->|Hne].
  - injection Hn as <-. unfold substringFrom. simpl.
    rewrite ?Nat.sub_0_r, substring_all. split; reflexivity.
  - destruct (indexOf c s) as [m|] eqn:Hm; [|discriminate].
    injection Hn as <-. destruct (IH m eq_refl) as [Hs Hl].
    unfold substringFrom in *. cbn [String.substring String.length Nat.add Nat.sub].
    split.
    + transitivity
        (String d (String.substring 0 m s
                   ++ String c (String.substring (m + 1) (String.length s - (m + 1)) s)));
        [f_equal; exact Hs | reflexivity].
    + apply lacks_cons. split; assumption.
Qed.

Lemma indexOf_first (c : ascii) (a b : string) :
  lacks c a -> indexOf c (a ++ String c b) = Some (String.length a).
Proof.
  induction a as [|d a IH]; intros Ha.
  - simpl. now rewrite Ascii.eqb_refl.
  - apply lacks_cons in Ha as [Hne Ha]. simpl.
    apply Ascii.eqb_neq in Hne. rewrite Hne, (IH Ha). reflexivity.
Qed.

Lemma substring_left (a b : string) :
  String.substring 0 (String.length a) (a ++ b) = a.
Proof.
  induction a as [|d a IH]; [destruct b; reflexivity|].
  simpl. f_equal. exact IH.
Qed.

Lemma substringFrom_right (a b : string) (c : ascii) :
  substringFrom (String.length a + 1) (a ++ String c b) = b.
Proof.
  unfold substringFrom. induction a as [|d a IH].
  - simpl. rewrite ?Nat.sub_0_r. apply substring_all.
  - simpl. simpl in IH. exact IH.
Qed.

Lemma parseBasicAuth_inv (authHeader id secret : string) :
  parseBasicAuth authHeader = Some (id, secret) ->
  exists payload,
    authHeader = "Basic " ++ payload
    /\ base64Decode payload = id ++ ":" ++ secret
    /\ lacks ":" id /\ id <> "" /\ secret <> "".
Proof.
  unfold parseBasicAuth.
  destruct (String.prefix "Basic " authHeader) eqn:Hp; [|discriminate].
  cbn [negb]. apply prefix_Basic in Hp as [payload ->].
  assert (Hsub : substringFrom 6 ("Basic " ++ payload) = payload).
  { unfold substringFrom. simpl. rewrite ?Nat.sub_0_r. apply substring_all. }
  rewrite Hsub.
  destruct (indexOf ":" (base64Decode payload)) as [n|] eqn:Hn; [|discriminate].
  destruct (indexOf_Some _ _ _ Hn) as [Hsplit Hl].
  destruct (String.eqb_spec (String.substring 0 n (base64Decode payload)) "") as [|Hi];
    [discriminate|].
  destruct (String.eqb_spec (substringFrom (n + 1) (base64Decode payload)) "") as [|Hs];
    [discriminate|].
  cbn [orb]. intros Heq. injection Heq as <- <-.
  exists payload. repeat split; auto.
Qed.

Lemma parseBasicAuth_intro (payload id secret : string) :
  base64Decode payload = id ++ ":" ++ secret ->
  lacks ":" id -> id <> "" -> secret <> "" ->
  parseBasicAuth ("Basic " ++ payload) = Some (id, secret).
Proof.
  intros Hdec Hl Hi Hs. unfold parseBasicAuth.
  assert (Hp : String.prefix "Basic " ("Basic " ++ payload) = true).
  { apply prefix_Basic. eexists; reflexivity. }
  rewrite Hp. cbn [negb].
  assert (Hsub : substringFrom 6 ("Basic " ++ payload) = payload).
  { unfold substringFrom. simpl. rewrite ?Nat.sub_0_r. apply substring_all. }
  rewrite Hsub, Hdec. change (id ++ ":" ++ secret) with (id ++ String ":" secret).
  rewrite (indexOf_first _ _ _ Hl), substring_left, substringFrom_right.
  apply String.eqb_neq in Hi, Hs. now rewrite Hi, Hs.
Qed.

(** X16.  [parseBasicAuth] returns a pair exactly for a header [Basic
    <payload>] whose decoded payload is [id:secret] with both parts
    non-empty; the split is at the first colon, so the id has none and the
    secret may have some.  Every other header gives [null]. *)
Theorem parseBasicAuth_spec :
  forall (authHeader id secret : string),
    parseBasicAuth authHeader = Some (id, secret)
    <-> exists payload,
          authHeader = "Basic " ++ payload
          /\ base64Decode payload = id ++ ":" ++ secret
          /\ lacks ":" id /\ id <> "" /\ secret <> "".
Proof.
  intros authHeader id secret. split.
  - apply parseBasicAuth_inv.
  - intros (payload & -> & Hdec & Hl & Hi & Hs). now apply parseBasicAuth_intro.
Qed.

Lemma interpolation_Str (o : option string) :
  Json.interpolationThrows (option_map Json.Str o) = false.
Proof. destruct o; reflexivity. Qed.

Lemma interpolation_or_else (o : option string) (s : string) :
  Json.interpolationThrows (Json.or_else (option_map Json.Str o) (Some (Json.Str s)))
  = false.
Proof.
  unfold Json.or_else. destruct (Json.truthy (option_map Json.Str o));
    [apply interpolation_Str | reflexivity].
Qed.

(** The parameters of a form request that carries a Basic header. *)
Lemma requestParams_basic (ct body authHeader id secret : string)
    (m : gmap string string) :
  Js.includes ct "application/x-www-form-urlencoded" = true ->
  parseFormUrlEncoded body = Some m ->
  parseBasicAuth authHeader = Some (id, secret) ->
  requestParams (mkRequest (Some ct) (Some authHeader) body)
  = Some (mkParams (option_map Json.Str (m !! "grant_type"))
                   (Json.or_else (option_map Json.Str (m !! "client_id"))
                                 (Some (Json.Str id)))
                   (Json.or_else (option_map Json.Str (m !! "client_secret"))
                                 (Some (Json.Str secret)))
                   (option_map Json.Str (m !! "code"))
                   (option_map Json.Str (m !! "code_verifier"))
                   (option_map Json.Str (m !! "redirect_uri"))).
Proof.
  intros Hct Hbody Hbasic. unfold requestParams.
  cbn [contentType requestBody authorization].
  assert (Hstr : Js.str (Js.or_else (Some ct) (Some "")) = ct).
  { unfold Js.or_else. destruct (Js.truthy (Some ct)) eqn:Ht; [reflexivity|].
    unfold Js.truthy in Ht. apply negb_false_iff, String.eqb_eq in Ht. now subst ct. }
  rewrite Hstr, Hct, Hbody. cbn [option_map].
  destruct (parseBasicAuth_inv _ _ _ Hbasic) as (payload & Hh & _).
  assert (Hguard : Js.truthy (Some authHeader)
                   && String.prefix "Basic " (Js.str (Some authHeader)) = true).
  { cbn [Js.str]. apply andb_true_iff. split.
    - subst authHeader. reflexivity.
    - apply prefix_Basic. eexists; exact Hh. }
  rewrite Hguard. cbn [Js.str]. rewrite Hbasic.
  unfold formParams. cbn [grant_type client_id client_secret code code_verifier
                          redirect_uri fst snd].
  rewrite interpolation_Str, interpolation_or_else. reflexivity.
Qed.

(** X17.  The Basic header is a fallback.  On a form request with a Basic
    header that parses, the client id and the client secret are those of
    the body where the body has them, and those of the header otherwise;
    the other parameters come from the body alone.  Hence a
    [client_credentials] request carrying the configured pair only in the
    header is answered with a token, and one whose body names another
    client id is refused even though its header holds the configured pair
    (the two ids being free of unpaired surrogates, as the text of a
    decoded body and of the environment is). *)
Theorem basic_header_is_a_fallback :
  forall (config : Config) (ct body authHeader id secret : string)
         (m : gmap string string) (rnd : list Z) (now now' : Z) (st : Stores),
    hasOAuth config = true ->
    Js.includes ct "application/x-www-form-urlencoded" = true ->
    parseFormUrlEncoded body = Some m ->
    parseBasicAuth authHeader = Some (id, secret) ->
    m !! "grant_type" = Some "client_credentials" ->
    oauthClientId config = Some id ->
    oauthClientSecret config = Some secret ->
    let req := mkRequest (Some ct) (Some authHeader) body in
    (m !! "client_id" = None -> m !! "client_secret" = None ->
     fst (tokenEndpoint config req rnd now now' st) = issued rnd)
    /\ (forall bodyId,
          m !! "client_id" = Some bodyId -> bodyId <> "" -> bodyId <> id ->
          Bytes.isWellFormed bodyId = true -> Bytes.isWellFormed id = true ->
          tokenEndpoint config req rnd now now' st
          = (mkResponse 401 jsonHeaders
               (oauthError "invalid_client" "Invalid client credentials"), st)).
Proof.
  intros config ct body authHeader id secret m rnd now now' st
         Hcfg Hct Hbody Hbasic Hgrant Hid Hsecret req.
  pose proof (requestParams_basic ct body authHeader id secret m Hct Hbody Hbasic) as Hreq.
  fold req in Hreq. rewrite Hgrant in Hreq. cbn [option_map] in Hreq.
  destruct (parseBasicAuth_inv _ _ _ Hbasic) as (_ & _ & _ & _ & Hine & Hsne).
  apply truthy_value_Str in Hine, Hsne.
  split.
  - intros Hnoid Hnosecret. rewrite Hnoid, Hnosecret in Hreq. cbn [option_map] in Hreq.
    change (Json.or_else None (Some (Json.Str id))) with (Some (Json.Str id)) in Hreq.
    change (Json.or_else None (Some (Json.Str secret))) with (Some (Json.Str secret)) in Hreq.
    rewrite (token_endpoint_credentials_grant config req _ rnd now now' st Hcfg Hreq
               eq_refl Hine Hsne).
    cbn [client_id client_secret Json.the].
    rewrite untyped_credentials_Str,
            (validateClientCredentials_same id secret config Hcfg Hid Hsecret).
    reflexivity.
  - intros bodyId Hbody' Hbne Hother Hwb Hwi. rewrite Hbody' in Hreq. cbn [option_map] in Hreq.
    apply truthy_value_Str in Hbne.
    assert (Hwin : Json.or_else (Some (Json.Str bodyId)) (Some (Json.Str id))
                   = Some (Json.Str bodyId)).
    { unfold Json.or_else. now rewrite Hbne. }
    rewrite Hwin in Hreq.
    assert (Hsec : exists s, Json.or_else (option_map Json.Str (m !! "client_secret"))
                               (Some (Json.Str secret)) = Some (Json.Str s)
                             /\ s <> "").
    { unfold Json.or_else.
      destruct (Json.truthy (option_map Json.Str (m !! "client_secret"))) eqn:Ht.
      - destruct (m !! "client_secret") as [s|]; [|discriminate].
        exists s. split; [reflexivity | now apply truthy_value_Str].
      - exists secret. split; [reflexivity | now apply truthy_value_Str]. }
    destruct Hsec as (s & Hs & Hsne'). rewrite Hs in Hreq.
    rewrite (token_endpoint_credentials_grant config req _ rnd now now' st Hcfg Hreq
               eq_refl Hbne (proj2 (truthy_value_Str s) Hsne')).
    cbn [client_id client_secret Json.the]. rewrite untyped_credentials_Str.
    assert (Hbad : validateClientCredentials bodyId s config = false).
    { destruct (validateClientCredentials bodyId s config) eqn:Hv; [|reflexivity].
      apply (validateClientCredentials_true _ _ config Hcfg) in Hv
        as (cid & csec & Hc & _ & Hb & _).
      rewrite Hid in Hc. injection Hc as <-.
      apply (of_string_inj _ _ Hwb Hwi) in Hb. contradiction. }
    rewrite Hbad. reflexivity.
Qed.

End FormParsing.

Section FormParsingExamples.
Import OAuth Http.

(** The sample platform returns text without [%] unchanged. *)
Lemma sample_decoder_plain (s : string) :
  lacks "%" s -> @decodeURIComponent Sample.runtime s = Some s.
Proof.
  intros Hs. cbn [decodeURIComponent Sample.runtime Sample.runtimeWith].
  assert (Hinc : Js.includes s "%" = false).
  { induction s as [|d s IH]; [reflexivity|].
    apply lacks_cons in Hs as [Hne Hs]. cbn [Js.includes String.prefix].
    destruct (ascii_dec "%" d) as [Heq|_]; [congruence|].
    cbn [orb]. now apply IH. }
  now rewrite Hinc.
Qed.

(** A body with a repeated key and a [+]. *)
Lemma form_body_round_trip_witness :
  @parseFormUrlEncoded Sample.runtime "grant_type=password&scope=a+b&scope=c"
  = Some (<["scope" := "c"]> (<["scope" := "a b"]> (<["grant_type" := "password"]> ∅))).
Proof.
  apply (proj1 (proj2 (@form_body_round_trip Sample.runtime
                         [("grant_type", "password"); ("scope", "a+b"); ("scope", "c")]
                         sample_decoder_plain
                         ltac:(repeat constructor; discriminate)))).
  repeat constructor; discriminate.
Defined.

(** A trailing pair without [=]. *)
Lemma form_parsing_is_sequential_witness :
  @parseFormUrlEncoded Sample.runtime "grant_type=password&junk"
  = @parseFormUrlEncoded Sample.runtime "grant_type=password".
Proof.
  apply (proj1 (proj2 (proj2 (@form_parsing_is_sequential Sample.runtime
                                "grant_type=password" "junk")))); reflexivity.
Defined.

(** A secret that contains a colon. *)
Lemma parseBasicAuth_spec_witness :
  @parseBasicAuth Sample.runtime "Basic homelab:s3:cret" = Some ("homelab", "s3:cret").
Proof.
  apply (proj2 (@parseBasicAuth_spec Sample.runtime "Basic homelab:s3:cret"
                  "homelab" "s3:cret")).
  exists "homelab:s3:cret". repeat split; try reflexivity; discriminate.
Defined.

(** The configured pair presented in the header only. *)
Lemma basic_header_is_a_fallback_witness :
  fst (@tokenEndpoint Sample.runtime (Sample.config 1)
         (mkRequest (Some "application/x-www-form-urlencoded")
                    (Some "Basic homelab:s3cret") "grant_type=client_credentials")
         (Sample.rnd 9) 0 0 empty_stores)
  = issued (Sample.rnd 9).
Proof.
  apply (proj1 (@basic_header_is_a_fallback Sample.runtime (Sample.config 1)
                  "application/x-www-form-urlencoded" "grant_type=client_credentials"
                  "Basic homelab:s3cret" "homelab" "s3cret"
                  (<["grant_type" := "client_credentials"]> ∅)
                  (Sample.rnd 9) 0 0 empty_stores
                  eq_refl eq_refl eq_refl eq_refl eq_refl eq_refl eq_refl));
    reflexivity.
Defined.

End FormParsingExamples.

(** ** The gate in front of [/mcp] *)

Section McpGate.
Import OAuth Http Server.
Local Open Scope Z_scope.

Lemma prefix_iff (p h : string) :
  String.prefix p h = true <-> exists rest, h = p ++ rest.
Proof.
  revert h. induction p as [|a p IH]; intros h.
  - split; [intros _; exists h; reflexivity | intros _; destruct h; reflexivity].
  - destruct h as [|b h].
    + split; [discriminate | intros [rest Hr]; discriminate].
    + cbn [String.prefix]. destruct (ascii_dec a b) as [<-|Hne].
      * rewrite IH. split; intros [rest Hr]; exists rest.
        -- rewrite Hr. reflexivity.
        -- change (String a p ++ rest) with (String a (p ++ rest)) in Hr.
           now injection Hr.
      * split; [discriminate|]. intros [rest Hr].
        change (String a p ++ rest) with (String a (p ++ rest)) in Hr.
        injection Hr as Hab _. symmetry in Hab. contradiction.
Qed.

Lemma append_cancel (p a b : string) : p ++ a = p ++ b -> a = b.
Proof.
  induction p as [|c p IH]; intros Heq; [exact Heq|].
  change (String c (p ++ a) = String c (p ++ b)) in Heq. injection Heq as Heq. auto.
Qed.

(** The bearer test of the gate accepts exactly the headers [Bearer
    <token>] whose token is the static key or a live token. *)
Lemma authenticate_true config authHeader now st :
  fst (authenticate config authHeader now st) = true
  <-> exists token,
        authHeader = Some ("Bearer " ++ token)
        /\ ((apiKey config <> "" /\ token = apiKey config)
            \/ exists d, activeTokens st !! token = Some d /\ now <= Token.expiresAt d).
Proof.
  assert (Hvalid : forall token,
            fst (validateAccessToken token config now st) = true
            <-> (apiKey config <> "" /\ token = apiKey config)
                \/ exists d, activeTokens st !! token = Some d /\ now <= Token.expiresAt d).
  { intros token. rewrite validateAccessToken_answer, orb_true_iff, static_key_test.
    apply or_iff_compat_l.
    destruct (activeTokens st !! token) as [d|].
    - rewrite negb_true_iff, Z.ltb_ge. split.
      + intros Hd. exists d. auto.
      + intros (d' & Hd' & Hlive). now injection Hd' as <-.
    - split; [discriminate | intros (d' & Hd' & _); discriminate]. }
  unfold authenticate.
  destruct authHeader as [h|]; cbn [Js.str].
  - destruct (Js.truthy (Some h) && String.prefix "Bearer " h) eqn:Hguard.
    + apply andb_true_iff in Hguard as [_ Hp]. apply prefix_iff in Hp as [token ->].
      rewrite substringFrom_prefix, Hvalid. split.
      * intros Hv. exists token. auto.
      * intros (token' & Heq & Hv). injection Heq as Heq.
        apply append_cancel in Heq. now subst.
    + cbn [fst]. split; [discriminate|]. intros (token & Heq & _). injection Heq as ->.
      assert (Hg : Js.truthy (Some ("Bearer " ++ token))
                   && String.prefix "Bearer " ("Bearer " ++ token) = true).
      { apply andb_true_iff. split; [reflexivity|]. apply prefix_iff. eexists; reflexivity. }
      rewrite Hg in Hguard. discriminate.
  - cbn. split; [discriminate | intros (token & Heq & _); discriminate].
Qed.

(** X18.  A request to [/mcp] gets past the gate exactly when its
    [Authorization] header is [Bearer <token>], with this spelling, and the
    token is the configured static key or a token of the store that has not
    expired.  Every other request is answered 401 with a [WWW-Authenticate]
    header naming the resource metadata of the requested host, and reaches
    neither the server information nor the protocol transport.  The gate
    never creates a token or a code. *)
Theorem mcp_gate :
  forall (config : Config) (method : string) (host authHeader : option string)
         (now : Z) (st : Stores),
    let r := mcpEndpoint config method host authHeader now st in
    let passes :=
      exists token,
        authHeader = Some ("Bearer " ++ token)
        /\ ((apiKey config <> "" /\ token = apiKey config)
            \/ exists d, activeTokens st !! token = Some d /\ now <= Token.expiresAt d) in
    (passes -> fst r = if String.eqb method "GET" then Answered serverInfo else Handed)
    /\ (~ passes -> fst r = Refused (sendUnauthorized host))
    /\ status (sendUnauthorized host) = 401
    /\ In ("WWW-Authenticate",
           "Bearer resource_metadata=" ++ String Json.dquote
             (getBaseUrl host ++ "/.well-known/oauth-protected-resource")
           ++ String Json.dquote "")
          (headers (sendUnauthorized host))
    /\ activeTokens (snd r) ⊆ activeTokens st
    /\ authorizationCodes (snd r) = authorizationCodes st.
Proof.
  intros config method host authHeader now st r passes.
  pose proof (authenticate_true config authHeader now st) as Hauth. fold passes in Hauth.
  assert (Hstore : activeTokens (snd (authenticate config authHeader now st)) ⊆ activeTokens st
                   /\ authorizationCodes (snd (authenticate config authHeader now st))
                      = authorizationCodes st).
  { unfold authenticate.
    destruct (Js.truthy authHeader && String.prefix "Bearer " (Js.str authHeader));
      [| split; reflexivity].
    unfold validateAccessToken.
    destruct (negb (String.eqb (apiKey config) "") && String.eqb _ (apiKey config));
      [split; reflexivity|].
    destruct (activeTokens st !! _) as [d|]; [| split; reflexivity].
    destruct (Token.expiresAt d <? now); [| split; reflexivity].
    cbn [snd activeTokens authorizationCodes]. split; [apply delete_subseteq | reflexivity]. }
  subst r. unfold mcpEndpoint.
  destruct (authenticate config authHeader now st) as [ok st'] eqn:Ha.
  cbn [fst snd] in *.
  split; [| split; [| split; [| split; [| split]]]].
  - intros Hp. apply Hauth in Hp. subst ok. cbn [negb].
    destruct (String.eqb method "GET"); reflexivity.
  - intros Hno. destruct ok; [exfalso; apply Hno, Hauth; reflexivity | reflexivity].
  - reflexivity.
  - right. left. reflexivity.
  - destruct ok; cbn [negb]; [destruct (String.eqb method "GET")|]; apply Hstore.
  - destruct ok; cbn [negb]; [destruct (String.eqb method "GET")|]; apply Hstore.
Qed.

(** The static key presented with the scheme written [bearer]. *)
Lemma mcp_gate_witness :
  fst (mcpEndpoint (Sample.config 1) "POST" (Some "lab.example")
         (Some "Bearer static-key-0123") 0 empty_stores) = Handed
  /\ fst (mcpEndpoint (Sample.config 1) "POST" (Some "lab.example")
            (Some "bearer static-key-0123") 0 empty_stores)
     = Refused (sendUnauthorized (Some "lab.example")).
Proof.
  split.
  - apply (proj1 (mcp_gate (Sample.config 1) "POST" (Some "lab.example")
                    (Some "Bearer static-key-0123") 0 empty_stores)).
    exists "static-key-0123". split; [reflexivity|]. left. split; [discriminate | reflexivity].
  - apply (proj1 (proj2 (mcp_gate (Sample.config 1) "POST" (Some "lab.example")
                           (Some "bearer static-key-0123") 0 empty_stores))).
    intros (token & Heq & _). discriminate.
Defined.

End McpGate.

(** ** Configuration and the capability level *)

Section Levels.
Import Tools.
Local Open Scope Z_scope.

(** X19.  [validateConfig] accepts a configuration exactly when its
    capability level is neither below 1 nor above 4, which holds for the
    integers 1 to 4 and for [NaN], and, when a port is set, an API key or
    both OAuth client values are present. *)
Theorem validateConfig_spec :
  forall config : Config,
    validateConfig config = Ok tt
    <-> (capabilityLevel config = Js.NaN
         \/ exists L, capabilityLevel config = Js.Int L /\ 1 <= L <= 4)
        /\ (forall p, port config = Some p -> p <> 0 ->
            apiKey config <> "" \/ Http.hasOAuth config = true).
Proof.
  intros config. unfold validateConfig, Http.hasOAuth.
  destruct (capabilityLevel config) as [|L]; cbn [Js.lt Js.gt orb].
  - destruct (port config) as [p|].
    + destruct (Z.eqb_spec p 0) as [->|Hp]; cbn [negb].
      * split; [intros _|reflexivity]. split; [left; reflexivity|].
        intros p' Hp' Hne. injection Hp' as <-. contradiction.
      * destruct (String.eqb_spec (apiKey config) "") as [Hk|Hk]; cbn [negb andb].
        -- destruct (Js.truthy (oauthClientId config) && Js.truthy (oauthClientSecret config))
             eqn:Ho; cbn [negb].
           ++ split; [intros _|reflexivity]. split; [left; reflexivity|].
              intros p' _ _. right. reflexivity.
           ++ split; [discriminate|]. intros [_ Hcred].
              destruct (Hcred p eq_refl Hp) as [Hc|Hc]; [contradiction | discriminate].
        -- split; [intros _|reflexivity]. split; [left; reflexivity|].
           intros p' _ _. left. exact Hk.
    + split; [intros _|reflexivity]. split; [left; reflexivity|]. intros p' Hp'. discriminate.
  - destruct (Z.ltb_spec L 1) as [Hlo|Hlo]; cbn [orb].
    { split; [discriminate|]. intros [[Hn|(L' & HL & Hr)] _]; [discriminate|].
      injection HL as <-. lia. }
    destruct (Z.ltb_spec 4 L) as [Hhi|Hhi].
    { split; [discriminate|]. intros [[Hn|(L' & HL & Hr)] _]; [discriminate|].
      injection HL as <-. lia. }
    assert (Hlevel : Js.NaN = Js.Int L \/ exists L', Js.Int L = Js.Int L' /\ 1 <= L' <= 4).
    { right. exists L. split; [reflexivity | lia]. }
    destruct (port config) as [p|].
    + destruct (Z.eqb_spec p 0) as [->|Hp]; cbn [negb].
      * split; [intros _|reflexivity]. split; [right; exists L; split; [reflexivity|lia]|].
        intros p' Hp' Hne. injection Hp' as <-. contradiction.
      * destruct (String.eqb_spec (apiKey config) "") as [Hk|Hk]; cbn [negb andb].
        -- destruct (Js.truthy (oauthClientId config) && Js.truthy (oauthClientSecret config))
             eqn:Ho; cbn [negb].
           ++ split; [intros _|reflexivity].
              split; [right; exists L; split; [reflexivity|lia]|].
              intros p' _ _. right. reflexivity.
           ++ split; [discriminate|]. intros [_ Hcred].
              destruct (Hcred p eq_refl Hp) as [Hc|Hc]; [contradiction | discriminate].
        -- split; [intros _|reflexivity].
           split; [right; exists L; split; [reflexivity|lia]|].
           intros p' _ _. left. exact Hk.
    + split; [intros _|reflexivity]. split; [right; exists L; split; [reflexivity|lia]|].
      intros p' Hp'. discriminate.
Qed.

(** X20.  A capability level of [NaN] passes [validateConfig] and then
    switches the gate off: no tool is listed, yet every tool of the
    registry, whatever its level, is dispatched to its handler. *)
Theorem nan_level_opens_the_gate :
  forall (tools : list ToolDefinition) (config : Config),
    capabilityLevel config = Js.NaN ->
    validateConfig config <> Threw "CAPABILITY_LEVEL must be between 1 and 4"
    /\ listTools tools config = []
    /\ (forall toolName arguments log tool,
          getTool tools toolName = Some tool ->
          exists result,
            callTool tools config toolName arguments log
            = (Returns result, (log ++ [name tool])%list)).
Proof.
  intros tools config Hnan. split; [| split].
  - unfold validateConfig. rewrite Hnan. cbn [Js.lt Js.gt orb].
    destruct (port config) as [p|]; [|discriminate].
    destruct (negb (p =? 0)); [|discriminate].
    destruct (negb (negb (String.eqb (apiKey config) ""))
              && negb (Js.truthy (oauthClientId config)
                       && Js.truthy (oauthClientSecret config))); discriminate.
  - unfold listTools, getToolsForLevel. rewrite Hnan.
    induction tools as [|t tools IH]; [reflexivity|]. cbn [List.filter Js.le]. exact IH.
  - intros toolName arguments log tool Hsome. unfold callTool.
    rewrite Hsome, Hnan. cbn [Js.gt].
    destruct (handler tool _ config) as [[json| |e]|e]; eexists; reflexivity.
Qed.

(** The shipped registry under a level that is not a number: the level-4
    tool [proxmox_delete_vm] runs. *)
Lemma nan_level_opens_the_gate_witness :
  let config := mkConfig Js.NaN "static-key-0123" (Some 3000) None None in
  validateConfig config = Ok tt
  /\ snd (callTool (ALL_TOOLS Sample.quiet) config "proxmox_delete_vm" None [])
     = ["proxmox_delete_vm"].
Proof.
  intros config. split; [reflexivity|].
  destruct (proj2 (proj2 (nan_level_opens_the_gate (ALL_TOOLS Sample.quiet) config eq_refl))
              "proxmox_delete_vm" None []
              (mkTool "proxmox_delete_vm" "Delete a Proxmox VM or container" 4
                      (Sample.quiet "proxmox_delete_vm")))
    as [result Hcall].
  - vm_compute. reflexivity.
  - rewrite Hcall. reflexivity.
Defined.

Lemma validateConfig_spec_witness :
  validateConfig (Sample.config 3) = Ok tt.
Proof.
  apply (proj2 (validateConfig_spec (Sample.config 3))). split.
  - right. exists 3. split; [reflexivity | lia].
  - intros p _ _. left. discriminate.
Defined.

Lemma unique_names (tools : list ToolDefinition) (a b : ToolDefinition) :
  NoDup (map name tools) -> In a tools -> In b tools -> name a = name b -> a = b.
Proof.
  induction tools as [|t tools IH]; intros Hnd Ha Hb Hname; [destruct Ha|].
  cbn [map] in Hnd. apply NoDup_cons in Hnd as [Hnotin Hnd].
  rewrite list_elem_of_In in Hnotin.
  destruct Ha as [<-|Ha], Hb as [<-|Hb]; auto.
  - exfalso. apply Hnotin. rewrite Hname. now apply in_map.
  - exfalso. apply Hnotin. rewrite <- Hname. now apply in_map.
Qed.

Lemma le_not_gt (a L : Z) : Js.le (Js.Int a) (Js.Int L) = negb (Js.gt (Js.Int a) (Js.Int L)).
Proof.
  cbn [Js.le Js.gt]. destruct (Z.leb_spec a L), (Z.ltb_spec L a); try reflexivity; lia.
Qed.

(** The listing and the dispatcher read the same registry. *)
Lemma listing_agrees (tools : list ToolDefinition) (config : Config) (L : Z)
    (toolName : string) (arguments : option Json.value) (log : list string) :
  NoDup (map name tools) ->
  capabilityLevel config = Js.Int L ->
  ((exists d, In (toolName, d) (listTools tools config))
   <-> exists tool, getTool tools toolName = Some tool
                    /\ Js.gt (Js.Int (level tool)) (Js.Int L) = false)
  /\ ((exists tool, getTool tools toolName = Some tool
                    /\ Js.gt (Js.Int (level tool)) (Js.Int L) = false)
      <-> exists result,
            fst (callTool tools config toolName arguments log) = Returns result).
Proof.
  intros Hnd HL. split.
  - unfold listTools, getToolsForLevel. rewrite HL. split.
    + intros (d & Hin). apply in_map_iff in Hin as (tool & Heq & Hin).
      injection Heq as Hname _. apply filter_In in Hin as [Hin Hle].
      rewrite le_not_gt, negb_true_iff in Hle.
      destruct (getTool tools toolName) as [tool'|] eqn:Hget.
      * apply getTool_Some in Hget as [Hin' Hname'].
        assert (tool' = tool) as -> by (apply (unique_names tools); congruence).
        exists tool. auto.
      * exfalso. apply (proj1 (getTool_None tools toolName) Hget tool Hin Hname).
    + intros (tool & Hget & Hgt). apply getTool_Some in Hget as [Hin Hname].
      exists (description tool). apply in_map_iff. exists tool.
      split; [now rewrite Hname|]. apply filter_In. split; [exact Hin|].
      now rewrite le_not_gt, Hgt.
  - unfold callTool. rewrite HL. split.
    + intros (tool & -> & ->). destruct (handler tool _ config) as [[json| |e]|e]; eexists; reflexivity.
    + destruct (getTool tools toolName) as [tool|]; [| intros [r Hr]; discriminate].
      destruct (Js.gt (Js.Int (level tool)) (Js.Int L)) eqn:Hgt;
        [intros [r Hr]; discriminate|].
      intros _. exists tool. auto.
Qed.

(** X21.  When the names of a registry are pairwise distinct and the
    configured level is a number, the listing and the dispatcher agree: a
    tool name is listed exactly when a call of that name is dispatched to a
    handler, and a call of any other name is answered with an error, no
    handler being invoked. *)
Theorem listed_iff_callable :
  forall (tools : list ToolDefinition) (config : Config) (L : Z) (toolName : string)
         (arguments : option Json.value) (log : list string),
    NoDup (map name tools) ->
    capabilityLevel config = Js.Int L ->
    ((exists d, In (toolName, d) (listTools tools config))
     <-> exists result, fst (callTool tools config toolName arguments log) = Returns result)
    /\ (~ (exists d, In (toolName, d) (listTools tools config))
        -> exists code message,
             callTool tools config toolName arguments log = (Throws code message, log)).
Proof.
  intros tools config L toolName arguments log Hnd HL.
  destruct (listing_agrees tools config L toolName arguments log Hnd HL)
    as [Hlisted Hcall].
  split; [now rewrite Hlisted|].
  intros Hno. unfold callTool. rewrite HL.
  destruct (getTool tools toolName) as [tool|] eqn:Hget; [| eexists _, _; reflexivity].
  destruct (Js.gt (Js.Int (level tool)) (Js.Int L)) eqn:Hgt; [eexists _, _; reflexivity|].
  exfalso. apply Hno, Hlisted. exists tool. auto.
Qed.

(** The three-tool registry at level 2. *)
Lemma listed_iff_callable_witness :
  exists result,
    fst (callTool Sample.registry124 (Sample.config 2) "restart" None [])
    = Returns result.
Proof.
  apply (proj1 (listed_iff_callable Sample.registry124 (Sample.config 2) 2 "restart"
                  None []
                  ltac:(apply (bool_decide_eq_true_1 _); vm_compute; reflexivity)
                  eq_refl)).
  exists "level two". vm_compute. right. left. reflexivity.
Defined.

Lemma ALL_TOOLS_names (integration : string -> Json.value -> Config -> Outcome) :
  map name (ALL_TOOLS integration) = map (fun row => fst (fst row)) TOOL_TABLE.
Proof. unfold ALL_TOOLS. rewrite map_map. reflexivity. Qed.

Lemma ALL_TOOLS_levels (integration : string -> Json.value -> Config -> Outcome) :
  map level (ALL_TOOLS integration) = map snd TOOL_TABLE.
Proof. unfold ALL_TOOLS. rewrite map_map. reflexivity. Qed.

Lemma ALL_TOOLS_NoDup (integration : string -> Json.value -> Config -> Outcome) :
  NoDup (map name (ALL_TOOLS integration)).
Proof.
  rewrite ALL_TOOLS_names.
  apply (bool_decide_eq_true_1 (NoDup (map (fun row => fst (fst row)) TOOL_TABLE))).
  vm_compute. reflexivity.
Qed.

(** X22.  In the shipped registry the forty tool names are pairwise
    distinct and every level is between 1 and 4, whatever the integrations
    do.  Hence, at an integer level, a name of the registry is listed
    exactly when its call is dispatched; at level 4 or above every tool is
    listed, and below level 1 none. *)
Theorem shipped_registry_is_consistent :
  forall (integration : string -> Json.value -> Config -> Outcome)
         (config : Config) (L : Z),
    capabilityLevel config = Js.Int L ->
    let tools := ALL_TOOLS integration in
    NoDup (map name tools)
    /\ Forall (fun tool => 1 <= level tool <= 4) tools
    /\ (forall toolName arguments log,
          (exists d, In (toolName, d) (listTools tools config))
          <-> exists result,
                fst (callTool tools config toolName arguments log) = Returns result)
    /\ (4 <= L -> length (listTools tools config) = 40%nat)
    /\ (L < 1 -> listTools tools config = []).
Proof.
  intros integration config L HL tools.
  assert (Hlevels : Forall (fun tool => 1 <= level tool <= 4) tools).
  { apply Forall_forall. intros tool Hin. apply list_elem_of_In in Hin.
    assert (Hl : In (level tool) (map level tools)) by now apply in_map.
    subst tools. rewrite ALL_TOOLS_levels in Hl.
    assert (Hall : forallb (fun l => (1 <=? l) && (l <=? 4)) (map snd TOOL_TABLE) = true)
      by (vm_compute; reflexivity).
    rewrite forallb_forall in Hall. specialize (Hall _ Hl). lia. }
  split; [apply ALL_TOOLS_NoDup|]. split; [exact Hlevels|]. split; [| split].
  - intros toolName arguments log.
    destruct (listing_agrees tools config L toolName arguments log
                (ALL_TOOLS_NoDup integration) HL) as [Hlisted Hcall].
    now rewrite Hlisted.
  - intros Hfour. unfold listTools, getToolsForLevel. rewrite HL, length_map.
    assert (Hall : forall l, Forall (fun tool => 1 <= level tool <= 4) l ->
              List.filter (fun tool => Js.le (Js.Int (level tool)) (Js.Int L)) l = l).
    { induction 1 as [|t l Ht Hl IH]; [reflexivity|]. simpl.
      destruct (Z.leb_spec (level t) L); [now f_equal | lia]. }
    rewrite (Hall _ Hlevels). subst tools. unfold ALL_TOOLS. rewrite length_map. reflexivity.
  - intros Hzero. unfold listTools, getToolsForLevel. rewrite HL.
    assert (Hnone : forall l, Forall (fun tool => 1 <= level tool <= 4) l ->
              List.filter (fun tool => Js.le (Js.Int (level tool)) (Js.Int L)) l = []).
    { induction 1 as [|t l Ht Hl IH]; [reflexivity|]. simpl.
      destruct (Z.leb_spec (level t) L); [lia | exact IH]. }
    now rewrite (Hnone _ Hlevels).
Qed.

Lemma shipped_registry_is_consistent_witness :
  length (listTools (ALL_TOOLS Sample.quiet) (Sample.config 4)) = 40%nat.
Proof.
  apply (proj1 (proj2 (proj2 (proj2
           (shipped_registry_is_consistent Sample.quiet (Sample.config 4) 4 eq_refl))))).
  lia.
Defined.

(** X23.  One dispatch invokes at most one handler, that of the tool named
    in the request, and it does so exactly when it returns a result: a
    dispatch that throws ([MethodNotFound] or the level error) leaves the
    invocation log as it was, and a dispatch that returns, with or without
    [isError], has appended the requested name and nothing else. *)
Theorem dispatch_invokes_once :
  forall (tools : list ToolDefinition) (config : Config) (toolName : string)
         (arguments : option Json.value) (log : list string),
    let r := callTool tools config toolName arguments log in
    (forall code message, fst r = Throws code message -> snd r = log)
    /\ (forall result, fst r = Returns result -> snd r = (log ++ [toolName])%list)
    /\ (callCount toolName (snd r) <= callCount toolName log + 1)%nat
    /\ (forall other, other <> toolName -> callCount other (snd r) = callCount other log).
Proof.
  intros tools config toolName arguments log r. subst r. unfold callTool.
  assert (Hcount : forall n, callCount n (log ++ [toolName])
                             = (callCount n log + if String.eqb n toolName then 1 else 0)%nat).
  { intros n. unfold callCount. rewrite List.filter_app, length_app. cbn [List.filter].
    destruct (String.eqb n toolName); reflexivity. }
  destruct (getTool tools toolName) as [tool|] eqn:Hget.
  - apply getTool_Some in Hget as [_ Hname].
    destruct (Js.gt (Js.Int (level tool)) (capabilityLevel config)).
    + cbn [fst snd]. repeat split; try discriminate; auto. lia.
    + rewrite Hname.
      destruct (handler tool _ config) as [[json| |e]|e]; cbn [fst snd];
        repeat split; try discriminate; auto;
        try (rewrite Hcount, String.eqb_refl; lia);
        intros other Hne; rewrite Hcount; apply String.eqb_neq in Hne; rewrite Hne; lia.
  - cbn [fst snd]. repeat split; try discriminate; auto. lia.
Qed.

Lemma dispatch_invokes_once_witness :
  snd (callTool Sample.registry124 (Sample.config 2) "read" None ["restart"])
  = ["restart"; "read"].
Proof.
  apply (proj1 (proj2 (dispatch_invokes_once Sample.registry124 (Sample.config 2) "read"
                         None ["restart"]))
           (mkResult (Some (Json.quote "r")) None)).
  reflexivity.
Defined.

(** X24.  Raising the capability level never takes a tool away: every tool
    listed at a level is listed at each higher level, and a call that is
    dispatched at a level is dispatched at each higher level. *)
Theorem level_is_monotone :
  forall (tools : list ToolDefinition) (config config' : Config) (L L' : Z)
         (toolName : string) (arguments : option Json.value) (log : list string),
    capabilityLevel config = Js.Int L ->
    capabilityLevel config' = Js.Int L' ->
    L <= L' ->
    (forall n d, In (n, d) (listTools tools config) -> In (n, d) (listTools tools config'))
    /\ (forall result,
          fst (callTool tools config toolName arguments log) = Returns result ->
          exists result',
            callTool tools config' toolName arguments log
            = (Returns result', (log ++ [toolName])%list)).
Proof.
  intros tools config config' L L' toolName arguments log HL HL' Hle. split.
  - intros n d. unfold listTools, getToolsForLevel. rewrite HL, HL', !in_map_iff.
    intros (tool & Heq & Hin). exists tool. split; [exact Heq|].
    apply filter_In in Hin as [Hin Hlev]. apply filter_In. split; [exact Hin|].
    cbn [Js.le] in *. apply Z.leb_le in Hlev. apply Z.leb_le. lia.
  - intros result. unfold callTool. rewrite HL, HL'.
    destruct (getTool tools toolName) as [tool|] eqn:Hget; [|discriminate].
    apply getTool_Some in Hget as [_ Hname].
    cbn [Js.gt]. destruct (Z.ltb_spec L (level tool)); [discriminate|].
    intros _. destruct (Z.ltb_spec L' (level tool)); [lia|].
    rewrite Hname. destruct (handler tool _ config') as [[json| |e]|e]; eexists; reflexivity.
Qed.

Lemma level_is_monotone_witness :
  In ("read", "level one") (listTools Sample.registry124 (Sample.config 4)).
Proof.
  apply (proj1 (level_is_monotone Sample.registry124 (Sample.config 1) (Sample.config 4)
                  1 4 "read" None [] eq_refl eq_refl ltac:(lia))).
  left. reflexivity.
Defined.

End Levels.

(** ** The shape of an S256 challenge *)

Section ChallengeShape.
Import OAuth.
Local Open Scope Z_scope.

Lemma sextet_char (x : Z) : charIn Bytes.b64url_alphabet (Bytes.sextet x) = true.
Proof.
  unfold Bytes.sextet. change 63 with (Z.ones 6). rewrite Z.land_ones by lia.
  pose proof (Z.mod_pos_bound x (2 ^ 6) ltac:(lia)) as Hb.
  set (i := x mod 2 ^ 6) in *.
  assert (Hn : i = Z.of_nat (Z.to_nat i)) by lia. rewrite Hn.
  assert (Hlt : (Z.to_nat i < 64)%nat) by (change (2 ^ 6) with 64 in Hb; lia).
  generalize dependent (Z.to_nat i). intros n _ Hlt.
  do 64 (destruct n as [|n]; [reflexivity|]). lia.
Qed.

Lemma base64url_chars (l : list Z) :
  allChars (charIn Bytes.b64url_alphabet) (Bytes.base64url l) = true.
Proof.
  assert (Hall : forall n l, (length l <= n)%nat ->
            allChars (charIn Bytes.b64url_alphabet) (Bytes.base64url l) = true).
  { clear l. unfold allChars.
    induction n as [|n IH]; intros l Hlen.
    - destruct l; [reflexivity | simpl in Hlen; lia].
    - destruct l as [|a [|b [|c tl]]]; cbn [Bytes.base64url list_ascii_of_string forallb];
        rewrite ?sextet_char; try reflexivity.
      cbn [andb]. apply IH. simpl in Hlen. lia. }
  apply (Hall (length l)). lia.
Qed.

(** X25.  A challenge that [validatePKCE] accepts under [S256] is 43
    characters long and written in the URL-safe alphabet [A-Z a-z 0-9 - _]:
    a challenge of another length, or one carrying [=] padding, [+] or [/],
    is refused for every verifier. *)
Theorem s256_challenge_shape :
  forall verifier challenge : string,
    validatePKCE verifier challenge "S256" = true ->
    String.length challenge = 43%nat
    /\ allChars
         (charIn "ABCDEFGHIJKLMNOPQRSTUVWXYZabcdefghijklmnopqrstuvwxyz0123456789-_")
         challenge = true.
Proof.
  intros verifier challenge Hv.
  apply validatePKCE_answers in Hv as [[_ <-] | [Hm _]]; [|discriminate].
  split; [apply s256_length | apply base64url_chars].
Qed.

(** The challenge of ["abc123"]. *)
Lemma s256_challenge_shape_witness :
  String.length "bKE9UspwyIPg8LsQHkJaiehiTeUdstI5JZOvaoQRgJA" = 43%nat.
Proof.
  assert (Hv : validatePKCE "abc123" "bKE9UspwyIPg8LsQHkJaiehiTeUdstI5JZOvaoQRgJA" "S256"
               = true) by (vm_compute; reflexivity).
  exact (proj1 (s256_challenge_shape "abc123" _ Hv)).
Defined.

End ChallengeShape.

(** ** Client registration *)

Section Registration.
Import OAuth Http Server.
Local Open Scope Z_scope.
Context `{Runtime}.

Lemma append_assoc3 (a b c : string) : (a ++ b) ++ c = a ++ b ++ c.
Proof.
  induction a as [|d a IH]; [reflexivity|].
  change (String d ((a ++ b) ++ c) = String d (a ++ b ++ c)). now f_equal.
Qed.

(** X26.  Registration is open and hands out the client secret.  On a
    server with OAuth configured, any registration request whose body is a
    JSON value other than [null] is answered 201 with a body that begins
    with the configured client id and client secret.  A token request of
    grant type [client_credentials] with these two values is then answered
    with a token, and that token passes the gate in front of [/mcp]. *)
Theorem registration_opens_the_server :
  forall (config : Config) (registration : Json.value) (id secret : string)
         (req : TokenRequest) (rnd : list Z) (now now' now'' : Z)
         (host : option string) (st : Stores),
    oauthClientId config = Some id -> id <> "" ->
    oauthClientSecret config = Some secret -> secret <> "" ->
    registration <> Json.Null ->
    requestParams req
    = Some (mkParams (Some (Json.Str "client_credentials")) (Some (Json.Str id))
                     (Some (Json.Str secret)) None None None) ->
    now'' <= now' + TOKEN_EXPIRATION * 1000 ->
    (exists rest,
       registerEndpoint config (Some registration)
       = Responds
           (mkResponse 201 jsonHeaders
              ("{" ++ Json.quote "client_id" ++ ":" ++ Json.quote id ++ ","
               ++ Json.quote "client_secret" ++ ":" ++ Json.quote secret ++ ","
               ++ rest)))
    /\ let exchanged := tokenEndpoint config req rnd now now' st in
       fst exchanged = issued rnd
       /\ fst (mcpEndpoint config "POST" host (Some ("Bearer " ++ Bytes.hex rnd)) now''
                 (snd exchanged))
          = Handed.
Proof.
  intros config registration id secret req rnd now now' now'' host st
         Hid Hine Hsec Hsne Hreg Hreq Hnow.
  assert (Hcfg : hasOAuth config = true).
  { unfold hasOAuth. rewrite Hid, Hsec.
    now rewrite (proj2 (truthy_Some id) Hine), (proj2 (truthy_Some secret) Hsne). }
  split.
  - unfold registerEndpoint. rewrite Hcfg. cbn [negb].
    eexists.
    assert (Hbody : forall r, registrationBody config r
              = "{" ++ Json.quote "client_id" ++ ":" ++ Json.quote id ++ ","
                ++ Json.quote "client_secret" ++ ":" ++ Json.quote secret ++ ","
                ++ (Json.join ","
                      [ Json.quote "client_name" ++ ":"
                        ++ Json.stringify (memberOr "client_name" r (Json.Str "MCP Client"));
                        Json.quote "redirect_uris" ++ ":"
                        ++ Json.stringify (memberOr "redirect_uris" r (Json.Arr []));
                        Json.quote "grant_types" ++ ":"
                        ++ Json.stringify (Json.Arr [Json.Str "authorization_code"]);
                        Json.quote "response_types" ++ ":"
                        ++ Json.stringify (Json.Arr [Json.Str "code"]);
                        Json.quote "token_endpoint_auth_method" ++ ":"
                        ++ Json.stringify (Json.Str "none") ]
                    ++ "}")).
    { intros r. unfold registrationBody. rewrite Hid, Hsec. cbn [Js.str].
      unfold Json.stringify at 1.
      cbn [Json.serialize map Json.wrap fst snd String.eqb Ascii.eqb Bool.eqb Json.join].
      change (Json.serialize "" ("" ++ "")) with (Json.serialize "" "").
      fold (Json.stringify (memberOr "client_name" r (Json.Str "MCP Client"))).
      fold (Json.stringify (memberOr "redirect_uris" r (Json.Arr []))).
      change (Json.serialize "" "" (Json.Str id)) with (Json.quote id).
      change (Json.serialize "" "" (Json.Str secret)) with (Json.quote secret).
      rewrite !append_assoc3. reflexivity. }
    destruct registration; try contradiction; rewrite <- Hbody; reflexivity.
  - intros exchanged.
    assert (Hex : exchanged = (issued rnd, snd (issueToken rnd now' st))).
    { subst exchanged.
      rewrite (token_endpoint_credentials_grant config req _ rnd now now' st Hcfg Hreq
                 eq_refl (proj2 (truthy_value_Str id) Hine)
                 (proj2 (truthy_value_Str secret) Hsne)).
      cbn [client_id client_secret Json.the].
      rewrite untyped_credentials_Str,
              (validateClientCredentials_same id secret config Hcfg Hid Hsec).
      reflexivity. }
    rewrite Hex. split; [reflexivity|]. cbn [snd]. unfold mcpEndpoint.
    assert (Hauth : fst (authenticate config (Some ("Bearer " ++ Bytes.hex rnd)) now''
                           (snd (issueToken rnd now' st))) = true).
    { apply authenticate_true. exists (Bytes.hex rnd). split; [reflexivity|].
      right. exists (Token.mk (now' + TOKEN_EXPIRATION * 1000)).
      split; [apply lookup_insert_eq | exact Hnow]. }
    destruct (authenticate config (Some ("Bearer " ++ Bytes.hex rnd)) now''
                (snd (issueToken rnd now' st))) as [ok st'].
    cbn [fst] in Hauth. subst ok. reflexivity.
Qed.

End Registration.

(** ** Uptime text *)

Section Uptime.
Import Proxmox.
Local Open Scope Z_scope.

(** X27.  On a whole number of seconds that is a safe integer,
    [formatUptime] never reports more than the uptime and falls short of it
    by less than its last unit: from a day on it prints days and hours,
    with the hours below 24; from an hour on, hours and minutes; below an
    hour, minutes alone. *)
Theorem formatUptime_spec :
  forall seconds : Z,
    0 <= seconds <= Js.MAX_SAFE_INTEGER ->
    (86400 <= seconds ->
     exists d h,
       formatUptime seconds = Some (Js.dec d ++ "d " ++ Js.dec h ++ "h")
       /\ 1 <= d /\ 0 <= h < 24
       /\ d * 86400 + h * 3600 <= seconds < d * 86400 + (h + 1) * 3600)
    /\ (3600 <= seconds < 86400 ->
        exists h m,
          formatUptime seconds = Some (Js.dec h ++ "h " ++ Js.dec m ++ "m")
          /\ 1 <= h < 24 /\ 0 <= m < 60
          /\ h * 3600 + m * 60 <= seconds < h * 3600 + (m + 1) * 60)
    /\ (seconds < 3600 ->
        exists m,
          formatUptime seconds = Some (Js.dec m ++ "m")
          /\ 0 <= m < 60 /\ m * 60 <= seconds < (m + 1) * 60).
Proof.
  intros seconds [Hpos Hsafe]. unfold formatUptime.
  assert (Hin : Js.isSafeInteger seconds = true).
  { unfold Js.isSafeInteger. apply Z.leb_le. rewrite Z.abs_eq by exact Hpos. exact Hsafe. }
  rewrite Hin. cbn [negb].
  rewrite !Z.rem_mod_nonneg by lia.
  pose proof (Z.div_mod seconds 86400 ltac:(lia)) as Hd.
  pose proof (Z.mod_pos_bound seconds 86400 ltac:(lia)) as Hdr.
  pose proof (Z.div_mod (seconds mod 86400) 3600 ltac:(lia)) as Hh.
  pose proof (Z.mod_pos_bound (seconds mod 86400) 3600 ltac:(lia)) as Hhr.
  pose proof (Z.div_mod seconds 3600 ltac:(lia)) as Hq.
  pose proof (Z.mod_pos_bound seconds 3600 ltac:(lia)) as Hqr.
  pose proof (Z.div_mod (seconds mod 3600) 60 ltac:(lia)) as Hm.
  pose proof (Z.mod_pos_bound (seconds mod 3600) 60 ltac:(lia)) as Hmr.
  set (d := seconds / 86400) in *. set (h := seconds mod 86400 / 3600) in *.
  set (m := seconds mod 3600 / 60) in *.
  assert (Hdpos : 0 <= d) by (apply Z.div_pos; lia).
  assert (Hhpos : 0 <= h) by (apply Z.div_pos; lia).
  assert (Hmpos : 0 <= m) by (apply Z.div_pos; lia).
  split; [| split].
  - intros Hday. assert (1 <= d) by (subst d; apply Z.div_le_lower_bound; lia).
    destruct (Z.ltb_spec 0 d); [|lia].
    exists d, h. split; [reflexivity|]. split; [lia|]. split; [|lia].
    split; [exact Hhpos | subst h; apply Z.div_lt_upper_bound; lia].
  - intros Hhour.
    assert (d = 0) by (subst d; apply Z.div_small; lia).
    assert (Hsmall : seconds mod 86400 = seconds) by (apply Z.mod_small; lia).
    destruct (Z.ltb_spec 0 d); [lia|].
    assert (h = seconds / 3600) by (subst h; now rewrite Hsmall).
    assert (1 <= h) by (subst h; rewrite Hsmall; apply Z.div_le_lower_bound; lia).
    destruct (Z.ltb_spec 0 h); [|lia].
    exists h, m. split; [reflexivity|].
    split; [split; [lia | subst h; apply Z.div_lt_upper_bound; lia]|].
    split; [split; [exact Hmpos | subst m; apply Z.div_lt_upper_bound; lia]|].
    lia.
  - intros Hmin.
    assert (d = 0) by (subst d; apply Z.div_small; lia).
    assert (Hsmall : seconds mod 86400 = seconds) by (apply Z.mod_small; lia).
    assert (h = 0) by (subst h; rewrite Hsmall; apply Z.div_small; lia).
    assert (Hsmall' : seconds mod 3600 = seconds) by (apply Z.mod_small; lia).
    destruct (Z.ltb_spec 0 d); [lia|]. destruct (Z.ltb_spec 0 h); [lia|].
    exists m. split; [reflexivity|].
    split; [split; [exact Hmpos | subst m; apply Z.div_lt_upper_bound; lia]|].
    lia.
Qed.

(** Ninety thousand seconds: a day and an hour. *)
Lemma formatUptime_spec_witness :
  exists d h,
    formatUptime 90000 = Some (Js.dec d ++ "d " ++ Js.dec h ++ "h")
    /\ 1 <= d /\ 0 <= h < 24
    /\ d * 86400 + h * 3600 <= 90000 < d * 86400 + (h + 1) * 3600.
Proof.
  apply (proj1 (formatUptime_spec 90000 ltac:(unfold Js.MAX_SAFE_INTEGER; lia))). lia.
Defined.

End Uptime.

Section RegistrationExample.
Import OAuth Http Server.
Local Open Scope Z_scope.

(** A caller that registers with an empty object and then asks for a token
    with the values of the answer. *)
Lemma registration_opens_the_server_witness :
  let good :=
    mkRequest (Some "application/x-www-form-urlencoded") None
      "grant_type=client_credentials&client_id=homelab&client_secret=s3cret" in
  fst (mcpEndpoint (Sample.config 1) "POST" None
         (Some ("Bearer " ++ Bytes.hex (Sample.rnd 9))) 10
         (snd (@tokenEndpoint Sample.runtime (Sample.config 1) good (Sample.rnd 9) 0 5
                 empty_stores)))
  = Handed.
Proof.
  intros good.
  apply (proj2 (proj2 (@registration_opens_the_server Sample.runtime (Sample.config 1)
                         (Json.Obj []) "homelab" "s3cret" good (Sample.rnd 9) 0 5 10 None
                         empty_stores eq_refl ltac:(discriminate) eq_refl
                         ltac:(discriminate) ltac:(discriminate)
                         ltac:(vm_compute; reflexivity)
                         ltac:(unfold TOKEN_EXPIRATION; lia)))).
Defined.

End RegistrationExample.

(** ** The content type of a token request *)

Section ContentType.
Import OAuth Http.
Local Open Scope Z_scope.
Context `{Runtime}.

(** X28.  The token endpoint reads the body only under a content type that
    contains [application/x-www-form-urlencoded] or [application/json].
    Under any other content type, or none, the request has no grant type
    whatever its body and its [Authorization] header, and is answered 400
    [unsupported_grant_type] with the stores unchanged. *)
Theorem unread_body_is_unsupported :
  forall (config : Config) (req : TokenRequest) (rnd : list Z) (now now' : Z)
         (st : Stores),
    hasOAuth config = true ->
    Js.includes (Js.str (contentType req)) "application/x-www-form-urlencoded" = false ->
    Js.includes (Js.str (contentType req)) "application/json" = false ->
    tokenEndpoint config req rnd now now' st
    = (badRequest "unsupported_grant_type"
         "Supported grant types: authorization_code, client_credentials", st).
Proof.
  intros config req rnd now now' st Hcfg Hform Hjson.
  assert (Hct : Js.str (Js.or_else (contentType req) (Some "")) = Js.str (contentType req)).
  { unfold Js.or_else. destruct (Js.truthy (contentType req)) eqn:Ht; [reflexivity|].
    destruct (contentType req) as [ct|]; [|reflexivity].
    unfold Js.truthy in Ht. apply negb_false_iff, String.eqb_eq in Ht. now subst ct. }
  assert (Hgrant : exists p, requestParams req = Some p /\ grant_type p = None).
  { unfold requestParams. rewrite Hct, Hform, Hjson.
    destruct (if Js.truthy (authorization req)
                 && String.prefix "Basic " (Js.str (authorization req))
              then parseBasicAuth (Js.str (authorization req)) else None);
      eexists; split; reflexivity. }
  destruct Hgrant as (p & Hp & Hg).
  unfold tokenEndpoint. rewrite Hcfg, Hp. cbn [negb]. rewrite Hg. reflexivity.
Qed.

End ContentType.

Section ContentTypeExample.
Import OAuth Http.
Local Open Scope Z_scope.

(** A well-formed form body sent as [text/plain]. *)
Lemma unread_body_is_unsupported_witness :
  fst (@tokenEndpoint Sample.runtime (Sample.config 1)
         (mkRequest (Some "text/plain") None
            "grant_type=client_credentials&client_id=homelab&client_secret=s3cret")
         (Sample.rnd 9) 0 0 empty_stores)
  = badRequest "unsupported_grant_type"
      "Supported grant types: authorization_code, client_credentials".
Proof.
  set (req := mkRequest (Some "text/plain") None
                "grant_type=client_credentials&client_id=homelab&client_secret=s3cret").
  assert (Hform : Js.includes (Js.str (contentType req))
                    "application/x-www-form-urlencoded" = false)
    by (vm_compute; reflexivity).
  assert (Hjson : Js.includes (Js.str (contentType req)) "application/json" = false)
    by (vm_compute; reflexivity).
  rewrite (@unread_body_is_unsupported Sample.runtime (Sample.config 1) req (Sample.rnd 9)
             0 0 empty_stores eq_refl Hform Hjson).
  reflexivity.
Defined.

End ContentTypeExample.
